(** * The [submit] command of the exercism CLI ([cmd/submit.go])

    A shallow embedding of the submission pipeline

      sanitizeArgs -> _exercise -> migrateLegacyMetadata -> _metadata
                   -> _documents -> submitDocuments -> printResult

    together with the properties of it that the specification states.

    Go strings are byte strings and are modelled by [string]; [int64] sizes
    by [Z]; the [[]string] argument slice by a location in a store of backing
    arrays, so that the aliasing between the caller's slice and the context's
    slice is visible; writes to [Err] and [Out] and the requests handed to the
    HTTP client by logs in the state.

    The last part embeds the dump functions of [debug/debug.go], with the
    bodies of requests and responses as readers over a store of streams and
    buffers, and proves what they do to the header and to the body of what
    they dump. *)

From Stdlib Require Import ZArith String Ascii List Bool Lia DecimalString.
From stdpp Require Import base option list gmap strings.
Import ListNotations.

Local Open Scope Z_scope.

(** ** Package [fmt], as far as [submit.go] reaches it

    [submit.go] formats with constant format strings whose verbs are plain
    [%s], [%d], [%[1]s] and [%[2]s] (these are spliced by hand below, next to
    the code that uses them) and, in two places, with a format string that is
    not a constant and comes with no operand at all:
    [fmt.Errorf(jsonErrBody.Error.Message)] and
    [fmt.Fprintf(Err, migrationStatus.String())].  For the latter the module
    follows [doPrintf] of the Go standard library for an empty operand list. *)
Module fmt.

Definition byte (c : ascii) : N := N_of_ascii c.

Definition isChar (c : ascii) (lit : string) : bool :=
  match lit with
  | String d EmptyString => Ascii.eqb c d
  | _ => false
  end.

Arguments isChar : simpl never.

Definition isDigit (c : ascii) : bool := ((48 <=? byte c) && (byte c <=? 57))%N.

(** The flag characters that the [simpleFormat] loop consumes after ['%']. *)
Definition isFlag (c : ascii) : bool :=
  isChar c "#" || isChar c "0" || isChar c "+" || isChar c "-" || isChar c " ".

Fixpoint skipFlags (s : string) : string :=
  match s with
  | String c r => if isFlag c then skipFlags r else s
  | EmptyString => s
  end.

(** [format[k:]] *)
Fixpoint advance (k : nat) (s : string) : string :=
  match k, s with
  | S k', String _ r => advance k' r
  | _, _ => s
  end.

(** [tooLarge]: the parsed number is beyond 1e6 in magnitude. *)
Definition tooLarge (x : Z) : bool := (1000000 <? x) || (x <? -1000000).

(** The loop of [parsenum] over the [n] bytes [format[start:end]] at the
    head of [s]; [k] counts the bytes consumed.  [None] is the overflow
    exit. *)
Fixpoint parsenum_loop (s : string) (n : nat) (num : Z) (isnum : bool) (k : nat)
  : option (Z * bool * nat) :=
  match n, s with
  | S n', String c r =>
      if isDigit c then
        if tooLarge num then None
        else parsenum_loop r n' (num * 10 + (Z.of_N (byte c) - 48)) true (S k)
      else Some (num, isnum, k)
  | _, _ => Some (num, isnum, k)
  end.

(** [parsenum(format, start, end)] with [s = format[start:]] and
    [n = end - start]; the last component is [newi - start]. *)
Definition parsenum (s : string) (n : nat) : Z * bool * nat :=
  match n with
  | O => (0, false, O)
  | _ => match parsenum_loop s n 0 false O with
         | Some r => r
         | None => (0, false, n)
         end
  end.

(** Position of the first [']'] in [s], counted from [i]. *)
Fixpoint closing (s : string) (i : nat) : option nat :=
  match s with
  | EmptyString => None
  | String c r => if isChar c "]" then Some i else closing r (S i)
  end.

(** [parseArgNumber(format)] for [format] starting with ['[']:
    [(index, wid, ok)]. *)
Definition parseArgNumber (s : string) : Z * nat * bool :=
  if (String.length s <? 3)%nat then (0, 1%nat, false)
  else
    match s with
    | EmptyString => (0, 1%nat, false)
    | String _ r =>
        match closing r 1 with
        | Some i =>
            let '(width, ok, newi) := parsenum r (i - 1) in
            if negb ok || negb (Nat.eqb (1 + newi) i) then (0, S i, false)
            else (width - 1, S i, true)
        | None => (0, 1%nat, false)
        end
    end.

(** [argNumber] when there are no operands ([numArgs = 0]): an explicit
    index can never be in range, so [argNum] stays put and [goodArgNum]
    drops.  Result: the rest of the format, [found], [goodArgNum]. *)
Definition argNumber (s : string) (good : bool) : string * bool * bool :=
  match s with
  | String c _ =>
      if isChar c "[" then
        let '(index, wid, ok) := parseArgNumber s in
        if ok && (0 <=? index) && (index <? 0) then (advance wid s, true, good)
        else (advance wid s, ok, false)
      else (s, false, good)
  | EmptyString => (s, false, good)
  end.

(** [first] and [acceptRanges] of [unicode/utf8]: for a leading byte, the
    length of the encoding and the range allowed for the second byte;
    [None] for a byte that cannot start an encoding. *)
Definition first (c : ascii) : option (nat * N * N) :=
  let b := byte c in
  (if b <? 128 then Some (1%nat, 0, 0)
   else if b <? 194 then None
   else if b <? 224 then Some (2%nat, 128, 191)
   else if b =? 224 then Some (3%nat, 160, 191)
   else if b <? 237 then Some (3%nat, 128, 191)
   else if b =? 237 then Some (3%nat, 128, 159)
   else if b <? 240 then Some (3%nat, 128, 191)
   else if b =? 240 then Some (4%nat, 144, 191)
   else if b <? 244 then Some (4%nat, 128, 191)
   else if b =? 244 then Some (4%nat, 128, 143)
   else None)%N.

Definition within (lo hi : N) (c : ascii) : bool := ((lo <=? byte c) && (byte c <=? hi))%N.

(** The encoding of [utf8.RuneError], U+FFFD. *)
Definition RuneError : string :=
  String (ascii_of_N 239) (String (ascii_of_N 191) (String (ascii_of_N 189) EmptyString)).

(** The verb at the head of [String c r]: [utf8.DecodeRuneInString] followed
    by [writeRune].  Returns what [writeRune(verb)] puts in the buffer and
    the format after the verb.  A well-formed encoding is written back
    unchanged; anything else is one byte wide and written as U+FFFD. *)
Definition decodeVerb (c : ascii) (r : string) : string * string :=
  match first c with
  | None => (RuneError, r)
  | Some (sz, lo, hi) =>
      match sz, r with
      | 1%nat, _ => (String c EmptyString, r)
      | 2%nat, String c1 r1 =>
          if within lo hi c1 then (String c (String c1 EmptyString), r1)
          else (RuneError, r)
      | 3%nat, String c1 (String c2 r2) =>
          if within lo hi c1 && within 128 191 c2
          then (String c (String c1 (String c2 EmptyString)), r2)
          else (RuneError, r)
      | 4%nat, String c1 (String c2 (String c3 r3)) =>
          if within lo hi c1 && within 128 191 c2 && within 128 191 c3
          then (String c (String c1 (String c2 (String c3 EmptyString))), r3)
          else (RuneError, r)
      | _, _ => (RuneError, r)
      end
  end.

Definition percentBangString : string := "%!".
Definition missingString : string := "(MISSING)".
Definition badIndexString : string := "(BADINDEX)".
Definition noVerbString : string := "%!(NOVERB)".
Definition badWidthString : string := "%!(BADWIDTH)".
Definition badPrecString : string := "%!(BADPREC)".

(** "Do we have width?"  With no operand a ['*'] finds no integer and
    writes [badWidthString].  Result: what is written, the rest of the
    format, [afterIndex], [goodArgNum]. *)
Definition width (s : string) (afterIndex good : bool)
  : string * string * bool * bool :=
  match s with
  | String c r =>
      if isChar c "*" then (badWidthString, r, false, good)
      else
        let '(_, present, k) := parsenum s (String.length s) in
        (EmptyString, advance k s, afterIndex,
         if afterIndex && present then false else good)
  | EmptyString => (EmptyString, s, afterIndex, good)
  end.

(** "Do we have precision?"  The test is [i+1 < end && format[i] == '.']:
    a ['.'] that ends the format is no precision and is left to be the
    verb. *)
Definition precision (s : string) (afterIndex good : bool)
  : string * string * bool * bool :=
  match s with
  | String c r =>
      if (1 <? String.length s)%nat && isChar c "." then
        let good := if afterIndex then false else good in
        let '(r, afterIndex, good) := argNumber r good in
        match r with
        | String c' r' =>
            if isChar c' "*" then (badPrecString, r', false, good)
            else
              let '(_, _, k) := parsenum r (String.length r) in
              (EmptyString, advance k r, afterIndex, good)
        | EmptyString => (EmptyString, r, afterIndex, good)
        end
      else (EmptyString, s, afterIndex, good)
  | EmptyString => (EmptyString, s, afterIndex, good)
  end.

(** The verb and the [switch] on it; with no operand every verb but ['%']
    ends in [badArgNum] or [missingArg]. *)
Definition verb (s : string) (good : bool) : string * string :=
  match s with
  | EmptyString => (noVerbString, EmptyString)
  | String c r =>
      let '(v, r) := decodeVerb c r in
      if String.eqb v "%" then ("%"%string, r)
      else if negb good then (percentBangString +:+ v +:+ badIndexString, r)
      else (percentBangString +:+ v +:+ missingString, r)
  end.

(** One pass of the body of [formatLoop] after the ['%'] has been consumed,
    with no operands: what is written, and the format that is left. *)
Definition directive (s : string) : string * string :=
  let '(s, afterIndex, good) := argNumber (skipFlags s) true in
  let '(out1, s, afterIndex, good) := width s afterIndex good in
  let '(out2, s, afterIndex, good) := precision s afterIndex good in
  let '(s, _, good) :=
    if afterIndex then (s, afterIndex, good) else argNumber s good in
  let '(out3, s) := verb s good in
  (out1 +:+ out2 +:+ out3, s).

(** The run of bytes before the next ['%'], and the format from that ['%']
    on. *)
Fixpoint literal (s : string) : string * string :=
  match s with
  | EmptyString => (EmptyString, EmptyString)
  | String c r =>
      if isChar c "%" then (EmptyString, s)
      else let '(lit, rest) := literal r in (String c lit, rest)
  end.

(** [formatLoop]; every directive consumes its ['%'], so a fuel above the
    length of the format is never used up ([doPrintf_fuel] below). *)
Fixpoint doPrintf (fuel : nat) (format : string) : string :=
  match fuel with
  | O => EmptyString
  | S fuel' =>
      let '(lit, rest) := literal format in
      match rest with
      | EmptyString => lit
      | String _ r =>
          let '(out, rest') := directive r in
          lit +:+ out +:+ doPrintf fuel' rest'
      end
  end.

(** [fmt.Sprintf(format)] with no operand; [fmt.Errorf(format)] is the error
    with this text. *)
Definition Sprintf0 (format : string) : string :=
  doPrintf (S (String.length format)) format.

(** Whether a format has a ['%'] at all. *)
Fixpoint hasPercent (s : string) : bool :=
  match s with
  | EmptyString => false
  | String c r => isChar c "%" || hasPercent r
  end.

(** [%d] of an integer. *)
Definition itoa (n : Z) : string := NilZero.string_of_int (Z.to_int n).

End fmt.

(** ** Values that cross the boundary of [submit.go] *)

(** An [error] made by a collaborator ([os], [path/filepath], [workspace],
    [api], [net/http], [encoding/json], the rest of [cmd]).  [submit.go] hands
    such an error on unchanged, prints its text, or asks [os.IsNotExist] or
    [workspace.IsMissingMetadata] of it. *)
Record fault := Fault {
  fault_text : string;
  fault_notExist : bool;
  fault_missingMetadata : bool
}.

Module os.
(** The two methods of [os.FileInfo] that the code calls. *)
Record FileInfo := { Size : Z; IsDir : bool }.
Definition IsNotExist (err : fault) : bool := fault_notExist err.
End os.

Module io.
(** An [io.Reader] read to its end: the bytes it yields and, when the read
    breaks off instead of reaching EOF, the error. *)
Record Reader := { data : string; broken : option fault }.
End io.

(** Modelled from the spec: the declarations of package [workspace], of which
    [submit.go] uses the fields and methods below ("Exercise: slug, track
    identifier, absolute root directory"; "ExerciseMetadata: solution ID,
    exercise slug, track, requester flag, auto-approve flag, team identifier,
    solution URL"; "Document: exercise-relative path label, absolute
    filesystem path"). *)
Module workspace.
Record Workspace := { Dir : string }.

Module Exercise.
Record t := { Root : string; Track : string; Slug : string }.
End Exercise.

Module ExerciseMetadata.
Record t := {
  ID : string;
  Exercise : string;
  Track : string;
  IsRequester : bool;
  AutoApprove : bool;
  Team : string;
  URL : string
}.
End ExerciseMetadata.

(** A document is known to [submit.go] through its two methods. *)
Module Document.
Record t := { Filepath : string; Path : string }.
End Document.

Definition IsMissingMetadata (err : fault) : bool := fault_missingMetadata err.
End workspace.

Module multipart.
(** One part of a [multipart/form-data] body made by [CreateFormFile]. *)
Record Part := { fieldname : string; filename : string; content : string }.
End multipart.

Module http.
Definition StatusBadRequest : Z := 400.

(** [Header.Set]: the value replaces whatever the key had. *)
Definition Header := list (string * string).
Definition Header_Set (key value : string) (h : Header) : Header :=
  (key, value) :: List.filter (fun kv => negb (String.eqb (fst kv) key)) h.

Record Request := {
  Method : string;
  URL : string;
  Headers : Header;
  Body : list multipart.Part
}.

Record Response := { StatusCode : Z; RespBody : io.Reader }.
End http.

Module api.
Record Client := { APIToken : string; APIBaseURL : string }.
End api.

(** [viper.Viper] and [pflag.FlagSet], read only through [GetString] and
    [GetBool]. *)
Definition Viper := string -> string.
Definition FlagSet := string -> bool.

Module Error.
Record t := { Type_ : string; Message : string }.
End Error.

Record apiErrorMessage := { Error : Error.t }.

(** ** Errors of the pipeline

    Every error that [submit.go] makes itself is an [errors.New] or a
    [fmt.Errorf], that is, a text.  The constructor records which [return]
    produced it, under the name the specification gives that failure;
    [Surfaced] is [return err].  [Panic] is a run-time panic (index out of
    range, nil dereference). *)
Inductive error : Type :=
  | Surfaced (err : fault)
  | NotFoundError (text : string)
  | UnsupportedTargetError (text : string)
  | MissingMetadataError (text : string)
  | MixedSolutionError (text : string)
  | SlugMismatchError (text : string)
  | UnlinkedSolutionError (text : string)
  | FileTooLargeError (text : string)
  | NoFilesToSubmitError (text : string)
  | InvalidStateError (text : string)
  | ProtocolError (text : string)
  | ApiError (text : string)
  | Panic (text : string).

(** [err.Error()] *)
Definition error_text (e : error) : string :=
  match e with
  | Surfaced err => fault_text err
  | NotFoundError t | UnsupportedTargetError t | MissingMetadataError t
  | MixedSolutionError t | SlugMismatchError t | UnlinkedSolutionError t
  | FileTooLargeError t | NoFilesToSubmitError t | InvalidStateError t
  | ProtocolError t | ApiError t | Panic t => t
  end.

(** ** The collaborators

    Modelled from the spec: everything [submit.go] calls and does not define,
    by the interface that section 6 of the specification gives it
    (configuration provider, workspace resolver, metadata store, HTTP
    client), together with the calls into the Go standard library.  A world
    fixes what the file system, the workspace, the API client and the server
    answer during one run.  [BinaryName], [msgMissingMetadata] and
    [validateUserConfig] belong to package [cmd] but to other files of it. *)
Record World := {
  (* package cmd *)
  BinaryName : string;
  msgMissingMetadata : string;
  validateUserConfig : Viper -> option fault;
  (* path/filepath, os *)
  filepath_Abs : string -> fault + string;
  os_Lstat : string -> fault + os.FileInfo;
  filepath_EvalSymlinks : string -> fault + string;
  os_Stat : string -> fault + os.FileInfo;
  os_Open : string -> fault + io.Reader;
  (* package workspace *)
  workspace_New : string -> fault + workspace.Workspace;
  ExerciseDir : workspace.Workspace -> string -> fault + string;
  NewExerciseFromDir : string -> workspace.Exercise.t;
  Exercise_Filepath : workspace.Exercise.t -> string;
  MigrateLegacyMetadataFile : workspace.Exercise.t -> fault + string;
  NewExerciseMetadata : string -> fault + workspace.ExerciseMetadata.t;
  NewDocument : string -> string -> fault + workspace.Document.t;
  (* package api; the request that [NewRequest] builds keeps the method, the
     URL and the body it is given, the client adds its headers *)
  api_NewClient : string -> string -> fault + api.Client;
  NewRequest_headers : api.Client -> string -> string -> fault + http.Header;
  Do : http.Request -> fault + http.Response;
  (* mime/multipart: the boundary the writer draws *)
  boundary : string;
  (* encoding/json: [json.NewDecoder(body).Decode(&jsonErrBody)] *)
  json_Decode : io.Reader -> fault + apiErrorMessage
}.

(** The world [w] with another outcome of decoding. *)
Definition with_json_Decode (w : World) (decode : io.Reader -> fault + apiErrorMessage)
  : World :=
  {| BinaryName := BinaryName w;
     msgMissingMetadata := msgMissingMetadata w;
     validateUserConfig := validateUserConfig w;
     filepath_Abs := filepath_Abs w;
     os_Lstat := os_Lstat w;
     filepath_EvalSymlinks := filepath_EvalSymlinks w;
     os_Stat := os_Stat w;
     os_Open := os_Open w;
     workspace_New := workspace_New w;
     ExerciseDir := ExerciseDir w;
     NewExerciseFromDir := NewExerciseFromDir w;
     Exercise_Filepath := Exercise_Filepath w;
     MigrateLegacyMetadataFile := MigrateLegacyMetadataFile w;
     NewExerciseMetadata := NewExerciseMetadata w;
     NewDocument := NewDocument w;
     api_NewClient := api_NewClient w;
     NewRequest_headers := NewRequest_headers w;
     Do := Do w;
     boundary := boundary w;
     json_Decode := decode |}.

(** ** State and control

    A [[]string] is a location of the store of backing arrays. *)
Definition loc := nat.

Record state := {
  heap : gmap loc (list string);
  Err : list string;              (* writes to [Err], oldest first *)
  Out : list string;              (* writes to [Out], oldest first *)
  sent : list http.Request        (* requests given to [client.Do], oldest first *)
}.

(** A computation runs from a state to a value or an error and a state; what
    was written before an error stays written. *)
Definition M (A : Type) : Type := state -> (error + A) * state.

Definition ok {A} (x : A) : M A := fun st => (inr x, st).
Definition fail {A} (e : error) : M A := fun st => (inl e, st).
Definition bind {A B} (m : M A) (k : A -> M B) : M B :=
  fun st => match m st with
            | (inl e, st') => (inl e, st')
            | (inr x, st') => k x st'
            end.

Declare Scope go_scope.
Delimit Scope go_scope with go.
Notation "x <- m ;; k" := (bind m (fun x => k))
  (at level 100, m at next level, right associativity) : go_scope.
Notation "m ;;; k" := (bind m (fun _ => k))
  (at level 100, right associativity) : go_scope.
Local Open Scope go_scope.

(** [v, err := f(...); if err != nil { return err }] *)
Definition try {A} (r : fault + A) : M A :=
  match r with
  | inl err => fail (Surfaced err)
  | inr x => ok x
  end.

(** [len(a)], [a[i]] and [a[i] = x] on a slice; a location that the store
    does not hold is the nil slice. *)
Definition len (a : loc) : M nat :=
  fun st => match heap st !! a with
            | Some l => (inr (length l), st)
            | None => (inr O, st)
            end.

Definition index (a : loc) (i : nat) : M string :=
  fun st => match heap st !! a ≫= (fun l => l !! i) with
            | Some x => (inr x, st)
            | None => (inl (Panic "index out of range"), st)
            end.

Definition set_heap (h : gmap loc (list string)) (st : state) : state :=
  {| heap := h; Err := Err st; Out := Out st; sent := sent st |}.

Definition assign (a : loc) (i : nat) (x : string) : M unit :=
  fun st => match heap st !! a with
            | Some l =>
                if decide (i < length l)%nat then
                  (inr tt, set_heap (<[a := <[i := x]> l]> (heap st)) st)
                else (inl (Panic "index out of range"), st)
            | None => (inl (Panic "index out of range"), st)
            end.

(** The elements of a slice, for a [range] loop whose body leaves the slice
    alone. *)
Definition elements (a : loc) : M (list string) :=
  fun st => match heap st !! a with
            | Some l => (inr l, st)
            | None => (inr [], st)
            end.

(** [fmt.Fprintf(Err, ...)], [fmt.Fprintf(Out, ...)] and [client.Do(req)]. *)
Definition log_Err (texts : list string) (st : state) : state :=
  {| heap := heap st; Err := Err st ++ texts; Out := Out st; sent := sent st |}.

Definition Fprintf_Err (text : string) : M unit :=
  fun st => (inr tt, log_Err [text] st).

Definition Fprintf_Out (text : string) : M unit :=
  fun st => (inr tt, {| heap := heap st; Err := Err st;
                        Out := Out st ++ [text]; sent := sent st |}).

Definition client_Do (w : World) (req : http.Request) : M http.Response :=
  fun st => let st' := {| heap := heap st; Err := Err st; Out := Out st;
                          sent := sent st ++ [req] |} in
            match Do w req with
            | inl err => (inl (Surfaced err), st')
            | inr resp => (inr resp, st')
            end.

(** ** The texts of [submit.go]

    Each definition is the raw string literal of the source with its operands
    spliced in where the literal has [%s], [%d], [%[1]s] or [%[2]s]. *)

(** sanitizeArgs, [fmt.Errorf(msg, arg)] *)
Definition msgNotFound (arg : string) : string :=
  "

    The file you are trying to submit cannot be found.

        " +:+ arg +:+ "

        ".

(** sanitizeArgs, [fmt.Errorf(msg, arg, BinaryName)] *)
Definition msgDirectory (arg binaryName : string) : string :=
  "

    You are submitting a directory, which is not currently supported.

        " +:+ arg +:+ "

    Please change into the directory and provide the path to the file(s) you wish to submit

        " +:+ binaryName +:+ " submit FILENAME

            ".

(** _exercise, [errors.New(msg)] *)
Definition msgMixed : string :=
  "

    You are submitting files belonging to different solutions.
    Please submit the files for one solution at a time.

        ".

(** _metadata, [fmt.Errorf(msg, s.exercise.Slug, metadata.Exercise)] *)
Definition msgSlugMismatch (slug exercise : string) : string :=
  "

	The exercise directory does not match exercise slug in metadata:

		expected '" +:+ slug +:+ "' but got '" +:+ exercise +:+ "'

	Please rename the directory '" +:+ slug +:+ "' to '" +:+ exercise +:+ "' and try again.

		".

(** _metadata, [fmt.Errorf(msg, BinaryName, metadata.Exercise, metadata.Track)] *)
Definition msgUnlinked (binaryName exercise track : string) : string :=
  "

    The solution you are submitting is not connected to your account.
    Please re-download the exercise to make sure it has the data it needs.

        " +:+ binaryName +:+ " download --exercise=" +:+ exercise +:+ " --track=" +:+ track +:+ "

        ".

(** _documents, [fmt.Errorf(msg, file, maxFileSize)] *)
Definition msgTooLarge (file : string) (maxFileSize : Z) : string :=
  "

      The submitted file '" +:+ file +:+ "' is larger than the max allowed file size of " +:+ fmt.itoa maxFileSize +:+ " bytes.
      Please reduce the size of the file and try again.

            ".

(** _documents, [fmt.Fprintf(Err, msg, file)] *)
Definition msgSkipping (file : string) : string :=
  "

    WARNING: Skipping empty file
             " +:+ file +:+ "

        ".

(** _documents, [errors.New(msg)] *)
Definition msgNoFiles : string :=
  "

    No files found to submit.

        ".

(** printResult, [fmt.Fprintf(Err, msg, suffix)] *)
Definition msgSubmitted (suffix : string) : string :=
  "

    Your solution has been submitted successfully.
    " +:+ suffix +:+ "
".

(** ** [submit.go] *)

Record submission := {
  exercise : workspace.Exercise.t;
  metadata : option workspace.ExerciseMetadata.t;   (* a pointer; [None] is nil *)
  documents : list workspace.Document.t
}.

(** submitContext is a context for submitting solutions to the API. *)
Record submitContext := {
  usrCfg : Viper;
  flags : FlagSet;
  args : loc;
  sub : submission
}.

Definition with_exercise (s : submitContext) (e : workspace.Exercise.t) : submitContext :=
  {| usrCfg := usrCfg s; flags := flags s; args := args s;
     sub := {| exercise := e; metadata := metadata (sub s);
               documents := documents (sub s) |} |}.

Definition with_metadata (s : submitContext) (m : workspace.ExerciseMetadata.t)
  : submitContext :=
  {| usrCfg := usrCfg s; flags := flags s; args := args s;
     sub := {| exercise := exercise (sub s); metadata := Some m;
               documents := documents (sub s) |} |}.

Definition with_documents (s : submitContext) (d : list workspace.Document.t)
  : submitContext :=
  {| usrCfg := usrCfg s; flags := flags s; args := args s;
     sub := {| exercise := exercise (sub s); metadata := metadata (sub s);
               documents := d |} |}.

(** [s.metadata.X]: a nil pointer panics. *)
Definition deref (s : submitContext) : M workspace.ExerciseMetadata.t :=
  match metadata (sub s) with
  | Some m => ok m
  | None => fail (Panic "nil pointer dereference")
  end.

Section Submit.

Variable w : World.

(** The body of [for i, arg := range s.args] in [sanitizeArgs], for the
    [n] indices from [i] on. *)
Fixpoint sanitizeArgs_range (a : loc) (i n : nat) : M unit :=
  match n with
  | O => ok tt
  | S n' =>
      arg <- index a i ;;
      arg <- try (filepath_Abs w arg) ;;
      match os_Lstat w arg with
      | inl err =>
          if os.IsNotExist err then fail (NotFoundError (msgNotFound arg))
          else fail (Surfaced err)
      | inr info =>
          if os.IsDir info then
            fail (UnsupportedTargetError (msgDirectory arg (BinaryName w)))
          else
            src <- try (filepath_EvalSymlinks w arg) ;;
            assign a i src ;;;
            sanitizeArgs_range a (S i) n'
      end
  end.

(** sanitizeArgs validates args and swaps with evaluated symlink paths. *)
Definition sanitizeArgs (s : submitContext) : M unit :=
  n <- len (args s) ;;
  sanitizeArgs_range (args s) 0 n.

(** The body of [for _, arg := range s.args] in [_exercise]; the result is
    [exerciseDir] after the loop. *)
Fixpoint _exercise_range (ws : workspace.Workspace) (l : list string)
    (exerciseDir : string) : M string :=
  match l with
  | [] => ok exerciseDir
  | arg :: l' =>
      match ExerciseDir w ws arg with
      | inl err =>
          if workspace.IsMissingMetadata err
          then fail (MissingMetadataError (msgMissingMetadata w))
          else fail (Surfaced err)
      | inr dir =>
          if negb (String.eqb exerciseDir "") && negb (String.eqb dir exerciseDir)
          then fail (MixedSolutionError msgMixed)
          else _exercise_range ws l' dir
      end
  end.

Definition _exercise (s : submitContext) : M workspace.Exercise.t :=
  ws <- try (workspace_New w (usrCfg s "workspace")) ;;
  l <- elements (args s) ;;
  exerciseDir <- _exercise_range ws l "" ;;
  ok (NewExerciseFromDir w exerciseDir).

Definition migrateLegacyMetadata (s : submitContext) : M unit :=
  migrationStatus <- try (MigrateLegacyMetadataFile w (exercise (sub s))) ;;
  if flags s "verbose" then Fprintf_Err (fmt.Sprintf0 migrationStatus)
  else ok tt.

Definition _metadata (s : submitContext) : M workspace.ExerciseMetadata.t :=
  metadata <- try (NewExerciseMetadata w (Exercise_Filepath w (exercise (sub s)))) ;;
  if negb (String.eqb (workspace.ExerciseMetadata.Exercise metadata)
                      (workspace.Exercise.Slug (exercise (sub s)))) then
    fail (SlugMismatchError
            (msgSlugMismatch (workspace.Exercise.Slug (exercise (sub s)))
                             (workspace.ExerciseMetadata.Exercise metadata)))
  else if negb (workspace.ExerciseMetadata.IsRequester metadata) then
    fail (UnlinkedSolutionError
            (msgUnlinked (BinaryName w)
                         (workspace.ExerciseMetadata.Exercise metadata)
                         (workspace.ExerciseMetadata.Track metadata)))
  else ok metadata.

Definition maxFileSize : Z := 65535.

(** The body of [for _, file := range s.args] in [_documents]; [docs] is
    the slice built so far. *)
Fixpoint _documents_range (s : submitContext) (l : list string)
    (docs : list workspace.Document.t) : M (list workspace.Document.t) :=
  match l with
  | [] => ok docs
  | file :: l' =>
      info <- try (os_Stat w file) ;;
      if os.Size info >=? maxFileSize then
        fail (FileTooLargeError (msgTooLarge file maxFileSize))
      else if os.Size info =? 0 then
        Fprintf_Err (msgSkipping file) ;;;
        _documents_range s l' docs
      else
        doc <- try (NewDocument w (Exercise_Filepath w (exercise (sub s))) file) ;;
        _documents_range s l' (docs ++ [doc])
  end.

Definition _documents (s : submitContext) : M (list workspace.Document.t) :=
  l <- elements (args s) ;;
  docs <- _documents_range s l [] ;;
  if Nat.eqb (length docs) 0 then fail (NoFilesToSubmitError msgNoFiles)
  else ok docs.

(** [io.Copy(part, file)] into a part of the in-memory body, and
    [bb.ReadFrom(resp.Body)]: both read the reader to its end. *)
Definition readAll (r : io.Reader) : M string :=
  match io.broken r with
  | Some err => fail (Surfaced err)
  | None => ok (io.data r)
  end.

(** The body of [for _, doc := range s.documents] in [submitDocuments];
    [parts] is what the multipart writer holds so far. *)
Fixpoint submitDocuments_range (l : list workspace.Document.t)
    (parts : list multipart.Part) : M (list multipart.Part) :=
  match l with
  | [] => ok parts
  | doc :: l' =>
      file <- try (os_Open w (workspace.Document.Filepath doc)) ;;
      bytes <- readAll file ;;
      submitDocuments_range l'
        (parts ++ [ {| multipart.fieldname := "files[]";
                       multipart.filename := workspace.Document.Path doc;
                       multipart.content := bytes |} ])
  end.

(** [writer.FormDataContentType()] *)
Definition FormDataContentType : string :=
  "multipart/form-data; boundary=" +:+ boundary w.

(** submitDocuments submits the documents to the API via HTTP.

    The function is given in two halves: the first runs up to the point
    where [client.Do] has answered, the second is the handling of the
    response.  [writer.CreateFormFile] and [writer.Close] write to a
    [bytes.Buffer] and cannot fail; the deferred [Close] calls leave no
    trace in the state. *)
Definition submitDocuments_exchange (s : submitContext) : M http.Response :=
  metadata <- deref s ;;
  if String.eqb (workspace.ExerciseMetadata.ID metadata) "" then
    fail (InvalidStateError "id is empty")
  else if Nat.eqb (length (documents (sub s))) 0 then
    fail (InvalidStateError "documents is empty")
  else
    body <- submitDocuments_range (documents (sub s)) [] ;;
    client <- try (api_NewClient w (usrCfg s "token") (usrCfg s "apibaseurl")) ;;
    let url := usrCfg s "apibaseurl" +:+ "/solutions/"
               +:+ workspace.ExerciseMetadata.ID metadata in
    headers <- try (NewRequest_headers w client "PATCH" url) ;;
    let req := {| http.Method := "PATCH"; http.URL := url;
                  http.Headers := http.Header_Set "Content-Type" FormDataContentType headers;
                  http.Body := body |} in
    client_Do w req.

Definition submitDocuments_response (resp : http.Response) : M unit :=
  if http.StatusCode resp =? http.StatusBadRequest then
    match json_Decode w (http.RespBody resp) with
    | inl err =>
        fail (ProtocolError ("failed to parse error response - " +:+ fault_text err))
    | inr jsonErrBody =>
        fail (ApiError (fmt.Sprintf0 (Error.Message (Error jsonErrBody))))
    end
  else
    readAll (http.RespBody resp) ;;;
    ok tt.

Definition submitDocuments (s : submitContext) : M unit :=
  resp <- submitDocuments_exchange s ;;
  submitDocuments_response resp.

Definition printResult (s : submitContext) : M unit :=
  metadata <- deref s ;;
  let suffix :=
    if workspace.ExerciseMetadata.AutoApprove metadata
       && String.eqb (workspace.ExerciseMetadata.Team metadata) ""
    then "You can complete the exercise and unlock the next core exercise at:
"
    else "View it at:

    " in
  Fprintf_Err (msgSubmitted suffix) ;;;
  Fprintf_Out ("    " +:+ workspace.ExerciseMetadata.URL metadata +:+ "

").

(** [&submitContext{usrCfg: usrCfg, flags: flags, args: args}]: the slice
    header is copied, the backing array is the caller's. *)
Definition freshContext (usrCfg : Viper) (flags : FlagSet) (args : loc) : submitContext :=
  {| usrCfg := usrCfg; flags := flags; args := args;
     sub := {| exercise := {| workspace.Exercise.Root := "";
                              workspace.Exercise.Track := "";
                              workspace.Exercise.Slug := "" |};
               metadata := None; documents := [] |} |}.

(** newSubmitContext creates a submitContext. *)
Definition newSubmitContext (usrCfg : Viper) (flags : FlagSet) (args : loc)
  : M submitContext :=
  let ctx := freshContext usrCfg flags args in
  sanitizeArgs ctx ;;;
  exercise <- _exercise ctx ;;
  let ctx := with_exercise ctx exercise in
  migrateLegacyMetadata ctx ;;;
  metadata <- _metadata ctx ;;
  let ctx := with_metadata ctx metadata in
  documents <- _documents ctx ;;
  let ctx := with_documents ctx documents in
  ok ctx.

Definition runSubmit (cfg : Viper) (flags : FlagSet) (args : loc) : M unit :=
  match validateUserConfig w cfg with
  | Some err => fail (Surfaced err)
  | None =>
      ctx <- newSubmitContext cfg flags args ;;
      submitDocuments ctx ;;;
      printResult ctx
  end.

End Submit.

(** ** Vocabulary of the properties *)

(** What one turn of the loop of [sanitizeArgs] stores for an argument: the
    path is made absolute, must exist and not be a directory for [os.Lstat],
    and has its symbolic links evaluated. *)
Definition resolve (w : World) (arg : string) : option string :=
  match filepath_Abs w arg with
  | inr abs =>
      match os_Lstat w abs with
      | inr info =>
          if os.IsDir info then None
          else match filepath_EvalSymlinks w abs with
               | inr src => Some src
               | inl _ => None
               end
      | inl _ => None
      end
  | inl _ => None
  end.

(** What [os.Stat] says of the size of a file: none, below the limit, and
    no bytes at all. *)
Definition withinLimit (w : World) (file : string) : bool :=
  match os_Stat w file with
  | inr info => os.Size info <? maxFileSize
  | inl _ => false
  end.

Definition isEmpty (w : World) (file : string) : bool :=
  match os_Stat w file with
  | inr info => os.Size info =? 0
  | inl _ => false
  end.

Definition nonEmpty (w : World) (file : string) : bool := negb (isEmpty w file).

(** A file that the loop of [_documents] gets past: it is below the limit
    and, unless it is empty, a document can be made of it. *)
Definition collects (w : World) (root file : string) : bool :=
  withinLimit w file
  && (isEmpty w file
      || match NewDocument w root file with inr _ => true | inl _ => false end).

(** A computation that leaves the store of backing arrays as it finds it. *)
Definition keeps_heap {A} (m : M A) : Prop :=
  forall st, heap (snd (m st)) = heap st.

(** A file on which the loop of [_documents] meets no error of [os.Stat] or
    [workspace.NewDocument]. *)
Definition readable (w : World) (root file : string) : bool :=
  match os_Stat w file with
  | inr info =>
      (maxFileSize <=? os.Size info) || (os.Size info =? 0)
      || match NewDocument w root file with inr _ => true | inl _ => false end
  | inl _ => false
  end.

(** ** A workspace to run the pipeline in

    The workspace [/ws] holds the exercises [go/bob] and [go/alice]; the
    command is run from [/ws/go/bob]. *)
Module Demo.

Definition file (size : Z) : os.FileInfo := {| os.Size := size; os.IsDir := false |}.
Definition dir : os.FileInfo := {| os.Size := 4096; os.IsDir := true |}.
Definition symlink (size : Z) : os.FileInfo := file size.

Definition ENOENT (path : string) : fault :=
  Fault ("lstat " +:+ path +:+ ": no such file or directory") true false.

Definition is_ (p q : string) : bool := String.eqb p q.

(** What [lstat(2)] sees. *)
Definition lstat (p : string) : fault + os.FileInfo :=
  if is_ p "/ws/go/bob/a.txt" then inr (file 12)
  else if is_ p "/ws/go/bob/b.txt" then inr (file 0)
  else if is_ p "/ws/go/bob/max.bin" then inr (file 65534)
  else if is_ p "/ws/go/bob/big.bin" then inr (file 65535)
  else if is_ p "/ws/go/bob/link.txt" then inr (symlink 5)
  else if is_ p "/ws/go/bob/lib" then inr dir
  else if is_ p "/ws/go/bob/liblink" then inr (symlink 3)
  else if is_ p "/ws/go/bob" then inr dir
  else if is_ p "/ws/go/alice/c.txt" then inr (file 7)
  else if is_ p "/ws/go/alice" then inr dir
  else inl (ENOENT p).

(** Where symbolic links lead: [link.txt -> a.txt], [liblink -> lib]. *)
Definition readlinks (p : string) : string :=
  if is_ p "/ws/go/bob/link.txt" then "/ws/go/bob/a.txt"
  else if is_ p "/ws/go/bob/liblink" then "/ws/go/bob/lib"
  else p.

Definition abs (p : string) : string :=
  if String.prefix "/" p then p else "/ws/go/bob/" +:+ p.

Definition contents (p : string) : io.Reader :=
  if is_ p "/ws/go/bob/a.txt" then {| io.data := "package bob
"; io.broken := None |}
  else if is_ p "/ws/go/bob/lib"
  then {| io.data := ""; io.broken := Some (Fault "read /ws/go/bob/lib: is a directory" false false) |}
  else {| io.data := "-"; io.broken := None |}.

Definition exerciseDir (p : string) : fault + string :=
  if String.prefix "/ws/go/bob/" p then inr "/ws/go/bob"
  else if String.prefix "/ws/go/alice/" p then inr "/ws/go/alice"
  else inl (Fault "not in workspace" false false).

Definition exerciseFromDir (d : string) : workspace.Exercise.t :=
  if is_ d "/ws/go/bob"
  then {| workspace.Exercise.Root := "/ws"; workspace.Exercise.Track := "go";
          workspace.Exercise.Slug := "bob" |}
  else if is_ d "/ws/go/alice"
  then {| workspace.Exercise.Root := "/ws"; workspace.Exercise.Track := "go";
          workspace.Exercise.Slug := "alice" |}
  else {| workspace.Exercise.Root := "."; workspace.Exercise.Track := ".";
          workspace.Exercise.Slug := d |}.

Definition exerciseFilepath (e : workspace.Exercise.t) : string :=
  workspace.Exercise.Root e +:+ "/" +:+ workspace.Exercise.Track e +:+ "/"
  +:+ workspace.Exercise.Slug e.

Definition bob : workspace.ExerciseMetadata.t :=
  {| workspace.ExerciseMetadata.ID := "abc123";
     workspace.ExerciseMetadata.Exercise := "bob";
     workspace.ExerciseMetadata.Track := "go";
     workspace.ExerciseMetadata.IsRequester := true;
     workspace.ExerciseMetadata.AutoApprove := false;
     workspace.ExerciseMetadata.Team := "";
     workspace.ExerciseMetadata.URL := "https://exercism.io/my/solutions/abc123" |}.

(** The metadata in [/ws/go/alice] was downloaded by somebody else, for the
    exercise [leap]. *)
Definition alice : workspace.ExerciseMetadata.t :=
  {| workspace.ExerciseMetadata.ID := "def456";
     workspace.ExerciseMetadata.Exercise := "leap";
     workspace.ExerciseMetadata.Track := "go";
     workspace.ExerciseMetadata.IsRequester := false;
     workspace.ExerciseMetadata.AutoApprove := false;
     workspace.ExerciseMetadata.Team := "";
     workspace.ExerciseMetadata.URL := "https://exercism.io/my/solutions/def456" |}.

Definition loadMetadata (d : string) : fault + workspace.ExerciseMetadata.t :=
  if is_ d "/ws/go/bob" then inr bob
  else if is_ d "/ws/go/alice" then inr alice
  else inl (Fault "open .exercism/metadata.json: no such file or directory" true true).

Definition newDocument (root path : string) : fault + workspace.Document.t :=
  if String.prefix (root +:+ "/") path
  then inr {| workspace.Document.Filepath := path;
              workspace.Document.Path :=
                String.substring (S (String.length root))
                  (String.length path - S (String.length root)) path |}
  else inl (Fault "Rel: can't make path relative" false false).

Definition clientHeaders (c : api.Client) : http.Header :=
  [("Content-Type", "application/json"); ("User-Agent", "github.com/exercism/cli");
   ("Authorization", "Bearer " +:+ api.APIToken c)]%string.

Definition created : http.Response :=
  {| http.StatusCode := 201;
     http.RespBody := {| io.data := "{}"; io.broken := None |} |}.

Definition notJSON : fault := Fault "invalid character '<' looking for beginning of value" false false.

Definition world : World :=
  {| BinaryName := "exercism";
     msgMissingMetadata := "The exercise you are submitting doesn't have the necessary metadata.";
     validateUserConfig := fun _ => None;
     filepath_Abs := fun p => inr (abs p);
     os_Lstat := lstat;
     filepath_EvalSymlinks := fun p => inr (readlinks p);
     os_Stat := fun p => lstat (readlinks p);
     os_Open := fun p => inr (contents p);
     workspace_New := fun d => inr {| workspace.Dir := d |};
     ExerciseDir := fun _ p => exerciseDir p;
     NewExerciseFromDir := exerciseFromDir;
     Exercise_Filepath := exerciseFilepath;
     MigrateLegacyMetadataFile := fun _ => inr ""%string;
     NewExerciseMetadata := loadMetadata;
     NewDocument := newDocument;
     api_NewClient := fun token url => inr {| api.APIToken := token; api.APIBaseURL := url |};
     NewRequest_headers := fun c _ _ => inr (clientHeaders c);
     Do := fun _ => inr created;
     boundary := "5f3c1a9e0b7d4c2f8a6e";
     json_Decode := fun _ => inl notJSON |}.

(** The same world with another server behind [client.Do] and another
    outcome of decoding its error bodies. *)
Definition answering (resp : http.Response) (decoded : fault + apiErrorMessage) : World :=
  {| BinaryName := BinaryName world;
     msgMissingMetadata := msgMissingMetadata world;
     validateUserConfig := validateUserConfig world;
     filepath_Abs := filepath_Abs world;
     os_Lstat := os_Lstat world;
     filepath_EvalSymlinks := filepath_EvalSymlinks world;
     os_Stat := os_Stat world;
     os_Open := os_Open world;
     workspace_New := workspace_New world;
     ExerciseDir := ExerciseDir world;
     NewExerciseFromDir := NewExerciseFromDir world;
     Exercise_Filepath := Exercise_Filepath world;
     MigrateLegacyMetadataFile := MigrateLegacyMetadataFile world;
     NewExerciseMetadata := NewExerciseMetadata world;
     NewDocument := NewDocument world;
     api_NewClient := api_NewClient world;
     NewRequest_headers := NewRequest_headers world;
     Do := fun _ => inr resp;
     boundary := boundary world;
     json_Decode := fun _ => decoded |}.

(** A 400 answer whose body is [{"error":{"type":...,"message":...}}],
    and what the decoder makes of it. *)
Definition quoted (s : string) : string :=
  String (ascii_of_nat 34) s +:+ String (ascii_of_nat 34) EmptyString.

Definition badRequest (type message : string) : http.Response :=
  {| http.StatusCode := 400;
     http.RespBody :=
       {| io.data := "{" +:+ quoted "error" +:+ ":{" +:+ quoted "type" +:+ ":"
                     +:+ quoted type +:+ "," +:+ quoted "message" +:+ ":"
                     +:+ quoted message +:+ "}}";
          io.broken := None |} |}.

Definition decoded (type message : string) : fault + apiErrorMessage :=
  inr {| Error := {| Error.Type_ := type; Error.Message := message |} |}.

(** A 400 answer from a proxy, in HTML. *)
Definition badGateway400 : http.Response :=
  {| http.StatusCode := 400;
     http.RespBody := {| io.data := "<html>Bad Request</html>"; io.broken := None |} |}.

(** A 500 answer whose connection breaks while the body is read. *)
Definition resetByPeer : fault := Fault "read tcp: connection reset by peer" false false.

Definition interrupted : http.Response :=
  {| http.StatusCode := 500;
     http.RespBody := {| io.data := "<html>Internal Ser"; io.broken := Some resetByPeer |} |}.

(** A 500 answer that arrives whole. *)
Definition serverError : http.Response :=
  {| http.StatusCode := 500;
     http.RespBody := {| io.data := "<html>Internal Server Error</html>";
                         io.broken := None |} |}.

Definition cfg : Viper := fun key =>
  if is_ key "workspace" then "/ws"
  else if is_ key "token" then "t0k3n"
  else if is_ key "apibaseurl" then "https://api.exercism.io/v1"
  else "".

Definition quiet : FlagSet := fun _ => false.

(** The caller's [args] slice lives at location [0]. *)
Definition argv : loc := 0%nat.

Definition start (args : list string) : state :=
  {| heap := {[ argv := args ]}; Err := []; Out := []; sent := [] |}.

(** The context as [_metadata] and [_documents] find it once [_exercise] has
    settled on the directory [d]. *)
Definition inExercise (d : string) : submitContext :=
  {| usrCfg := cfg; flags := quiet; args := argv;
     sub := {| exercise := exerciseFromDir d; metadata := None; documents := [] |} |}.

(** The context that [newSubmitContext] hands to [submitDocuments] in the
    world [w] for the arguments [args], the state at that point, and the
    state once [client.Do] has answered. *)
Definition blank : submitContext :=
  {| usrCfg := cfg; flags := quiet; args := argv;
     sub := {| exercise := exerciseFromDir ""; metadata := None; documents := [] |} |}.

Definition context (w : World) (args : list string) : submitContext :=
  match fst (newSubmitContext w cfg quiet argv (start args)) with
  | inr s => s
  | inl _ => blank
  end.

Definition collected (w : World) (args : list string) : state :=
  snd (newSubmitContext w cfg quiet argv (start args)).

Definition exchanged (w : World) (args : list string) : state :=
  snd (submitDocuments_exchange w (context w args) (collected w args)).

End Demo.


(** ** Vocabulary of the further properties *)

(** A computation that leaves the component [f] of the state as it finds
    it. *)
Definition frames {X A} (f : state -> X) (m : M A) : Prop :=
  forall st, f (snd (m st)) = f st.

(** A computation whose errors, if any, all satisfy [P]. *)
Definition fails_only {A} (P : error -> Prop) (m : M A) : Prop :=
  forall st e, fst (m st) = inl e -> P e.

(** The errors that are not an [InvalidStateError]. *)
Definition valid_state (e : error) : Prop :=
  match e with
  | InvalidStateError _ => False
  | _ => True
  end.

(** A document whose file cannot be opened, or whose read breaks off. *)
Definition unreadable (w : World) (doc : workspace.Document.t) : bool :=
  match os_Open w (workspace.Document.Filepath doc) with
  | inl _ => true
  | inr r => match io.broken r with Some _ => true | None => false end
  end.


(** The text that [printResult] writes to [Err]. *)
Definition confirmation (m : workspace.ExerciseMetadata.t) : string :=
  msgSubmitted
    (if workspace.ExerciseMetadata.AutoApprove m
        && String.eqb (workspace.ExerciseMetadata.Team m) ""
     then "You can complete the exercise and unlock the next core exercise at:
"
     else "View it at:

    ").

(** The world [w] with another transport behind [client.Do]. *)
Definition with_Do (w : World) (transport : http.Request -> fault + http.Response)
  : World :=
  {| BinaryName := BinaryName w;
     msgMissingMetadata := msgMissingMetadata w;
     validateUserConfig := validateUserConfig w;
     filepath_Abs := filepath_Abs w;
     os_Lstat := os_Lstat w;
     filepath_EvalSymlinks := filepath_EvalSymlinks w;
     os_Stat := os_Stat w;
     os_Open := os_Open w;
     workspace_New := workspace_New w;
     ExerciseDir := ExerciseDir w;
     NewExerciseFromDir := NewExerciseFromDir w;
     Exercise_Filepath := Exercise_Filepath w;
     MigrateLegacyMetadataFile := MigrateLegacyMetadataFile w;
     NewExerciseMetadata := NewExerciseMetadata w;
     NewDocument := NewDocument w;
     api_NewClient := api_NewClient w;
     NewRequest_headers := NewRequest_headers w;
     Do := transport;
     boundary := boundary w;
     json_Decode := json_Decode w |}.

(** The workspace of [Demo] with the network down. *)
Module Offline.

Definition noRoute : fault := Fault "dial tcp: connect: network is unreachable" false false.

Definition world : World := with_Do Demo.world (fun _ => inl noRoute).

(** The context of an upload of [a.txt] for the exercise [bob]. *)
Definition upload : submitContext :=
  {| usrCfg := Demo.cfg; flags := Demo.quiet; args := Demo.argv;
     sub := {| exercise := Demo.exerciseFromDir "/ws/go/bob";
               metadata := Some Demo.bob;
               documents := [ {| workspace.Document.Filepath := "/ws/go/bob/a.txt";
                                 workspace.Document.Path := "a.txt" |} ] |} |}.

(** The same context with the directory [lib] among the documents. *)
Definition uploadWithDirectory : submitContext :=
  {| usrCfg := Demo.cfg; flags := Demo.quiet; args := Demo.argv;
     sub := {| exercise := Demo.exerciseFromDir "/ws/go/bob";
               metadata := Some Demo.bob;
               documents := [ {| workspace.Document.Filepath := "/ws/go/bob/a.txt";
                                 workspace.Document.Path := "a.txt" |};
                              {| workspace.Document.Filepath := "/ws/go/bob/lib";
                                 workspace.Document.Path := "lib" |} ] |} |}.

End Offline.


(** The request that [submitDocuments] builds for the context [s]: a PATCH
    to the solution's URL with the multipart content type as its only
    [Content-Type], and one [files[]] part per document, named by the
    documents' paths in their order. *)
Definition upload_request (w : World) (s : submitContext) (req : http.Request) : Prop :=
  http.Method req = "PATCH"%string
  /\ (exists m, metadata (sub s) = Some m
                /\ workspace.ExerciseMetadata.ID m <> EmptyString
                /\ http.URL req = usrCfg s "apibaseurl" +:+ "/solutions/"
                                  +:+ workspace.ExerciseMetadata.ID m)
  /\ List.filter (fun kv => String.eqb (fst kv) "Content-Type") (http.Headers req)
     = [("Content-Type"%string, FormDataContentType w)]
  /\ map multipart.filename (http.Body req)
     = map workspace.Document.Path (documents (sub s))
  /\ Forall (fun part => multipart.fieldname part = "files[]"%string) (http.Body req).

(** The world [w] with another metadata store. *)
Definition with_NewExerciseMetadata (w : World)
    (load : string -> fault + workspace.ExerciseMetadata.t) : World :=
  {| BinaryName := BinaryName w;
     msgMissingMetadata := msgMissingMetadata w;
     validateUserConfig := validateUserConfig w;
     filepath_Abs := filepath_Abs w;
     os_Lstat := os_Lstat w;
     filepath_EvalSymlinks := filepath_EvalSymlinks w;
     os_Stat := os_Stat w;
     os_Open := os_Open w;
     workspace_New := workspace_New w;
     ExerciseDir := ExerciseDir w;
     NewExerciseFromDir := NewExerciseFromDir w;
     Exercise_Filepath := Exercise_Filepath w;
     MigrateLegacyMetadataFile := MigrateLegacyMetadataFile w;
     NewExerciseMetadata := load;
     NewDocument := NewDocument w;
     api_NewClient := api_NewClient w;
     NewRequest_headers := NewRequest_headers w;
     Do := Do w;
     boundary := boundary w;
     json_Decode := json_Decode w |}.

(** The workspace of [Demo] with a metadata file for [bob] that has lost its
    solution ID. *)
Module NoID.

Definition bob : workspace.ExerciseMetadata.t :=
  {| workspace.ExerciseMetadata.ID := "";
     workspace.ExerciseMetadata.Exercise := "bob";
     workspace.ExerciseMetadata.Track := "go";
     workspace.ExerciseMetadata.IsRequester := true;
     workspace.ExerciseMetadata.AutoApprove := false;
     workspace.ExerciseMetadata.Team := "";
     workspace.ExerciseMetadata.URL := "" |}.

Definition world : World := with_NewExerciseMetadata Demo.world (fun _ => inr bob).

End NoID.


(** A part of the multipart body made of the document [doc]: the field
    name is [files[]], the file name is the document's path, and the content
    is what the document's file gives when it is read to its end. *)
Definition part_of (w : World) (doc : workspace.Document.t) (part : multipart.Part) : Prop :=
  multipart.fieldname part = "files[]"%string
  /\ multipart.filename part = workspace.Document.Path doc
  /\ exists file,
       os_Open w (workspace.Document.Filepath doc) = inr file
       /\ io.broken file = None
       /\ multipart.content part = io.data file.

(** The world [w] with another file system under [os.Lstat]. *)
Definition with_os_Lstat (w : World) (lstat : string -> fault + os.FileInfo) : World :=
  {| BinaryName := BinaryName w;
     msgMissingMetadata := msgMissingMetadata w;
     validateUserConfig := validateUserConfig w;
     filepath_Abs := filepath_Abs w;
     os_Lstat := lstat;
     filepath_EvalSymlinks := filepath_EvalSymlinks w;
     os_Stat := os_Stat w;
     os_Open := os_Open w;
     workspace_New := workspace_New w;
     ExerciseDir := ExerciseDir w;
     NewExerciseFromDir := NewExerciseFromDir w;
     Exercise_Filepath := Exercise_Filepath w;
     MigrateLegacyMetadataFile := MigrateLegacyMetadataFile w;
     NewExerciseMetadata := NewExerciseMetadata w;
     NewDocument := NewDocument w;
     api_NewClient := api_NewClient w;
     NewRequest_headers := NewRequest_headers w;
     Do := Do w;
     boundary := boundary w;
     json_Decode := json_Decode w |}.

(** The workspace of [Demo] on a machine that also has the file
    [/tmp/notes.txt], which is in no exercise. *)
Module Stray.

Definition notes : string := "/tmp/notes.txt".

Definition lstat (p : string) : fault + os.FileInfo :=
  if Demo.is_ p notes then inr (Demo.file 20) else Demo.lstat p.

Definition world : World := with_os_Lstat Demo.world lstat.

Definition ws : workspace.Workspace := {| workspace.Dir := "/ws" |}.

Definition notInWorkspace : fault := Fault "not in workspace" false false.

End Stray.

(** The world [w] with another outcome of the legacy migration. *)
Definition with_MigrateLegacyMetadataFile (w : World)
    (migrate : workspace.Exercise.t -> fault + string) : World :=
  {| BinaryName := BinaryName w;
     msgMissingMetadata := msgMissingMetadata w;
     validateUserConfig := validateUserConfig w;
     filepath_Abs := filepath_Abs w;
     os_Lstat := os_Lstat w;
     filepath_EvalSymlinks := filepath_EvalSymlinks w;
     os_Stat := os_Stat w;
     os_Open := os_Open w;
     workspace_New := workspace_New w;
     ExerciseDir := ExerciseDir w;
     NewExerciseFromDir := NewExerciseFromDir w;
     Exercise_Filepath := Exercise_Filepath w;
     MigrateLegacyMetadataFile := migrate;
     NewExerciseMetadata := NewExerciseMetadata w;
     NewDocument := NewDocument w;
     api_NewClient := api_NewClient w;
     NewRequest_headers := NewRequest_headers w;
     Do := Do w;
     boundary := boundary w;
     json_Decode := json_Decode w |}.

(** The workspace of [Demo] with a legacy metadata file that the migration
    moves, and a status text that ends in a percent sign and a full stop. *)
Module Legacy.

Definition status : string := "Migrated legacy metadata: 100%.".

Definition world : World :=
  with_MigrateLegacyMetadataFile Demo.world (fun _ => inr status).

Definition verbose : FlagSet := fun name => Demo.is_ name "verbose".

End Legacy.

(** * [debug.go] *)

(** How a call of a function of [debug] ends: it returns, it ends the
    program through [log.Fatal], or it panics. *)
Inductive outcome (A : Type) : Type :=
| Returned (x : A)
| Fatal (err : fault)
| Panicked (text : string).

Arguments Returned {A} x.
Arguments Fatal {A} err.
Arguments Panicked {A} text.

(** [strings.Split(s, sep)] for a separator of one byte: the fields between
    the separators, one more than there are separators. *)
Fixpoint strings_Split (s : string) (sep : ascii) : list string :=
  match s with
  | EmptyString => [EmptyString]
  | String c r =>
      if Ascii.eqb c sep then EmptyString :: strings_Split r sep
      else match strings_Split r sep with
           | field :: fields => String c field :: fields
           | [] => [String c EmptyString]
           end
  end.

(** [Header.Get]: the first value of the key, the empty string when there
    is none.  [Authorization], the only key of [debug.go], is in canonical
    form, and the header map is an allocated one, as [http.NewRequest]
    makes it. *)
Fixpoint Header_Get (key : string) (h : http.Header) : string :=
  match h with
  | [] => EmptyString
  | (k, v) :: h' => if String.eqb k key then v else Header_Get key h'
  end.

Module debug.

(** ** Readers

    A stream is what is still to be read of it and how it ends, at the end
    of the data or with an error; a [bytes.Buffer] is a stream that ends
    well and can be written to.  Streams and buffers live in a store.  A
    reader value is nil, points to a stream or a buffer, or is one of the
    two wrappers that [debug.go] makes, which have no state of their
    own. *)
Record stream := { pending : string; failure : option fault }.

Inductive Reader : Type :=
| Nil
| At (l : loc)
| TeeReader (r : Reader) (w : loc)
| NopCloser (r : Reader).

(** [var bodyCopy bytes.Buffer] *)
Definition Buffer : stream := {| pending := EmptyString; failure := None |}.

(** [w.Write(p)] on a buffer. *)
Definition Write (w : loc) (p : string) (rs : gmap loc stream) : option (gmap loc stream) :=
  match rs !! w with
  | Some b => Some (<[w := {| pending := pending b +:+ p; failure := failure b |}]> rs)
  | None => None
  end.

(** [buf.ReadFrom(r)]: the reader is read until it reports its end or an
    error; the result is what was read, the error if any, and the store
    afterwards.  A tee reader hands on what it reads from [r] and writes it
    to [w].  [None] stands for the nil pointer dereference of reading from a
    nil reader. *)
Fixpoint ReadFrom (r : Reader) (rs : gmap loc stream)
  : option ((string * option fault) * gmap loc stream) :=
  match r with
  | Nil => None
  | At l =>
      match rs !! l with
      | Some s => Some ((pending s, failure s),
                        <[l := {| pending := EmptyString; failure := failure s |}]> rs)
      | None => None
      end
  | TeeReader r w =>
      match ReadFrom r rs with
      | Some ((p, e), rs') =>
          match Write w p rs' with
          | Some rs'' => Some ((p, e), rs'')
          | None => None
          end
      | None => None
      end
  | NopCloser r => ReadFrom r rs
  end.

(** ** Requests and responses

    Of [*http.Request] and [*http.Response], the fields that [debug.go]
    reads or writes, and the ones that the dump shows. *)
Module Request.
Record t := {
  Method : string;
  URL : string;
  Header : http.Header;
  ContentLength : Z;
  Body : Reader
}.
Definition with_Header (req : t) (h : http.Header) : t :=
  {| Method := Method req; URL := URL req; Header := h;
     ContentLength := ContentLength req; Body := Body req |}.
Definition with_Body (req : t) (body : Reader) : t :=
  {| Method := Method req; URL := URL req; Header := Header req;
     ContentLength := ContentLength req; Body := body |}.
End Request.

Module Response.
Record t := {
  Status : string;
  Header : http.Header;
  ContentLength : Z;
  Body : Reader
}.
Definition with_Body (res : t) (body : Reader) : t :=
  {| Status := Status res; Header := Header res;
     ContentLength := ContentLength res; Body := body |}.
End Response.

(** ** Collaborators

    [utils.Redact] is not part of the sources at hand, and the wire format
    that [httputil] renders is the library's: both are parameters.  The
    renderers get the fields that the dump shows and, when the body is
    dumped, its bytes; they return the text or the library's error. *)
Record Env := {
  Redact : string -> string;
  render_Request : string -> string -> http.Header -> Z -> option string -> fault + string;
  render_Response : string -> http.Header -> Z -> option string -> fault + string
}.

(** ** The package variables *)
Record state := {
  readers : gmap loc stream;
  output : list string;
  Verbose : bool;
  UnmaskAPIKey : bool
}.

Definition with_readers (st : state) (rs : gmap loc stream) : state :=
  {| readers := rs; output := output st; Verbose := Verbose st;
     UnmaskAPIKey := UnmaskAPIKey st |}.

(** Println conditionally outputs a message to Stderr.

    The operands of [debug.go] are strings: [fmt.Fprintln] puts a space
    between them and a newline behind them. *)
Definition Println (args : list string) (st : state) : state :=
  if Verbose st then
    {| readers := readers st;
       output := output st ++ [String.concat " " args +:+ "
"];
       Verbose := Verbose st; UnmaskAPIKey := UnmaskAPIKey st |}
  else st.

(** [httputil.DumpRequest(req, body)]: without [body], or for a nil body,
    the request is rendered without reading anything; with it, the body is
    read to its end first, and an error of that read is the function's
    error.  The body that the library leaves in [req] is not built here:
    [debug.DumpRequest] overwrites it. *)
Definition httputil_DumpRequest (env : Env) (req : Request.t) (body : bool)
    (rs : gmap loc stream)
  : option ((fault + string) * gmap loc stream) :=
  let render := render_Request env (Request.Method req) (Request.URL req)
                  (Request.Header req) (Request.ContentLength req) in
  if negb body then Some (render None, rs)
  else match Request.Body req with
       | Nil => Some (render None, rs)
       | b =>
           match ReadFrom b rs with
           | Some ((p, None), rs') => Some (render (Some p), rs')
           | Some ((_, Some err), rs') => Some (inl err, rs')
           | None => None
           end
       end.

(** [httputil.DumpResponse(res, body)], likewise; a nil body is rendered as
    an empty one. *)
Definition httputil_DumpResponse (env : Env) (res : Response.t) (body : bool)
    (rs : gmap loc stream)
  : option ((fault + string) * gmap loc stream) :=
  let render := render_Response env (Response.Status res) (Response.Header res)
                  (Response.ContentLength res) in
  if negb body then Some (render None, rs)
  else match Response.Body res with
       | Nil => Some (render (Some EmptyString), rs)
       | b =>
           match ReadFrom b rs with
           | Some ((p, None), rs') => Some (render (Some p), rs')
           | Some ((_, Some err), rs') => Some (inl err, rs')
           | None => None
           end
       end.

(** The header of the request as it is dumped:
    [req.Header.Set("Authorization", "Bearer "+utils.Redact(strings.Split(temp, " ")[1]))]
    unless [UnmaskAPIKey]; [None] when the index is out of range. *)
Definition masked (env : Env) (unmask : bool) (temp : string) (h : http.Header)
  : option http.Header :=
  if unmask then Some h
  else match strings_Split temp " " !! 1%nat with
       | Some field => Some (http.Header_Set "Authorization" ("Bearer " +:+ Redact env field) h)
       | None => None
       end.

(** DumpRequest dumps out the provided http.Request *)
Definition DumpRequest (env : Env) (req : Request.t) (st : state)
  : outcome (Request.t * state) :=
  if negb (Verbose st) then Returned (req, st)
  else
    let bodyCopy := fresh (dom (readers st)) in
    let st := with_readers st (<[bodyCopy := Buffer]> (readers st)) in
    let body := TeeReader (Request.Body req) bodyCopy in
    let req := Request.with_Body req (NopCloser body) in
    let temp := Header_Get "Authorization" (Request.Header req) in
    match masked env (UnmaskAPIKey st) temp (Request.Header req) with
    | None => Panicked "index out of range"
    | Some h =>
        let req := Request.with_Header req h in
        match httputil_DumpRequest env req (Request.ContentLength req >? 0) (readers st) with
        | None => Panicked "nil pointer dereference"
        | Some (inl err, _) => Fatal err
        | Some (inr dump, rs) =>
            let st := with_readers st rs in
            let st := Println ["
========================= BEGIN DumpRequest ========================="] st in
            let st := Println [dump] st in
            let st := Println ["========================= END DumpRequest ========================="] st in
            let st := Println [EmptyString] st in
            let req := Request.with_Header req
                         (http.Header_Set "Authorization" temp (Request.Header req)) in
            let req := Request.with_Body req (NopCloser (At bodyCopy)) in
            Returned (req, st)
        end
    end.

(** DumpResponse dumps out the provided http.Response *)
Definition DumpResponse (env : Env) (res : Response.t) (st : state)
  : outcome (Response.t * state) :=
  if negb (Verbose st) then Returned (res, st)
  else
    let bodyCopy := fresh (dom (readers st)) in
    let st := with_readers st (<[bodyCopy := Buffer]> (readers st)) in
    let body := TeeReader (Response.Body res) bodyCopy in
    let res := Response.with_Body res (NopCloser body) in
    match httputil_DumpResponse env res (Response.ContentLength res >? 0) (readers st) with
    | None => Panicked "nil pointer dereference"
    | Some (inl err, _) => Fatal err
    | Some (inr dump, rs) =>
        let st := with_readers st rs in
        let st := Println ["
========================= BEGIN DumpResponse ========================="] st in
        let st := Println [dump] st in
        let st := Println ["========================= END DumpResponse ========================="] st in
        let st := Println [EmptyString] st in
        let res := Response.with_Body res (NopCloser body) in
        Returned (res, st)
    end.

(** ** Vocabulary *)

(** The streams that a reader reads from, and the buffers that it writes
    to. *)
Fixpoint sources (r : Reader) : list loc :=
  match r with
  | Nil => []
  | At l => [l]
  | TeeReader r _ => sources r
  | NopCloser r => sources r
  end.

Fixpoint sinks (r : Reader) : list loc :=
  match r with
  | Nil => []
  | At _ => []
  | TeeReader r w => w :: sinks r
  | NopCloser r => sinks r
  end.

(** Every object that the reader points to is in the store. *)
Definition allocated (rs : gmap loc stream) (r : Reader) : Prop :=
  Forall (fun l => is_Some (rs !! l)) (sources r ++ sinks r).

(** No tee inside the reader writes to what the reader reads from. *)
Definition separate (r : Reader) : Prop :=
  Forall (fun w => ~ In w (sources r)) (sinks r).

(** A reader with nothing left to read: it has no nil reader inside, its
    streams are at their end, and its buffers are there. *)
Fixpoint spent (rs : gmap loc stream) (r : Reader) : Prop :=
  match r with
  | Nil => False
  | At l => rs !! l = Some Buffer
  | TeeReader r w => spent rs r /\ is_Some (rs !! w)
  | NopCloser r => spent rs r
  end.

(** What a call has written to [output], if it has returned. *)
Definition written {A} (o : outcome (A * state)) : option (list string) :=
  match o with
  | Returned (_, st) => Some (output st)
  | _ => None
  end.

End debug.

(** A session for [debug]: a token of which the dump shows the first four
    characters, a renderer that writes the fields one per line, and a store
    with one body stream at location [0]. *)
Module Trace.

Definition redact (token : string) : string :=
  String.substring 0 4 token +:+ "****".

Fixpoint lines (h : http.Header) : string :=
  match h with
  | [] => EmptyString
  | (k, v) :: h' => k +:+ ": " +:+ v +:+ "
" +:+ lines h'
  end.

Definition shown (body : option string) : string :=
  match body with Some p => p | None => EmptyString end.

Definition env : debug.Env :=
  {| debug.Redact := redact;
     debug.render_Request := fun method url h _ body =>
       inr (method +:+ " " +:+ url +:+ "
" +:+ lines h +:+ "
" +:+ shown body);
     debug.render_Response := fun status h _ body =>
       inr (status +:+ "
" +:+ lines h +:+ "
" +:+ shown body) |}.

Definition session (body : debug.stream) (unmask : bool) : debug.state :=
  {| debug.readers := {[ 0%nat := body ]}; debug.output := [];
     debug.Verbose := true; debug.UnmaskAPIKey := unmask |}.

Definition whole (p : string) : debug.stream :=
  {| debug.pending := p; debug.failure := None |}.

Definition cut (p : string) : debug.stream :=
  {| debug.pending := p; debug.failure := Some Demo.resetByPeer |}.

(** A request with the body at location [0], of declared length [n], and
    the header [h]. *)
Definition patch (h : http.Header) (n : Z) : debug.Request.t :=
  {| debug.Request.Method := "PATCH";
     debug.Request.URL := "https://api.exercism.io/v1/solutions/abc123";
     debug.Request.Header := h;
     debug.Request.ContentLength := n;
     debug.Request.Body := debug.At 0%nat |}.

Definition authorized (token : string) : http.Header :=
  [("User-Agent", "github.com/exercism/cli"); ("Authorization", "Bearer " +:+ token)]%string.

Definition anonymous : http.Header :=
  [("User-Agent", "github.com/exercism/cli")]%string.

(** A response with the body at location [0], of declared length [n]. *)
Definition answer (n : Z) : debug.Response.t :=
  {| debug.Response.Status := "200 OK";
     debug.Response.Header := [("Content-Type", "application/json")]%string;
     debug.Response.ContentLength := n;
     debug.Response.Body := debug.At 0%nat |}.

End Trace.

(** * Properties *)

(** ** The monad *)

Lemma bind_ok {A B} (m : M A) (k : A -> M B) st x st' :
  m st = (inr x, st') -> bind m k st = k x st'.
Proof. intros H. unfold bind. now rewrite H. Qed.

Lemma bind_fail {A B} (m : M A) (k : A -> M B) st e st' :
  m st = (inl e, st') -> bind m k st = (inl e, st').
Proof. intros H. unfold bind. now rewrite H. Qed.

Lemma bind_inv_ok {A B} (m : M A) (k : A -> M B) st y st' :
  bind m k st = (inr y, st') ->
  exists x st1, m st = (inr x, st1) /\ k x st1 = (inr y, st').
Proof.
  unfold bind. destruct (m st) as [[e|x] st1]; intros H; [discriminate|eauto].
Qed.

Lemma try_ok {A} (r : fault + A) x st : r = inr x -> try r st = (inr x, st).
Proof. now intros ->. Qed.

Lemma try_fail {A} (r : fault + A) err st :
  r = inl err -> try r st = (inl (Surfaced err), st).
Proof. now intros ->. Qed.

(** ** Formatting without operands *)

Module fmt_facts.
Import fmt.

Lemma literal_plain s : hasPercent s = false -> literal s = (s, EmptyString).
Proof.
  induction s as [|c r IH]; simpl; [reflexivity|].
  intros H. apply orb_false_iff in H as [Hc Hr].
  rewrite Hc, (IH Hr). reflexivity.
Qed.

(** A format without ['%'] is printed as it stands. *)
Lemma Sprintf0_plain s : hasPercent s = false -> Sprintf0 s = s.
Proof.
  intros H. unfold Sprintf0. simpl. now rewrite (literal_plain s H).
Qed.

Lemma skipFlags_le s : (String.length (skipFlags s) <= String.length s)%nat.
Proof. induction s as [|c r IH]; simpl; [lia|]. destruct (isFlag c); simpl; lia. Qed.

Lemma advance_le k s : (String.length (advance k s) <= String.length s)%nat.
Proof.
  revert s. induction k as [|k IH]; intros [|c r]; simpl; try lia.
  specialize (IH r). lia.
Qed.

Lemma argNumber_le s good :
  (String.length (fst (fst (argNumber s good))) <= String.length s)%nat.
Proof.
  unfold argNumber. destruct s as [|c r]; [simpl; lia|].
  destruct (isChar c "["); [|simpl; lia].
  destruct (parseArgNumber (String c r)) as [[index wid] found].
  pose proof (advance_le wid (String c r)) as H. simpl in H.
  destruct (found && (0 <=? index) && (index <? 0)); simpl; lia.
Qed.

Lemma decodeVerb_le c r :
  (String.length (snd (decodeVerb c r)) <= String.length r)%nat.
Proof.
  unfold decodeVerb.
  repeat match goal with
         | |- context [match ?x with _ => _ end] => destruct x
         end; simpl; lia.
Qed.

Lemma width_le s after good :
  (String.length (snd (fst (fst (width s after good)))) <= String.length s)%nat.
Proof.
  unfold width. destruct s as [|c r]; [simpl; lia|].
  destruct (isChar c "*"); [simpl; lia|].
  destruct (parsenum (String c r) (String.length (String c r))) as [[n present] k].
  apply advance_le.
Qed.

Lemma precision_le s after good :
  (String.length (snd (fst (fst (precision s after good)))) <= String.length s)%nat.
Proof.
  unfold precision. destruct s as [|c r]; [simpl; lia|].
  destruct ((1 <? String.length (String c r))%nat && isChar c "."); [|simpl; lia].
  cbv zeta.
  pose proof (argNumber_le r (if after then false else good)) as H.
  destruct (argNumber r (if after then false else good)) as [[r1 a1] g1].
  simpl in H.
  destruct r1 as [|c' r']; [simpl in *; lia|].
  destruct (isChar c' "*"); [simpl in *; lia|].
  destruct (parsenum (String c' r') (String.length (String c' r'))) as [[n present] k].
  pose proof (advance_le k (String c' r')). simpl in *. lia.
Qed.

Lemma verb_le s good :
  (String.length (snd (verb s good)) <= String.length s)%nat.
Proof.
  unfold verb. destruct s as [|c r]; [simpl; lia|].
  pose proof (decodeVerb_le c r) as H.
  destruct (decodeVerb c r) as [v r']. simpl in H.
  destruct (String.eqb v "%"); [simpl; lia|].
  destruct (negb good); simpl; lia.
Qed.

(** A directive leaves no more of the format than it was given. *)
Lemma directive_le s :
  (String.length (snd (directive s)) <= String.length s)%nat.
Proof.
  unfold directive.
  pose proof (skipFlags_le s) as H0.
  pose proof (argNumber_le (skipFlags s) true) as H1.
  destruct (argNumber (skipFlags s) true) as [[s1 after1] good1]. simpl in H1.
  pose proof (width_le s1 after1 good1) as H2.
  destruct (width s1 after1 good1) as [[[out1 s2] after2] good2]. simpl in H2.
  pose proof (precision_le s2 after2 good2) as H3.
  destruct (precision s2 after2 good2) as [[[out2 s3] after3] good3]. simpl in H3.
  assert (exists (s4 : string) (after4 good4 : bool),
    (String.length s4 <= String.length s3)%nat /\
    (if after3 then (s3, after3, good3) else argNumber s3 good3)
    = (s4, after4, good4)) as (s4 & after4 & good4 & H4 & ->).
  { destruct after3; [repeat eexists; lia|].
    pose proof (argNumber_le s3 good3) as H.
    destruct (argNumber s3 good3) as [[r1 a1] g1]. repeat eexists. exact H. }
  pose proof (verb_le s4 good4) as H5.
  destruct (verb s4 good4) as [out3 s5]. simpl in *. lia.
Qed.

Lemma literal_le s :
  (String.length (snd (literal s)) <= String.length s)%nat.
Proof.
  induction s as [|c r IH]; simpl; [lia|].
  destruct (isChar c "%"); simpl; [lia|].
  destruct (literal r) as [lit rest]. simpl in *. lia.
Qed.

(** The fuel of [Sprintf0] is never used up: any two amounts above the
    length of the format give the same text. *)
Lemma doPrintf_fuel f1 : forall f2 s,
  (String.length s < f1)%nat -> (String.length s < f2)%nat ->
  doPrintf f1 s = doPrintf f2 s.
Proof.
  induction f1 as [|f1 IH]; intros f2 s H1 H2; [lia|].
  destruct f2 as [|f2]; [lia|]. simpl.
  pose proof (literal_le s) as Hl.
  destruct (literal s) as [lit rest]. simpl in Hl.
  destruct rest as [|c r]; [reflexivity|].
  pose proof (directive_le r) as Hd.
  destruct (directive r) as [out rest']. simpl in Hd, Hl.
  rewrite (IH f2 rest'); [reflexivity| lia | lia].
Qed.

End fmt_facts.

(** The texts of the library's own documentation and tests for calls
    without operands: a verb is reported as missing, an argument index as
    bad, a ['*'] as a bad width or precision, a format that ends inside a
    directive as having no verb, and a ['.'] that ends the format is the
    verb. *)
Example Sprintf0_samples :
  fmt.Sprintf0 "hi%d" = "hi%!d(MISSING)"%string
  /\ fmt.Sprintf0 "100%% sure" = "100% sure"%string
  /\ fmt.Sprintf0 "%" = "%!(NOVERB)"%string
  /\ fmt.Sprintf0 "%-5" = "%!(NOVERB)"%string
  /\ fmt.Sprintf0 "%.5" = "%!(NOVERB)"%string
  /\ fmt.Sprintf0 "%[1]d" = "%!d(BADINDEX)"%string
  /\ fmt.Sprintf0 "%*d" = "%!(BADWIDTH)%!d(MISSING)"%string
  /\ fmt.Sprintf0 "%.*d" = "%!(BADPREC)%!d(MISSING)"%string
  /\ fmt.Sprintf0 "%.2f%%" = "%!f(MISSING)%"%string
  /\ fmt.Sprintf0 "disk at 100%." = "disk at 100%!.(MISSING)"%string
  /\ fmt.Sprintf0 "%5." = "%!.(MISSING)"%string
  /\ fmt.Sprintf0 "%[1]." = "%!.(BADINDEX)"%string.
Proof. repeat split; vm_compute; reflexivity. Qed.

(** ** The upload stage *)

Section Upload.

Variable w : World.

(** The first half of [submitDocuments] never calls the decoder. *)
Lemma submitDocuments_range_decoder decode l : forall parts st,
  submitDocuments_range (with_json_Decode w decode) l parts st
  = submitDocuments_range w l parts st.
Proof.
  induction l as [|doc l IH]; intros parts st; simpl; [reflexivity|].
  unfold bind.
  destruct (try (os_Open w (workspace.Document.Filepath doc)) st) as [[e|file] st1];
    [reflexivity|].
  destruct (readAll file st1) as [[e|bytes] st2]; [reflexivity|].
  apply IH.
Qed.

Lemma submitDocuments_exchange_decoder decode s st :
  submitDocuments_exchange (with_json_Decode w decode) s st
  = submitDocuments_exchange w s st.
Proof.
  unfold submitDocuments_exchange, bind.
  destruct (deref s st) as [[e|m] st1]; [reflexivity|].
  destruct (String.eqb (workspace.ExerciseMetadata.ID m) ""); [reflexivity|].
  destruct (Nat.eqb (length (documents (sub s))) 0); [reflexivity|].
  rewrite submitDocuments_range_decoder.
  destruct (submitDocuments_range w (documents (sub s)) [] st1) as [[e|body] st2];
    reflexivity.
Qed.

(** Status 400, body decoded: the error is made by
    [fmt.Errorf(jsonErrBody.Error.Message)], the message being the
    format. *)
Lemma bad_request_decoded s st resp st1 body :
  submitDocuments_exchange w s st = (inr resp, st1) ->
  http.StatusCode resp = http.StatusBadRequest ->
  json_Decode w (http.RespBody resp) = inr body ->
  submitDocuments w s st
  = (inl (ApiError (fmt.Sprintf0 (Error.Message (Error body)))), st1).
Proof.
  intros Hx Hs Hd. unfold submitDocuments. rewrite (bind_ok _ _ _ _ _ Hx).
  unfold submitDocuments_response. rewrite Hs, Z.eqb_refl, Hd. reflexivity.
Qed.

(** A message without ['%'] comes out as the server wrote it. *)
Lemma bad_request_plain_message s st resp st1 body :
  submitDocuments_exchange w s st = (inr resp, st1) ->
  http.StatusCode resp = http.StatusBadRequest ->
  json_Decode w (http.RespBody resp) = inr body ->
  fmt.hasPercent (Error.Message (Error body)) = false ->
  submitDocuments w s st = (inl (ApiError (Error.Message (Error body))), st1).
Proof.
  intros Hx Hs Hd Hp. rewrite (bad_request_decoded s st resp st1 body Hx Hs Hd).
  now rewrite (fmt_facts.Sprintf0_plain _ Hp).
Qed.

(** Status 400, body not decoded: a [ProtocolError] around the decoder's
    error, never an [ApiError]. *)
Lemma bad_request_undecoded s st resp st1 err :
  submitDocuments_exchange w s st = (inr resp, st1) ->
  http.StatusCode resp = http.StatusBadRequest ->
  json_Decode w (http.RespBody resp) = inl err ->
  submitDocuments w s st
  = (inl (ProtocolError ("failed to parse error response - " +:+ fault_text err)), st1).
Proof.
  intros Hx Hs Hd. unfold submitDocuments. rewrite (bind_ok _ _ _ _ _ Hx).
  unfold submitDocuments_response. rewrite Hs, Z.eqb_refl, Hd. reflexivity.
Qed.

Lemma other_status_drained s st resp st1 :
  submitDocuments_exchange w s st = (inr resp, st1) ->
  http.StatusCode resp <> http.StatusBadRequest ->
  io.broken (http.RespBody resp) = None ->
  submitDocuments w s st = (inr tt, st1).
Proof.
  intros Hx Hs Hb. unfold submitDocuments. rewrite (bind_ok _ _ _ _ _ Hx).
  unfold submitDocuments_response.
  destruct (Z.eqb_spec (http.StatusCode resp) http.StatusBadRequest) as [E|_];
    [contradiction|].
  unfold bind, readAll. rewrite Hb. reflexivity.
Qed.

Lemma other_status_broken s st resp st1 err :
  submitDocuments_exchange w s st = (inr resp, st1) ->
  http.StatusCode resp <> http.StatusBadRequest ->
  io.broken (http.RespBody resp) = Some err ->
  submitDocuments w s st = (inl (Surfaced err), st1).
Proof.
  intros Hx Hs Hb. unfold submitDocuments. rewrite (bind_ok _ _ _ _ _ Hx).
  unfold submitDocuments_response.
  destruct (Z.eqb_spec (http.StatusCode resp) http.StatusBadRequest) as [E|_];
    [contradiction|].
  unfold bind, readAll. rewrite Hb. reflexivity.
Qed.

(** The exchange only answers for a context that has its metadata. *)
Lemma submitDocuments_exchange_metadata s st resp st1 :
  submitDocuments_exchange w s st = (inr resp, st1) ->
  exists m, metadata (sub s) = Some m.
Proof.
  unfold submitDocuments_exchange, bind, deref.
  destruct (metadata (sub s)) as [m|]; [eauto|discriminate].
Qed.

Lemma printResult_ok s m st :
  metadata (sub s) = Some m -> fst (printResult s st) = inr tt.
Proof. intros H. unfold printResult, deref, bind. rewrite H. reflexivity. Qed.

Lemma runSubmit_upload_ok cfg flags a st0 s st st1 :
  validateUserConfig w cfg = None ->
  newSubmitContext w cfg flags a st0 = (inr s, st) ->
  submitDocuments w s st = (inr tt, st1) ->
  runSubmit w cfg flags a st0 = printResult s st1.
Proof.
  intros Hv Hn Hs. unfold runSubmit. rewrite Hv.
  rewrite (bind_ok _ _ _ _ _ Hn). now rewrite (bind_ok _ _ _ _ _ Hs).
Qed.

Lemma runSubmit_upload_fail cfg flags a st0 s st e st1 :
  validateUserConfig w cfg = None ->
  newSubmitContext w cfg flags a st0 = (inr s, st) ->
  submitDocuments w s st = (inl e, st1) ->
  runSubmit w cfg flags a st0 = (inl e, st1).
Proof.
  intros Hv Hn Hs. unfold runSubmit. rewrite Hv.
  rewrite (bind_ok _ _ _ _ _ Hn). now rewrite (bind_fail _ _ _ _ _ Hs).
Qed.

End Upload.

(** A 400 answer in HTML: the pipeline fails with the [ProtocolError] that
    wraps the decoder's error. *)
Example bad_request_in_html :
  fst (runSubmit (Demo.answering Demo.badGateway400 (inl Demo.notJSON))
         Demo.cfg Demo.quiet Demo.argv (Demo.start ["a.txt"%string]))
  = inl (ProtocolError
           "failed to parse error response - invalid character '<' looking for beginning of value").
Proof. vm_compute; reflexivity. Qed.

(** A 400 answer with a message that has no ['%'] in it: the [ApiError]
    reads as the server wrote it. *)
Example bad_request_with_plain_message :
  fst (runSubmit
         (Demo.answering (Demo.badRequest "track_ambiguous" "please specify a track")
                         (Demo.decoded "track_ambiguous" "please specify a track"))
         Demo.cfg Demo.quiet Demo.argv (Demo.start ["a.txt"%string]))
  = inl (ApiError "please specify a track").
Proof. vm_compute; reflexivity. Qed.

(** C2.  The claim is that a 400 answer whose body decodes fails with an
    [ApiError] that carries the server's message character for character.
    The code passes the message to [fmt.Errorf] as the format: when the
    server answers 400 with the message [disk 100% full], the error of the
    pipeline reads [disk 100%!f(MISSING)ull]. *)
Theorem C2_message_used_as_format :
  fst (runSubmit
         (Demo.answering (Demo.badRequest "invalid_submission" "disk 100% full")
                         (Demo.decoded "invalid_submission" "disk 100% full"))
         Demo.cfg Demo.quiet Demo.argv (Demo.start ["a.txt"%string]))
  = inl (ApiError "disk 100%!f(MISSING)ull")
  /\ "disk 100%!f(MISSING)ull"%string <> "disk 100% full"%string.
Proof. split; [vm_compute; reflexivity | discriminate]. Qed.

(** C3, as stated, fails: the server answers 500 and the connection breaks
    while the body is drained; one request has been sent, the status is not
    400, and the pipeline returns the read error. *)
Lemma C3_counterexample :
  http.StatusCode Demo.interrupted <> http.StatusBadRequest
  /\ length (sent (snd (runSubmit (Demo.answering Demo.interrupted (inl Demo.notJSON))
                          Demo.cfg Demo.quiet Demo.argv
                          (Demo.start ["a.txt"%string])))) = 1%nat
  /\ fst (runSubmit (Demo.answering Demo.interrupted (inl Demo.notJSON))
            Demo.cfg Demo.quiet Demo.argv (Demo.start ["a.txt"%string]))
     = inl (Surfaced Demo.resetByPeer).
Proof. repeat split; [discriminate | vm_compute; reflexivity ..]. Qed.

(** C3, amended.  For every response whose status code is not 400 (500 and
    the other non-2xx codes included) and whose body can be read to its end,
    the upload stage succeeds and the pipeline returns success; the body is
    drained and never parsed: whatever the decoder would make of it, the
    outcome is the same. *)
Theorem C3_other_status_succeeds_when_body_drains :
  forall (w : World) (cfg : Viper) (flags : FlagSet) (a : loc)
         (st0 : state) (s : submitContext) (st : state)
         (resp : http.Response) (st1 : state),
    validateUserConfig w cfg = None ->
    newSubmitContext w cfg flags a st0 = (inr s, st) ->
    submitDocuments_exchange w s st = (inr resp, st1) ->
    http.StatusCode resp <> http.StatusBadRequest ->
    io.broken (http.RespBody resp) = None ->
    submitDocuments w s st = (inr tt, st1)
    /\ fst (runSubmit w cfg flags a st0) = inr tt
    /\ forall decode, submitDocuments (with_json_Decode w decode) s st = (inr tt, st1).
Proof.
  intros w cfg flags a st0 s st resp st1 Hv Hn Hx Hs Hb.
  pose proof (other_status_drained w s st resp st1 Hx Hs Hb) as Hok.
  split; [exact Hok|]. split.
  - rewrite (runSubmit_upload_ok w cfg flags a st0 s st st1 Hv Hn Hok).
    destruct (submitDocuments_exchange_metadata w s st resp st1 Hx) as [m Hm].
    exact (printResult_ok s m st1 Hm).
  - intros decode.
    apply (other_status_drained (with_json_Decode w decode) s st resp st1);
      [rewrite submitDocuments_exchange_decoder; exact Hx | exact Hs | exact Hb].
Qed.

Lemma C3_other_status_succeeds_when_body_drains_witness :
  submitDocuments (Demo.answering Demo.serverError (inl Demo.notJSON))
    (Demo.context (Demo.answering Demo.serverError (inl Demo.notJSON)) ["a.txt"; "b.txt"]%string)
    (Demo.collected (Demo.answering Demo.serverError (inl Demo.notJSON)) ["a.txt"; "b.txt"]%string)
  = (inr tt, Demo.exchanged (Demo.answering Demo.serverError (inl Demo.notJSON))
               ["a.txt"; "b.txt"]%string)
  /\ fst (runSubmit (Demo.answering Demo.serverError (inl Demo.notJSON))
            Demo.cfg Demo.quiet Demo.argv (Demo.start ["a.txt"; "b.txt"]%string)) = inr tt
  /\ forall decode,
       submitDocuments
         (with_json_Decode (Demo.answering Demo.serverError (inl Demo.notJSON)) decode)
         (Demo.context (Demo.answering Demo.serverError (inl Demo.notJSON)) ["a.txt"; "b.txt"]%string)
         (Demo.collected (Demo.answering Demo.serverError (inl Demo.notJSON)) ["a.txt"; "b.txt"]%string)
       = (inr tt, Demo.exchanged (Demo.answering Demo.serverError (inl Demo.notJSON))
                    ["a.txt"; "b.txt"]%string).
Proof.
  apply (C3_other_status_succeeds_when_body_drains
           (Demo.answering Demo.serverError (inl Demo.notJSON))
           Demo.cfg Demo.quiet Demo.argv (Demo.start ["a.txt"; "b.txt"]%string)
           _ _ Demo.serverError).
  - reflexivity.
  - vm_compute; reflexivity.
  - vm_compute; reflexivity.
  - discriminate.
  - reflexivity.
Defined.

(** C10.  On a response whose status is not 400 the upload stage returns
    the error of draining the body when that read fails, and the pipeline
    fails with it: a status other than 400 is success only if the body read
    succeeds. *)
Theorem C10_drain_failure_is_reported :
  forall (w : World) (cfg : Viper) (flags : FlagSet) (a : loc)
         (st0 : state) (s : submitContext) (st : state)
         (resp : http.Response) (st1 : state) (err : fault),
    validateUserConfig w cfg = None ->
    newSubmitContext w cfg flags a st0 = (inr s, st) ->
    submitDocuments_exchange w s st = (inr resp, st1) ->
    http.StatusCode resp <> http.StatusBadRequest ->
    io.broken (http.RespBody resp) = Some err ->
    submitDocuments w s st = (inl (Surfaced err), st1)
    /\ runSubmit w cfg flags a st0 = (inl (Surfaced err), st1).
Proof.
  intros w cfg flags a st0 s st resp st1 err Hv Hn Hx Hs Hb.
  pose proof (other_status_broken w s st resp st1 err Hx Hs Hb) as Hf.
  split; [exact Hf|].
  exact (runSubmit_upload_fail w cfg flags a st0 s st _ st1 Hv Hn Hf).
Qed.

Lemma C10_drain_failure_is_reported_witness :
  submitDocuments (Demo.answering Demo.interrupted (inl Demo.notJSON))
    (Demo.context (Demo.answering Demo.interrupted (inl Demo.notJSON)) ["a.txt"]%string)
    (Demo.collected (Demo.answering Demo.interrupted (inl Demo.notJSON)) ["a.txt"]%string)
  = (inl (Surfaced Demo.resetByPeer),
     Demo.exchanged (Demo.answering Demo.interrupted (inl Demo.notJSON)) ["a.txt"]%string)
  /\ runSubmit (Demo.answering Demo.interrupted (inl Demo.notJSON))
       Demo.cfg Demo.quiet Demo.argv (Demo.start ["a.txt"]%string)
     = (inl (Surfaced Demo.resetByPeer),
        Demo.exchanged (Demo.answering Demo.interrupted (inl Demo.notJSON)) ["a.txt"]%string).
Proof.
  apply (C10_drain_failure_is_reported
           (Demo.answering Demo.interrupted (inl Demo.notJSON))
           Demo.cfg Demo.quiet Demo.argv (Demo.start ["a.txt"]%string)
           _ _ Demo.interrupted).
  - reflexivity.
  - vm_compute; reflexivity.
  - vm_compute; reflexivity.
  - discriminate.
  - reflexivity.
Defined.

(** ** Metadata validation *)

(** C7, as stated, fails where it says that [isRequester == false] always
    ends in [UnlinkedSolutionError]: the metadata of [/ws/go/alice] names the
    exercise [leap] and is not the requester's, and the error is the
    [SlugMismatchError], because the slug is compared first. *)
Lemma C7_counterexample :
  NewExerciseMetadata Demo.world
    (Exercise_Filepath Demo.world (exercise (sub (Demo.inExercise "/ws/go/alice"))))
  = inr Demo.alice
  /\ workspace.ExerciseMetadata.IsRequester Demo.alice = false
  /\ fst (_metadata Demo.world (Demo.inExercise "/ws/go/alice") (Demo.start []))
     = inl (SlugMismatchError (msgSlugMismatch "alice" "leap")).
Proof. repeat split. Qed.

(** C7, amended.  Once the metadata is loaded, validation succeeds if and
    only if [metadata.Exercise] equals the exercise slug and
    [metadata.IsRequester] is true.  A slug mismatch always fails with
    [SlugMismatchError], whatever the other fields, and the error text is made
    of both values.  [IsRequester == false] always fails: with
    [UnlinkedSolutionError] when the slug matches, and with the
    [SlugMismatchError] otherwise. *)
Theorem C7_metadata_validation :
  forall (w : World) (s : submitContext) (st : state) (m : workspace.ExerciseMetadata.t),
    NewExerciseMetadata w (Exercise_Filepath w (exercise (sub s))) = inr m ->
    (_metadata w s st = (inr m, st)
     <-> workspace.ExerciseMetadata.Exercise m = workspace.Exercise.Slug (exercise (sub s))
         /\ workspace.ExerciseMetadata.IsRequester m = true)
    /\ ((exists e, _metadata w s st = (inl e, st))
        <-> ~ (workspace.ExerciseMetadata.Exercise m = workspace.Exercise.Slug (exercise (sub s))
               /\ workspace.ExerciseMetadata.IsRequester m = true))
    /\ (workspace.ExerciseMetadata.Exercise m <> workspace.Exercise.Slug (exercise (sub s)) ->
        _metadata w s st
        = (inl (SlugMismatchError
                  (msgSlugMismatch (workspace.Exercise.Slug (exercise (sub s)))
                                   (workspace.ExerciseMetadata.Exercise m))), st))
    /\ (workspace.ExerciseMetadata.Exercise m = workspace.Exercise.Slug (exercise (sub s)) ->
        workspace.ExerciseMetadata.IsRequester m = false ->
        _metadata w s st
        = (inl (UnlinkedSolutionError
                  (msgUnlinked (BinaryName w) (workspace.ExerciseMetadata.Exercise m)
                               (workspace.ExerciseMetadata.Track m))), st)).
Proof.
  intros w s st m Hload.
  unfold _metadata. rewrite (bind_ok _ _ _ _ _ (try_ok _ _ st Hload)).
  destruct (String.eqb_spec (workspace.ExerciseMetadata.Exercise m)
                            (workspace.Exercise.Slug (exercise (sub s)))) as [Heq|Hne];
    destruct (workspace.ExerciseMetadata.IsRequester m) eqn:Hreq; simpl; unfold ok, fail.
  all: repeat split; unfold not; intros;
    repeat match goal with
           | H : exists _, _ |- _ => destruct H
           | H : _ /\ _ |- _ => destruct H
           end;
    try congruence; try discriminate; eauto; try tauto.
Qed.

Lemma C7_metadata_validation_witness :
  _metadata Demo.world (Demo.inExercise "/ws/go/bob") (Demo.start ["a.txt"%string])
  = (inr Demo.bob, Demo.start ["a.txt"%string]).
Proof.
  apply (C7_metadata_validation Demo.world (Demo.inExercise "/ws/go/bob")
           (Demo.start ["a.txt"%string]) Demo.bob); [reflexivity|].
  split; reflexivity.
Defined.

(** ** Path resolution *)

Lemma set_heap_same st : set_heap (heap st) st = st.
Proof. now destruct st. Qed.

Lemma set_heap_twice h1 h2 st : set_heap h1 (set_heap h2 st) = set_heap h1 st.
Proof. reflexivity. Qed.

Section Resolution.

Variable w : World.
Variable a : loc.

(** One turn of the loop for an argument that resolves. *)
Lemma sanitizeArgs_range_turn i n l st arg src :
  heap st !! a = Some l ->
  l !! i = Some arg ->
  resolve w arg = Some src ->
  sanitizeArgs_range w a i (S n) st
  = sanitizeArgs_range w a (S i) n (set_heap (<[a := <[i := src]> l]> (heap st)) st).
Proof.
  intros Hh Hi Hr. simpl. unfold bind at 1. unfold index. rewrite Hh. simpl. rewrite Hi.
  unfold resolve in Hr.
  destruct (filepath_Abs w arg) as [e|abs]; [discriminate|].
  unfold bind at 1. simpl.
  destruct (os_Lstat w abs) as [e|info]; [discriminate|].
  destruct (os.IsDir info); [discriminate|].
  destruct (filepath_EvalSymlinks w abs) as [e|src']; [discriminate|].
  injection Hr as ->.
  unfold bind at 1. simpl. unfold bind at 1. unfold assign. rewrite Hh.
  apply lookup_lt_Some in Hi.
  destruct (decide (i < length l)%nat); [reflexivity|lia].
Qed.

(** One turn of the loop for an argument that does not resolve: the loop
    stops with an error and the state as it is. *)
Lemma sanitizeArgs_range_stop i n l st arg :
  heap st !! a = Some l ->
  l !! i = Some arg ->
  resolve w arg = None ->
  exists e, sanitizeArgs_range w a i (S n) st = (inl e, st).
Proof.
  intros Hh Hi Hr. simpl. unfold bind at 1. unfold index. rewrite Hh. simpl. rewrite Hi.
  unfold resolve in Hr.
  destruct (filepath_Abs w arg) as [e|abs]; [eexists; reflexivity|].
  unfold bind at 1. simpl.
  destruct (os_Lstat w abs) as [e|info].
  { destruct (os.IsNotExist e); eexists; reflexivity. }
  destruct (os.IsDir info); [eexists; reflexivity|].
  destruct (filepath_EvalSymlinks w abs) as [e|src']; [|discriminate].
  eexists; reflexivity.
Qed.

(** ... in particular for what [os.Lstat] reports as a directory. *)
Lemma sanitizeArgs_range_directory i n l st arg abs info :
  heap st !! a = Some l ->
  l !! i = Some arg ->
  filepath_Abs w arg = inr abs ->
  os_Lstat w abs = inr info ->
  os.IsDir info = true ->
  sanitizeArgs_range w a i (S n) st
  = (inl (UnsupportedTargetError (msgDirectory abs (BinaryName w))), st).
Proof.
  intros Hh Hi Ha Hl Hd. simpl. unfold bind at 1. unfold index. rewrite Hh. simpl.
  rewrite Hi, Ha. unfold bind at 1. simpl. rewrite Hl, Hd. reflexivity.
Qed.

(** The loop over a run of arguments that resolve. *)
Lemma sanitizeArgs_range_run todo srcs :
  Forall2 (fun arg src => resolve w arg = Some src) todo srcs ->
  forall done rest n st,
    heap st !! a = Some (done ++ todo ++ rest) ->
    sanitizeArgs_range w a (length done) (length todo + n) st
    = sanitizeArgs_range w a (length done + length todo) n
        (set_heap (<[a := done ++ srcs ++ rest]> (heap st)) st).
Proof.
  induction 1 as [|arg src todo srcs Hr _ IH]; intros done rest n st Hh.
  - simpl in *. rewrite Nat.add_0_r, (insert_id _ _ _ Hh), set_heap_same. reflexivity.
  - simpl length. simpl Nat.add.
    rewrite (sanitizeArgs_range_turn _ _ _ _ arg src Hh);
      [| apply list_lookup_middle; reflexivity | exact Hr].
    rewrite insert_app_r_alt, Nat.sub_diag by lia. simpl.
    specialize (IH (done ++ [src]) rest n
                  (set_heap (<[a := done ++ src :: todo ++ rest]> (heap st)) st)).
    rewrite length_app in IH. simpl in IH.
    replace (length done + 1)%nat with (S (length done)) in IH by lia.
    rewrite IH.
    + rewrite <- Nat.add_succ_comm. simpl.
      rewrite set_heap_twice, insert_insert_eq, <- app_assoc. reflexivity.
    + simpl. rewrite lookup_insert_eq, <- app_assoc. reflexivity.
Qed.

(** When every argument resolves, [sanitizeArgs] succeeds and leaves the
    resolved paths in the slice. *)
Lemma sanitizeArgs_ok s st l srcs :
  args s = a ->
  heap st !! a = Some l ->
  Forall2 (fun arg src => resolve w arg = Some src) l srcs ->
  sanitizeArgs w s st = (inr tt, set_heap (<[a := srcs]> (heap st)) st).
Proof.
  intros Ha Hh HF. unfold sanitizeArgs. rewrite Ha.
  unfold bind, len. rewrite Hh.
  pose proof (sanitizeArgs_range_run l srcs HF [] [] 0%nat st) as H.
  simpl in H. rewrite !app_nil_r, Nat.add_0_r in H. rewrite (H Hh). reflexivity.
Qed.

(** Conversely, when the loop succeeds every argument it met resolved, and
    the slice holds the resolved paths. *)
Lemma sanitizeArgs_range_inv todo : forall done st st',
  heap st !! a = Some (done ++ todo) ->
  sanitizeArgs_range w a (length done) (length todo) st = (inr tt, st') ->
  exists srcs,
    Forall2 (fun arg src => resolve w arg = Some src) todo srcs
    /\ st' = set_heap (<[a := done ++ srcs]> (heap st)) st.
Proof.
  induction todo as [|arg todo IH]; intros done st st' Hh Hrun.
  - exists []. split; [constructor|]. simpl in Hrun. injection Hrun as <-.
    rewrite (insert_id _ _ _ Hh), set_heap_same. reflexivity.
  - simpl length in Hrun.
    assert ((done ++ arg :: todo) !! length done = Some arg) as Hi
      by (apply list_lookup_middle; reflexivity).
    destruct (resolve w arg) as [src|] eqn:Hr.
    + rewrite (sanitizeArgs_range_turn _ _ _ _ arg src Hh Hi Hr) in Hrun.
      rewrite insert_app_r_alt, Nat.sub_diag in Hrun by lia. simpl in Hrun.
      specialize (IH (done ++ [src])
                    (set_heap (<[a := done ++ src :: todo]> (heap st)) st) st').
      rewrite length_app in IH. simpl in IH.
      replace (length done + 1)%nat with (S (length done)) in IH by lia.
      destruct IH as (srcs & HF & ->).
      * rewrite lookup_insert_eq, <- app_assoc. reflexivity.
      * exact Hrun.
      * exists (src :: srcs). split; [constructor; assumption|].
        rewrite set_heap_twice, insert_insert_eq, <- app_assoc. reflexivity.
    + destruct (sanitizeArgs_range_stop (length done) (length todo) _ st arg Hh Hi Hr)
        as [e He].
      rewrite He in Hrun. discriminate.
Qed.

End Resolution.

(** An argument that is a directory for [os.Lstat], reached after arguments
    that resolve, ends the stage with [UnsupportedTargetError]; the text names
    the directory and tells to run [BinaryName submit FILENAME] from inside
    it. *)
Lemma sanitizeArgs_rejects_directory w s st pre srcs arg post abs info :
  heap st !! args s = Some (pre ++ arg :: post) ->
  Forall2 (fun arg src => resolve w arg = Some src) pre srcs ->
  filepath_Abs w arg = inr abs ->
  os_Lstat w abs = inr info ->
  os.IsDir info = true ->
  sanitizeArgs w s st
  = (inl (UnsupportedTargetError (msgDirectory abs (BinaryName w))),
     set_heap (<[args s := srcs ++ arg :: post]> (heap st)) st).
Proof.
  intros Hh HF Ha Hl Hd. unfold sanitizeArgs, bind, len. rewrite Hh.
  rewrite length_app. simpl length.
  pose proof (sanitizeArgs_range_run w (args s) pre srcs HF [] (arg :: post)
                (S (length post)) st Hh) as H.
  simpl in H. rewrite H.
  apply (sanitizeArgs_range_directory w (args s) _ _ (srcs ++ arg :: post) _ arg abs info);
    trivial.
  - simpl. apply lookup_insert_eq.
  - rewrite (Forall2_length _ _ _ HF). apply list_lookup_middle. reflexivity.
Qed.

(** When the stage succeeds, no argument was a directory for [os.Lstat]. *)
Lemma sanitizeArgs_passes_no_lstat_directory w s st st' l arg abs info :
  heap st !! args s = Some l ->
  sanitizeArgs w s st = (inr tt, st') ->
  arg ∈ l ->
  filepath_Abs w arg = inr abs ->
  os_Lstat w abs = inr info ->
  os.IsDir info = false.
Proof.
  intros Hh Hrun Hin Ha Hl. unfold sanitizeArgs, bind, len in Hrun. rewrite Hh in Hrun.
  destruct (sanitizeArgs_range_inv w (args s) l [] st st' Hh Hrun) as (srcs & HF & _).
  apply list_elem_of_lookup in Hin as [i Hi].
  destruct (Forall2_lookup_l _ _ _ _ _ HF Hi) as (src & _ & Hr).
  unfold resolve in Hr. rewrite Ha, Hl in Hr.
  destruct (os.IsDir info); [discriminate|reflexivity].
Qed.

(** C8.  The claim is that an argument whose target is a directory fails
    with [UnsupportedTargetError] and that no directory passes the stage.  The
    code looks at the argument with [os.Lstat], which does not follow
    symbolic links: for [liblink], a link to the directory [/ws/go/bob/lib],
    [IsDir] is false, the stage succeeds and stores the directory in the
    slice; the run ends later, in the upload, with the read error of
    [io.Copy]. *)
Theorem C8_link_to_directory_passes :
  os_Lstat Demo.world "/ws/go/bob/liblink" = inr (Demo.symlink 3)
  /\ filepath_EvalSymlinks Demo.world "/ws/go/bob/liblink" = inr "/ws/go/bob/lib"%string
  /\ os_Lstat Demo.world "/ws/go/bob/lib" = inr Demo.dir
  /\ os.IsDir Demo.dir = true
  /\ fst (sanitizeArgs Demo.world (freshContext Demo.cfg Demo.quiet Demo.argv)
            (Demo.start ["liblink"%string])) = inr tt
  /\ heap (snd (sanitizeArgs Demo.world (freshContext Demo.cfg Demo.quiet Demo.argv)
                  (Demo.start ["liblink"%string]))) !! Demo.argv
     = Some ["/ws/go/bob/lib"%string]
  /\ fst (runSubmit Demo.world Demo.cfg Demo.quiet Demo.argv (Demo.start ["liblink"%string]))
     = inl (Surfaced (Fault "read /ws/go/bob/lib: is a directory" false false)).
Proof. repeat split; vm_compute; reflexivity. Qed.

(** The stages after [sanitizeArgs] read the slice and never write it. *)
Section Frame.

Variable w : World.

Lemma keeps_heap_ok {A} (x : A) : keeps_heap (ok x).
Proof. intros st. reflexivity. Qed.

Lemma keeps_heap_fail {A} (e : error) : keeps_heap (@fail A e).
Proof. intros st. reflexivity. Qed.

Lemma keeps_heap_try {A} (r : fault + A) : keeps_heap (try r).
Proof. intros st. destruct r; reflexivity. Qed.

Lemma keeps_heap_bind {A B} (m : M A) (k : A -> M B) :
  keeps_heap m -> (forall x, keeps_heap (k x)) -> keeps_heap (bind m k).
Proof.
  intros Hm Hk st. unfold bind. specialize (Hm st).
  destruct (m st) as [[e|x] st1]; simpl in *; [exact Hm|].
  rewrite (Hk x st1). exact Hm.
Qed.

Lemma keeps_heap_elements a : keeps_heap (elements a).
Proof. intros st. unfold elements. destruct (heap st !! a); reflexivity. Qed.

Lemma keeps_heap_Fprintf_Err text : keeps_heap (Fprintf_Err text).
Proof. intros st. reflexivity. Qed.

Lemma keeps_heap_Fprintf_Out text : keeps_heap (Fprintf_Out text).
Proof. intros st. reflexivity. Qed.

Lemma keeps_heap_deref s : keeps_heap (deref s).
Proof. intros st. unfold deref. destruct (metadata (sub s)); reflexivity. Qed.

Lemma keeps_heap_readAll r : keeps_heap (readAll r).
Proof. intros st. unfold readAll. destruct (io.broken r); reflexivity. Qed.

Lemma keeps_heap_client_Do req : keeps_heap (client_Do w req).
Proof. intros st. unfold client_Do. destruct (Do w req); reflexivity. Qed.

Lemma keeps_heap__exercise_range ws l : forall d, keeps_heap (_exercise_range w ws l d).
Proof.
  induction l as [|p l IH]; intros d st; simpl; [reflexivity|].
  destruct (ExerciseDir w ws p) as [err|dir].
  - destruct (workspace.IsMissingMetadata err); reflexivity.
  - destruct (negb (String.eqb d "") && negb (String.eqb dir d)); [reflexivity|apply IH].
Qed.

Lemma keeps_heap__exercise s : keeps_heap (_exercise w s).
Proof.
  unfold _exercise.
  apply keeps_heap_bind; [apply keeps_heap_try|]. intros ws.
  apply keeps_heap_bind; [apply keeps_heap_elements|]. intros l.
  apply keeps_heap_bind; [apply keeps_heap__exercise_range|]. intros d.
  apply keeps_heap_ok.
Qed.

Lemma keeps_heap_migrateLegacyMetadata s : keeps_heap (migrateLegacyMetadata w s).
Proof.
  unfold migrateLegacyMetadata.
  apply keeps_heap_bind; [apply keeps_heap_try|]. intros status.
  destruct (flags s "verbose"); [apply keeps_heap_Fprintf_Err|apply keeps_heap_ok].
Qed.

Lemma keeps_heap__metadata s : keeps_heap (_metadata w s).
Proof.
  unfold _metadata.
  apply keeps_heap_bind; [apply keeps_heap_try|]. intros m.
  destruct (negb (String.eqb _ _)); [apply keeps_heap_fail|].
  destruct (negb _); [apply keeps_heap_fail|apply keeps_heap_ok].
Qed.

Lemma keeps_heap__documents_range s l : forall docs, keeps_heap (_documents_range w s l docs).
Proof.
  induction l as [|f l IH]; intros docs; simpl; [apply keeps_heap_ok|].
  apply keeps_heap_bind; [apply keeps_heap_try|]. intros info.
  destruct (os.Size info >=? maxFileSize); [apply keeps_heap_fail|].
  destruct (os.Size info =? 0).
  - apply keeps_heap_bind; [apply keeps_heap_Fprintf_Err|]. intros _. apply IH.
  - apply keeps_heap_bind; [apply keeps_heap_try|]. intros doc. apply IH.
Qed.

Lemma keeps_heap__documents s : keeps_heap (_documents w s).
Proof.
  unfold _documents.
  apply keeps_heap_bind; [apply keeps_heap_elements|]. intros l.
  apply keeps_heap_bind; [apply keeps_heap__documents_range|]. intros docs.
  destruct (Nat.eqb (length docs) 0); [apply keeps_heap_fail|apply keeps_heap_ok].
Qed.

Lemma keeps_heap_submitDocuments_range l : forall parts,
  keeps_heap (submitDocuments_range w l parts).
Proof.
  induction l as [|doc l IH]; intros parts; simpl; [apply keeps_heap_ok|].
  apply keeps_heap_bind; [apply keeps_heap_try|]. intros file.
  apply keeps_heap_bind; [apply keeps_heap_readAll|]. intros bytes. apply IH.
Qed.

Lemma keeps_heap_submitDocuments s : keeps_heap (submitDocuments w s).
Proof.
  unfold submitDocuments, submitDocuments_exchange, submitDocuments_response.
  apply keeps_heap_bind.
  - apply keeps_heap_bind; [apply keeps_heap_deref|]. intros m.
    destruct (String.eqb _ _); [apply keeps_heap_fail|].
    destruct (Nat.eqb _ _); [apply keeps_heap_fail|].
    apply keeps_heap_bind; [apply keeps_heap_submitDocuments_range|]. intros body.
    apply keeps_heap_bind; [apply keeps_heap_try|]. intros client.
    apply keeps_heap_bind; [apply keeps_heap_try|]. intros headers.
    apply keeps_heap_client_Do.
  - intros resp. destruct (http.StatusCode resp =? http.StatusBadRequest).
    + destruct (json_Decode w (http.RespBody resp)); apply keeps_heap_fail.
    + apply keeps_heap_bind; [apply keeps_heap_readAll|]. intros _. apply keeps_heap_ok.
Qed.

Lemma keeps_heap_printResult s : keeps_heap (printResult s).
Proof.
  unfold printResult.
  apply keeps_heap_bind; [apply keeps_heap_deref|]. intros m.
  apply keeps_heap_bind; [apply keeps_heap_Fprintf_Err|]. intros _.
  apply keeps_heap_Fprintf_Out.
Qed.

(** Whatever becomes of the run after a successful [sanitizeArgs], the
    store at the end of [runSubmit] is the one [sanitizeArgs] left. *)
Lemma runSubmit_heap cfg fl a st st1 :
  validateUserConfig w cfg = None ->
  sanitizeArgs w (freshContext cfg fl a) st = (inr tt, st1) ->
  heap (snd (runSubmit w cfg fl a st)) = heap st1.
Proof.
  intros Hv Hs. unfold runSubmit. rewrite Hv.
  unfold newSubmitContext. unfold bind at 1 2. rewrite Hs.
  match goal with
  | |- heap (snd (match ?m st1 with _ => _ end)) = _ =>
      assert (keeps_heap m) as Hm
  end.
  { apply keeps_heap_bind; [apply keeps_heap__exercise|]. intros ex.
    apply keeps_heap_bind; [apply keeps_heap_migrateLegacyMetadata|]. intros _.
    apply keeps_heap_bind; [apply keeps_heap__metadata|]. intros m.
    apply keeps_heap_bind; [apply keeps_heap__documents|]. intros docs.
    apply keeps_heap_ok. }
  specialize (Hm st1).
  match goal with
  | |- heap (snd (match ?m st1 with _ => _ end)) = _ =>
      destruct (m st1) as [[e|ctx] st2]
  end; simpl in *; [exact Hm|].
  rewrite <- Hm.
  apply (keeps_heap_bind (submitDocuments w ctx) (fun _ => printResult ctx));
    [apply keeps_heap_submitDocuments | intros _; apply keeps_heap_printResult].
Qed.

End Frame.

(** C9.  Path resolution writes into the caller's slice: [newSubmitContext]
    puts the [args] it is given into the context, and when [sanitizeArgs]
    returns successfully every element of that slice has been replaced, at
    its index, by the symlink-evaluated absolute path of what was there.
    Nothing else in the state changes, and the caller of [runSubmit] finds
    the resolved paths in its slice when [runSubmit] returns. *)
Theorem C9_sanitizeArgs_overwrites_callers_slice :
  forall (w : World) (cfg : Viper) (flags : FlagSet) (a : loc)
         (st st' : state) (l : list string),
    heap st !! a = Some l ->
    validateUserConfig w cfg = None ->
    sanitizeArgs w (freshContext cfg flags a) st = (inr tt, st') ->
    exists srcs,
      heap st' !! a = Some srcs
      /\ Forall2 (fun arg src =>
                    exists abs, filepath_Abs w arg = inr abs
                                /\ filepath_EvalSymlinks w abs = inr src) l srcs
      /\ st' = set_heap (<[a := srcs]> (heap st)) st
      /\ heap (snd (runSubmit w cfg flags a st)) !! a = Some srcs.
Proof.
  intros w cfg flags a st st' l Hh Hv Hrun.
  pose proof (runSubmit_heap w cfg flags a st st' Hv Hrun) as Hend.
  unfold sanitizeArgs, bind, len in Hrun. simpl args in Hrun. rewrite Hh in Hrun.
  destruct (sanitizeArgs_range_inv w a l [] st st' Hh Hrun) as (srcs & HF & ->).
  exists srcs. rewrite Hend. simpl. rewrite lookup_insert_eq.
  split; [reflexivity|]. split; [|split; reflexivity].
  eapply Forall2_impl; [exact HF|].
  intros arg src Hr. unfold resolve in Hr.
  destruct (filepath_Abs w arg) as [e|abs]; [discriminate|].
  destruct (os_Lstat w abs) as [e|info]; [discriminate|].
  destruct (os.IsDir info); [discriminate|].
  destruct (filepath_EvalSymlinks w abs) as [e|src'] eqn:He; [discriminate|].
  injection Hr as ->. exists abs. split; [reflexivity|exact He].
Qed.

Lemma C9_sanitizeArgs_overwrites_callers_slice_witness :
  exists srcs,
    heap (snd (sanitizeArgs Demo.world (freshContext Demo.cfg Demo.quiet Demo.argv)
                 (Demo.start ["link.txt"; "b.txt"]%string))) !! Demo.argv = Some srcs
    /\ Forall2 (fun arg src =>
                  exists abs, filepath_Abs Demo.world arg = inr abs
                              /\ filepath_EvalSymlinks Demo.world abs = inr src)
         ["link.txt"; "b.txt"]%string srcs
    /\ snd (sanitizeArgs Demo.world (freshContext Demo.cfg Demo.quiet Demo.argv)
              (Demo.start ["link.txt"; "b.txt"]%string))
       = set_heap (<[Demo.argv := srcs]> (heap (Demo.start ["link.txt"; "b.txt"]%string)))
           (Demo.start ["link.txt"; "b.txt"]%string)
    /\ heap (snd (runSubmit Demo.world Demo.cfg Demo.quiet Demo.argv
                    (Demo.start ["link.txt"; "b.txt"]%string))) !! Demo.argv
       = Some srcs.
Proof.
  apply (C9_sanitizeArgs_overwrites_callers_slice Demo.world Demo.cfg Demo.quiet Demo.argv
           (Demo.start ["link.txt"; "b.txt"]%string)).
  - reflexivity.
  - reflexivity.
  - vm_compute; reflexivity.
Defined.

(** ** Exercise matching *)

Section Matching.

Variable w : World.
Variable ws : workspace.Workspace.

(** Once a directory has been seen, a later path of another directory stops
    the loop. *)
Lemma _exercise_range_mixed l : forall d0 st,
  d0 <> EmptyString ->
  Forall (fun p => exists d, ExerciseDir w ws p = inr d /\ d <> EmptyString) l ->
  Exists (fun p => exists d, ExerciseDir w ws p = inr d /\ d <> d0) l ->
  _exercise_range w ws l d0 st = (inl (MixedSolutionError msgMixed), st).
Proof.
  induction l as [|p l IH]; intros d0 st Hd0 Hall Hex; [inversion Hex|].
  apply Forall_cons_1 in Hall as [(dp & Hp & Hdp) Hall].
  simpl. rewrite Hp.
  destruct (String.eqb_spec d0 EmptyString) as [?|_]; [contradiction|].
  destruct (String.eqb_spec dp d0) as [->|Hne]; simpl; [|reflexivity].
  apply IH; trivial.
  apply Exists_cons in Hex as [(d & Hd & Hne)|Hex]; [congruence|exact Hex].
Qed.

(** Paths of one directory leave the loop with that directory. *)
Lemma _exercise_range_agree d l : forall d0 st,
  d0 = EmptyString \/ d0 = d ->
  Forall (fun p => ExerciseDir w ws p = inr d) l ->
  _exercise_range w ws l d0 st = (inr (match l with [] => d0 | _ => d end), st).
Proof.
  induction l as [|p l IH]; intros d0 st Hd0 Hall; [reflexivity|].
  apply Forall_cons_1 in Hall as [Hp Hall].
  simpl. rewrite Hp.
  assert (negb (String.eqb d0 "") && negb (String.eqb d d0) = false) as ->.
  { destruct Hd0 as [->| ->]; [reflexivity|].
    rewrite String.eqb_refl. apply andb_false_r. }
  rewrite (IH d st (or_intror eq_refl) Hall). now destruct l.
Qed.

(** When the loop comes to its end, every path it met is of the directory
    it ends with. *)
Lemma _exercise_range_inv l : forall d0 d st st',
  Forall (fun p => forall dp, ExerciseDir w ws p = inr dp -> dp <> EmptyString) l ->
  _exercise_range w ws l d0 st = (inr d, st') ->
  st' = st
  /\ Forall (fun p => ExerciseDir w ws p = inr d) l
  /\ (d0 <> EmptyString \/ l = [] -> d = d0).
Proof.
  induction l as [|p l IH]; intros d0 d st st' Hne Hrun.
  - simpl in Hrun. injection Hrun as <- <-.
    split; [reflexivity|]. split; [constructor|reflexivity].
  - apply Forall_cons_1 in Hne as [Hp Hne]. simpl in Hrun.
    destruct (ExerciseDir w ws p) as [err|dp] eqn:Hdir.
    { destruct (workspace.IsMissingMetadata err); discriminate. }
    specialize (Hp dp eq_refl).
    destruct (negb (String.eqb d0 "") && negb (String.eqb dp d0)) eqn:Hcheck;
      [discriminate|].
    destruct (IH dp d st st' Hne Hrun) as (-> & Hall & Hd).
    specialize (Hd (or_introl Hp)). subst d.
    split; [reflexivity|]. split; [constructor; assumption|].
    intros [Hd0|Hnil]; [|discriminate].
    apply andb_false_iff in Hcheck as [H|H].
    + apply negb_false_iff, String.eqb_eq in H. contradiction.
    + apply negb_false_iff, String.eqb_eq in H. exact H.
Qed.

End Matching.

Lemma elements_ok a st l : heap st !! a = Some l -> elements a st = (inr l, st).
Proof. intros H. unfold elements. now rewrite H. Qed.

(** C6, as stated, fails: two of the three resolved paths are of the
    exercises [bob] and [alice], the third is of no exercise.  With the
    stray path between the two, the stage returns the resolver's error, and
    so does the pipeline; with the stray path last, the error is the
    [MixedSolutionError].  The loop stops at the first path that the
    resolver cannot place or that disagrees, so the outcome depends on the
    order. *)
Lemma C6_counterexample :
  Forall (fun p => resolve Stray.world p = Some p)
    ["/ws/go/bob/a.txt"; Stray.notes; "/ws/go/alice/c.txt"]%string
  /\ ExerciseDir Stray.world Stray.ws "/ws/go/bob/a.txt" = inr "/ws/go/bob"%string
  /\ ExerciseDir Stray.world Stray.ws "/ws/go/alice/c.txt" = inr "/ws/go/alice"%string
  /\ _exercise Stray.world (freshContext Demo.cfg Demo.quiet Demo.argv)
       (Demo.start ["/ws/go/bob/a.txt"; Stray.notes; "/ws/go/alice/c.txt"]%string)
     = (inl (Surfaced Stray.notInWorkspace),
        Demo.start ["/ws/go/bob/a.txt"; Stray.notes; "/ws/go/alice/c.txt"]%string)
  /\ _exercise Stray.world (freshContext Demo.cfg Demo.quiet Demo.argv)
       (Demo.start ["/ws/go/bob/a.txt"; "/ws/go/alice/c.txt"; Stray.notes]%string)
     = (inl (MixedSolutionError msgMixed),
        Demo.start ["/ws/go/bob/a.txt"; "/ws/go/alice/c.txt"; Stray.notes]%string)
  /\ fst (runSubmit Stray.world Demo.cfg Demo.quiet Demo.argv
            (Demo.start ["/ws/go/bob/a.txt"; Stray.notes; "/ws/go/alice/c.txt"]%string))
     = inl (Surfaced Stray.notInWorkspace).
Proof.
  split; [repeat constructor|]. repeat split; vm_compute; reflexivity.
Qed.

(** C6, amended.  When every path of the list resolves to an exercise
    directory and two of them resolve to different directories, the stage
    fails with [MixedSolutionError], in whatever order the paths come; and
    when the stage succeeds, all paths resolve to one directory and the
    exercise is the one made from it. *)
Theorem C6_one_exercise_per_submission :
  forall (w : World) (s : submitContext) (st : state) (ws : workspace.Workspace)
         (l : list string),
    workspace_New w (usrCfg s "workspace") = inr ws ->
    heap st !! args s = Some l ->
    Forall (fun p => exists d, ExerciseDir w ws p = inr d /\ d <> EmptyString) l ->
    ((exists p q dp dq,
         p ∈ l /\ q ∈ l /\ ExerciseDir w ws p = inr dp /\ ExerciseDir w ws q = inr dq
         /\ dp <> dq) ->
     forall l' st',
       l' ≡ₚ l -> heap st' !! args s = Some l' ->
       _exercise w s st' = (inl (MixedSolutionError msgMixed), st'))
    /\ (forall e st',
          l <> [] -> _exercise w s st = (inr e, st') ->
          exists d, Forall (fun p => ExerciseDir w ws p = inr d) l
                    /\ e = NewExerciseFromDir w d /\ st' = st)
    /\ (forall d,
          l <> [] -> Forall (fun p => ExerciseDir w ws p = inr d) l ->
          _exercise w s st = (inr (NewExerciseFromDir w d), st)).
Proof.
  intros w s st ws l Hws Hh Hall. repeat split.
  - intros (p & q & dp & dq & Hp & Hq & Hdp & Hdq & Hne) l' st' Hperm Hh'.
    unfold _exercise.
    rewrite (bind_ok _ _ _ _ _ (try_ok _ _ st' Hws)).
    rewrite (bind_ok _ _ _ _ _ (elements_ok _ _ _ Hh')).
    rewrite <- Hperm in Hall, Hp, Hq.
    destruct l' as [|r l']; [inversion Hp|].
    apply Forall_cons_1 in Hall as [(dr & Hr & Hdr) Hall].
    enough (_exercise_range w ws (r :: l') "" st' = (inl (MixedSolutionError msgMixed), st'))
      as H by now rewrite (bind_fail _ _ _ _ _ H).
    simpl. rewrite Hr. simpl.
    apply _exercise_range_mixed; trivial.
    assert (forall x dx, x ∈ r :: l' -> ExerciseDir w ws x = inr dx -> dx <> dr ->
                         Exists (fun p => exists d, ExerciseDir w ws p = inr d /\ d <> dr) l')
      as Hfind.
    { intros x dx Hx Hdx Hnedx. apply elem_of_cons in Hx as [->|Hx]; [congruence|].
      apply Exists_exists. eauto. }
    destruct (string_dec dp dr) as [->|Hpr]; [|eauto].
    apply (Hfind q dq); trivial. congruence.
  - intros e st' Hl Hrun. unfold _exercise in Hrun.
    rewrite (bind_ok _ _ _ _ _ (try_ok _ _ st Hws)) in Hrun.
    rewrite (bind_ok _ _ _ _ _ (elements_ok _ _ _ Hh)) in Hrun.
    apply bind_inv_ok in Hrun as (d & st1 & Hrange & Hret).
    injection Hret as <- <-.
    apply _exercise_range_inv in Hrange as (-> & Hd & _).
    + exists d. repeat split. exact Hd.
    + eapply Forall_impl; [exact Hall|].
      intros p (dp & Hp & Hdp) dp' Hp'. congruence.
  - intros d Hl Hd. unfold _exercise.
    rewrite (bind_ok _ _ _ _ _ (try_ok _ _ st Hws)).
    rewrite (bind_ok _ _ _ _ _ (elements_ok _ _ _ Hh)).
    rewrite (bind_ok _ _ _ _ _ (_exercise_range_agree w ws d l "" st (or_introl eq_refl) Hd)).
    destruct l; [contradiction|reflexivity].
Qed.

Lemma C6_one_exercise_per_submission_witness :
  _exercise Demo.world (freshContext Demo.cfg Demo.quiet Demo.argv)
    (Demo.start ["/ws/go/alice/c.txt"; "/ws/go/bob/a.txt"]%string)
  = (inl (MixedSolutionError msgMixed),
     Demo.start ["/ws/go/alice/c.txt"; "/ws/go/bob/a.txt"]%string).
Proof.
  destruct (C6_one_exercise_per_submission Demo.world
              (freshContext Demo.cfg Demo.quiet Demo.argv)
              (Demo.start ["/ws/go/bob/a.txt"; "/ws/go/alice/c.txt"]%string)
              {| workspace.Dir := "/ws" |}
              ["/ws/go/bob/a.txt"; "/ws/go/alice/c.txt"]%string) as [Hmixed _].
  - reflexivity.
  - vm_compute; reflexivity.
  - repeat constructor; eexists; (split; [reflexivity|discriminate]).
  - refine (Hmixed _ ["/ws/go/alice/c.txt"; "/ws/go/bob/a.txt"]%string _ _ _).
    + exists "/ws/go/bob/a.txt"%string, "/ws/go/alice/c.txt"%string,
        "/ws/go/bob"%string, "/ws/go/alice"%string.
      repeat split; try reflexivity; try discriminate; repeat constructor.
    + apply perm_swap.
    + vm_compute; reflexivity.
Defined.

(** ** Document collection *)

Lemma log_Err_nil st : log_Err [] st = st.
Proof. destruct st. unfold log_Err. simpl. now rewrite app_nil_r. Qed.

Lemma log_Err_twice a b st : log_Err b (log_Err a st) = log_Err (a ++ b) st.
Proof. unfold log_Err. simpl. now rewrite app_assoc. Qed.

Section Collection.

Variable w : World.
Variable s : submitContext.


(** The loop over a run of files that it gets past: the documents of the
    files that are not empty are appended in order, and one warning is
    written for each empty file. *)
Lemma _documents_range_run pre : forall docs rest docs0 st,
  Forall (fun f => withinLimit w f = true) pre ->
  Forall2 (fun f doc => NewDocument w (Exercise_Filepath w (exercise (sub s))) f = inr doc) (List.filter (nonEmpty w) pre) docs ->
  _documents_range w s (pre ++ rest) docs0 st
  = _documents_range w s rest (docs0 ++ docs)
      (log_Err (map msgSkipping (List.filter (isEmpty w) pre)) st).
Proof.
  induction pre as [|f pre IH]; intros docs rest docs0 st Hlim Hdocs.
  - simpl in *. inversion Hdocs. now rewrite app_nil_r, log_Err_nil.
  - apply Forall_cons_1 in Hlim as [Hf Hlim]. simpl.
    unfold withinLimit in Hf. unfold nonEmpty, isEmpty in *. simpl in Hdocs.
    destruct (os_Stat w f) as [err|info]; [discriminate|].
    unfold bind at 1. simpl.
    destruct (Z.geb_spec (os.Size info) maxFileSize) as [Hge|_];
      [apply Z.ltb_lt in Hf; lia|].
    destruct (os.Size info =? 0); simpl in *.
    + unfold bind at 1. simpl. rewrite (IH docs rest docs0 _ Hlim Hdocs).
      now rewrite log_Err_twice.
    + inversion Hdocs as [|? doc ? docs' Hdoc Hdocs']; subst.
      rewrite Hdoc. unfold bind at 1. simpl.
      rewrite (IH docs' rest (docs0 ++ [doc]) _ Hlim Hdocs'), <- app_assoc. reflexivity.
Qed.

(** The files that the loop gets past have their documents. *)
Lemma collects_documents l :
  Forall (fun f => collects w (Exercise_Filepath w (exercise (sub s))) f = true) l ->
  Forall (fun f => withinLimit w f = true) l
  /\ exists docs,
       Forall2 (fun f doc => NewDocument w (Exercise_Filepath w (exercise (sub s))) f = inr doc) (List.filter (nonEmpty w) l) docs.
Proof.
  induction 1 as [|f l Hf _ [IH1 (docs & IH2)]]; [split; [constructor|exists []; constructor]|].
  unfold collects in Hf. apply andb_true_iff in Hf as [Hlim Hdoc].
  split; [constructor; assumption|]. simpl. unfold nonEmpty at 1.
  destruct (isEmpty w f); simpl in *; [eauto|].
  destruct (NewDocument w (Exercise_Filepath w (exercise (sub s))) f) as [err|doc] eqn:Hnew; [discriminate|].
  exists (doc :: docs). constructor; assumption.
Qed.

(** A file at or above the limit anywhere in the list: the loop does not
    come to its end. *)
Lemma _documents_range_oversize l : forall docs0 st,
  Exists (fun f => exists info, os_Stat w f = inr info /\ maxFileSize <= os.Size info) l ->
  exists e st', _documents_range w s l docs0 st = (inl e, st').
Proof.
  induction l as [|f l IH]; intros docs0 st Hex; [inversion Hex|].
  simpl. unfold bind at 1.
  destruct (os_Stat w f) as [err|info] eqn:Hstat; simpl; [eauto|].
  destruct (Z.geb_spec (os.Size info) maxFileSize) as [Hge|Hlt]; [unfold fail; eauto|].
  assert (Exists (fun f => exists info, os_Stat w f = inr info /\ maxFileSize <= os.Size info) l)
    as Hex'.
  { apply Exists_cons in Hex as [(info' & Hs & Hsz)|Hex]; [|exact Hex].
    rewrite Hstat in Hs. injection Hs as <-. lia. }
  destruct (os.Size info =? 0).
  - unfold bind at 1. simpl. apply IH. exact Hex'.
  - unfold bind at 1.
    destruct (NewDocument w (Exercise_Filepath w (exercise (sub s))) f) as [err|doc];
      simpl; [eauto|].
    apply IH. exact Hex'.
Qed.

(** When no file before it makes [os.Stat] or [workspace.NewDocument] fail,
    a file at or above the limit ends the loop with a [FileTooLargeError],
    that of the first such file. *)
Lemma _documents_range_too_large f post info pre : forall docs0 st,
  Forall (fun g => readable w (Exercise_Filepath w (exercise (sub s))) g = true) pre ->
  os_Stat w f = inr info ->
  maxFileSize <= os.Size info ->
  exists g st',
    g ∈ pre ++ [f]
    /\ (exists info', os_Stat w g = inr info' /\ maxFileSize <= os.Size info')
    /\ _documents_range w s (pre ++ f :: post) docs0 st
       = (inl (FileTooLargeError (msgTooLarge g maxFileSize)), st').
Proof.
  induction pre as [|h pre IH]; intros docs0 st Hpre Hstat Hsz.
  - exists f, st. split; [simpl; apply elem_of_cons; left; reflexivity|]. split; [eauto|].
    simpl. unfold bind. rewrite Hstat. simpl.
    destruct (Z.geb_spec (os.Size info) maxFileSize); [reflexivity|lia].
  - apply Forall_cons_1 in Hpre as [Hh Hpre]. unfold readable in Hh.
    simpl. unfold bind at 1.
    destruct (os_Stat w h) as [err|info'] eqn:Hstat'; [discriminate|]. simpl.
    destruct (Z.geb_spec (os.Size info') maxFileSize) as [Hge|Hlt].
    { exists h, st. split; [simpl; apply elem_of_cons; left; reflexivity|].
      split; [eauto|reflexivity]. }
    destruct (Z.leb_spec maxFileSize (os.Size info')) as [?|_]; [lia|]. simpl in Hh.
    destruct (os.Size info' =? 0).
    + unfold bind at 1. simpl.
      destruct (IH docs0 (log_Err [msgSkipping h] st) Hpre Hstat Hsz)
        as (g & st' & Hg & Hover & Hrun).
      exists g, st'. split; [simpl; apply elem_of_cons; right; exact Hg|].
      split; assumption.
    + unfold bind at 1.
      destruct (NewDocument w (Exercise_Filepath w (exercise (sub s))) h) as [err|doc]; [discriminate|]. simpl.
      destruct (IH (docs0 ++ [doc]) st Hpre Hstat Hsz) as (g & st' & Hg & Hover & Hrun).
      exists g, st'. split; [simpl; apply elem_of_cons; right; exact Hg|].
      split; assumption.
Qed.

(** What the loop returns does not depend on the state it starts in. *)
Lemma _documents_range_value l : forall docs0 st1 st2,
  fst (_documents_range w s l docs0 st1) = fst (_documents_range w s l docs0 st2).
Proof.
  induction l as [|f l IH]; intros docs0 st1 st2; [reflexivity|].
  simpl. unfold bind.
  destruct (os_Stat w f) as [err|info]; simpl; [reflexivity|].
  destruct (os.Size info >=? maxFileSize); [reflexivity|].
  destruct (os.Size info =? 0); simpl; [apply IH|].
  destruct (NewDocument w (Exercise_Filepath w (exercise (sub s))) f) as [err|doc];
    simpl; [reflexivity|].
  apply IH.
Qed.

(** The loop only ever adds to what has been written to [Err]. *)
Lemma _documents_range_Err l : forall docs0 st,
  exists more, Err (snd (_documents_range w s l docs0 st)) = Err st ++ more.
Proof.
  induction l as [|f l IH]; intros docs0 st; [exists []; simpl; now rewrite app_nil_r|].
  simpl. unfold bind at 1.
  destruct (os_Stat w f) as [err|info]; simpl; [exists []; now rewrite app_nil_r|].
  destruct (os.Size info >=? maxFileSize); [exists []; simpl; now rewrite app_nil_r|].
  destruct (os.Size info =? 0).
  - unfold bind at 1. simpl.
    destruct (IH docs0 (log_Err [msgSkipping f] st)) as [more Hmore].
    exists ([msgSkipping f] ++ more). rewrite Hmore. simpl. now rewrite <- app_assoc.
  - unfold bind at 1.
    destruct (NewDocument w (Exercise_Filepath w (exercise (sub s))) f) as [err|doc];
      simpl; [exists []; now rewrite app_nil_r|].
    apply IH.
Qed.

(** An empty file is passed over: the loop goes on as if the file were not
    in the list, one warning richer. *)
Lemma _documents_range_skip f rest docs0 st info :
  os_Stat w f = inr info ->
  os.Size info = 0 ->
  _documents_range w s (f :: rest) docs0 st
  = _documents_range w s rest docs0 (log_Err [msgSkipping f] st).
Proof.
  intros Hstat Hsz. simpl. unfold bind at 1. rewrite Hstat. simpl. rewrite Hsz. reflexivity.
Qed.

End Collection.

Lemma _documents_unfold w s st l :
  heap st !! args s = Some l ->
  _documents w s st
  = match _documents_range w s l [] st with
    | (inl e, st') => (inl e, st')
    | (inr docs, st') =>
        if Nat.eqb (length docs) 0 then (inl (NoFilesToSubmitError msgNoFiles), st')
        else (inr docs, st')
    end.
Proof.
  intros Hh. unfold _documents. rewrite (bind_ok _ _ _ _ _ (elements_ok _ _ _ Hh)).
  unfold bind. destruct (_documents_range w s l [] st) as [[e|docs] st']; [reflexivity|].
  destruct (Nat.eqb (length docs) 0); reflexivity.
Qed.

(** Taking an empty file out of the list does not change what the loop
    returns. *)
Lemma _documents_range_without w s f post info pre : forall docs0 st1 st2,
  os_Stat w f = inr info ->
  os.Size info = 0 ->
  fst (_documents_range w s (pre ++ f :: post) docs0 st1)
  = fst (_documents_range w s (pre ++ post) docs0 st2).
Proof.
  induction pre as [|g pre IH]; intros docs0 st1 st2 Hstat Hsz.
  - simpl app. rewrite (_documents_range_skip w s f post docs0 st1 info Hstat Hsz).
    apply _documents_range_value.
  - simpl. unfold bind.
    destruct (os_Stat w g) as [err|info']; simpl; [reflexivity|].
    destruct (os.Size info' >=? maxFileSize); [reflexivity|].
    destruct (os.Size info' =? 0); simpl; [apply IH; assumption|].
    destruct (NewDocument w (Exercise_Filepath w (exercise (sub s))) g) as [err|doc];
      simpl; [reflexivity|].
    apply IH; assumption.
Qed.

(** C4.  A file whose size is 65535 bytes or more makes the stage fail, so
    that no document list comes out of the batch.  Unless [os.Stat] or
    [workspace.NewDocument] fails on an earlier file, the failure is a
    [FileTooLargeError] that names the first such file and the limit; it
    names this very file when the files before it are all collected.  A file
    of 65534 bytes (or fewer, but not empty) is taken into the document
    list. *)
Theorem C4_file_size_limit :
  forall (w : World) (s : submitContext) (st : state)
         (pre : list string) (f : string) (post : list string) (info : os.FileInfo),
    heap st !! args s = Some (pre ++ f :: post) ->
    os_Stat w f = inr info ->
    (65535 <= os.Size info -> exists e st', _documents w s st = (inl e, st'))
    /\ (65535 <= os.Size info ->
        Forall (fun g => readable w (Exercise_Filepath w (exercise (sub s))) g = true) pre ->
        exists g st',
          g ∈ pre ++ [f]
          /\ (exists info', os_Stat w g = inr info' /\ 65535 <= os.Size info')
          /\ _documents w s st = (inl (FileTooLargeError (msgTooLarge g 65535)), st'))
    /\ (65535 <= os.Size info ->
        Forall (fun g => collects w (Exercise_Filepath w (exercise (sub s))) g = true) pre ->
        exists st',
          _documents w s st = (inl (FileTooLargeError (msgTooLarge f 65535)), st'))
    /\ (0 < os.Size info <= 65534 ->
        forall doc,
          NewDocument w (Exercise_Filepath w (exercise (sub s))) f = inr doc ->
          Forall (fun g => collects w (Exercise_Filepath w (exercise (sub s))) g = true)
            (pre ++ post) ->
          exists docs st', _documents w s st = (inr docs, st') /\ doc ∈ docs).
Proof.
  intros w s st pre f post info Hh Hstat.
  rewrite (_documents_unfold w s st _ Hh). split; [|split; [|split]].
  - intros Hsz.
    destruct (_documents_range_oversize w s (pre ++ f :: post) [] st) as (e & st' & ->);
      [|eauto].
    apply Exists_app. right. apply Exists_cons_hd. eauto.
  - intros Hsz Hpre.
    destruct (_documents_range_too_large w s f post info pre [] st Hpre Hstat Hsz)
      as (g & st' & Hg & Hover & ->).
    eauto 6.
  - intros Hsz Hpre.
    destruct (collects_documents w s pre Hpre) as (Hlim & docs & Hdocs).
    rewrite (_documents_range_run w s pre docs (f :: post) [] st Hlim Hdocs).
    simpl. unfold bind. rewrite Hstat. simpl.
    destruct (Z.geb_spec (os.Size info) maxFileSize) as [_|Hlt];
      [eauto | unfold maxFileSize in Hlt; lia].
  - intros Hsz doc Hdoc Hall.
    assert (Forall (fun g => collects w (Exercise_Filepath w (exercise (sub s))) g = true)
              (pre ++ f :: post)) as Hall'.
    { apply Forall_app in Hall as [Hpre Hpost]. apply Forall_app. split; [exact Hpre|].
      constructor; [|exact Hpost].
      unfold collects, withinLimit, isEmpty. rewrite Hstat, Hdoc.
      destruct (Z.ltb_spec (os.Size info) maxFileSize) as [_|Hge];
        [|unfold maxFileSize in Hge; lia].
      apply orb_true_r. }
    destruct (collects_documents w s _ Hall') as (Hlim & docs & Hdocs).
    pose proof (_documents_range_run w s _ docs [] [] st Hlim Hdocs) as Hrun.
    rewrite app_nil_r in Hrun. rewrite Hrun. simpl.
    assert (doc ∈ docs) as Hin.
    { assert (f ∈ List.filter (nonEmpty w) (pre ++ f :: post)) as Hf.
      { apply list_elem_of_In, filter_In. split.
        - apply in_or_app. right. left. reflexivity.
        - unfold nonEmpty, isEmpty. rewrite Hstat.
          destruct (Z.eqb_spec (os.Size info) 0); [lia|reflexivity]. }
      apply list_elem_of_lookup in Hf as [i Hi].
      destruct (Forall2_lookup_l _ _ _ _ _ Hdocs Hi) as (doc' & Hi' & Hdoc').
      rewrite Hdoc in Hdoc'. injection Hdoc' as <-.
      apply list_elem_of_lookup. eauto. }
    destruct docs as [|d docs]; [inversion Hin|]. simpl. eauto.
Qed.

Lemma C4_file_size_limit_witness :
  (exists st',
     _documents Demo.world (Demo.inExercise "/ws/go/bob")
       (Demo.start ["/ws/go/bob/a.txt"; "/ws/go/bob/big.bin"; "/ws/go/bob/b.txt"]%string)
     = (inl (FileTooLargeError (msgTooLarge "/ws/go/bob/big.bin" 65535)), st'))
  /\ (exists docs st',
        _documents Demo.world (Demo.inExercise "/ws/go/bob")
          (Demo.start ["/ws/go/bob/a.txt"; "/ws/go/bob/max.bin"; "/ws/go/bob/b.txt"]%string)
        = (inr docs, st')
        /\ {| workspace.Document.Filepath := "/ws/go/bob/max.bin";
              workspace.Document.Path := "max.bin" |} ∈ docs).
Proof.
  split.
  - apply (C4_file_size_limit Demo.world (Demo.inExercise "/ws/go/bob")
             (Demo.start ["/ws/go/bob/a.txt"; "/ws/go/bob/big.bin"; "/ws/go/bob/b.txt"]%string)
             ["/ws/go/bob/a.txt"%string] "/ws/go/bob/big.bin"
             ["/ws/go/bob/b.txt"%string] (Demo.file 65535)).
    + vm_compute; reflexivity.
    + reflexivity.
    + simpl. lia.
    + repeat constructor.
  - apply (C4_file_size_limit Demo.world (Demo.inExercise "/ws/go/bob")
             (Demo.start ["/ws/go/bob/a.txt"; "/ws/go/bob/max.bin"; "/ws/go/bob/b.txt"]%string)
             ["/ws/go/bob/a.txt"%string] "/ws/go/bob/max.bin"
             ["/ws/go/bob/b.txt"%string] (Demo.file 65534)).
    + vm_compute; reflexivity.
    + reflexivity.
    + simpl. lia.
    + reflexivity.
    + repeat constructor.
Defined.

(** C5.  A file of size 0 makes no document and does not end the batch:
    the stage returns what it returns for the list without that file, and
    when the loop gets as far as the file it writes the warning that names it
    to [Err].  When the other files are all collected and one of them is not
    empty, the stage succeeds: it returns the documents of the non-empty
    files among the others, a list that is not empty, and [Err] has received
    the warnings for the empty files, the one for this file among them.  The
    stage never returns an empty document list: when the loop ends without a
    document, as it does when every file is empty, the stage fails with
    [NoFilesToSubmitError]. *)
Theorem C5_empty_files_are_skipped :
  forall (w : World) (s : submitContext) (st : state) (l : list string),
    heap st !! args s = Some l ->
    (forall pre f post info,
        l = pre ++ f :: post ->
        os_Stat w f = inr info ->
        os.Size info = 0 ->
        fst (_documents w s st)
        = fst (_documents w s (set_heap (<[args s := pre ++ post]> (heap st)) st))
        /\ (Forall (fun g => collects w (Exercise_Filepath w (exercise (sub s))) g = true) pre ->
            msgSkipping f ∈ Err (snd (_documents w s st)))
        /\ (Forall (fun g => collects w (Exercise_Filepath w (exercise (sub s))) g = true)
              (pre ++ post) ->
            Exists (fun g => nonEmpty w g = true) (pre ++ post) ->
            exists docs,
              _documents w s st
              = (inr docs, log_Err (map msgSkipping (List.filter (isEmpty w) l)) st)
              /\ docs <> []
              /\ Forall2 (fun g doc =>
                            NewDocument w (Exercise_Filepath w (exercise (sub s))) g = inr doc)
                   (List.filter (nonEmpty w) (pre ++ post)) docs
              /\ msgSkipping f ∈ map msgSkipping (List.filter (isEmpty w) l)))
    /\ (forall docs st', _documents w s st = (inr docs, st') -> docs <> [])
    /\ (forall st1,
          _documents_range w s l [] st = (inr [], st1) ->
          _documents w s st = (inl (NoFilesToSubmitError msgNoFiles), st1))
    /\ (Forall (fun g => isEmpty w g = true) l ->
        exists st', _documents w s st = (inl (NoFilesToSubmitError msgNoFiles), st')).
Proof.
  intros w s st l Hh.
  split; [intros pre f post info -> Hstat Hsz; split; [|split] | split; [|split]].
  - rewrite (_documents_unfold w s st _ Hh).
    rewrite (_documents_unfold w s (set_heap (<[args s := pre ++ post]> (heap st)) st)
               (pre ++ post)) by (simpl; apply lookup_insert_eq).
    pose proof (_documents_range_without w s f post info pre [] st
                  (set_heap (<[args s := pre ++ post]> (heap st)) st) Hstat Hsz) as Hv.
    destruct (_documents_range w s (pre ++ f :: post) [] st) as [[e|docs] st1];
      destruct (_documents_range w s (pre ++ post) []
                  (set_heap (<[args s := pre ++ post]> (heap st)) st)) as [[e'|docs'] st2];
      simpl in Hv; try discriminate; injection Hv as <-; [reflexivity|].
    destruct (Nat.eqb (length docs) 0); reflexivity.
  - intros Hpre.
    rewrite (_documents_unfold w s st _ Hh).
    destruct (collects_documents w s pre Hpre) as (Hlim & docs & Hdocs).
    rewrite (_documents_range_run w s pre docs (f :: post) [] st Hlim Hdocs).
    rewrite (_documents_range_skip w s f post _ _ info Hstat Hsz).
    destruct (_documents_range_Err w s post ([] ++ docs)
                (log_Err [msgSkipping f]
                   (log_Err (map msgSkipping (List.filter (isEmpty w) pre)) st)))
      as [more Hmore].
    destruct (_documents_range w s post ([] ++ docs) _) as [[e|docs'] st1];
      [|destruct (Nat.eqb (length docs') 0)]; simpl in *; rewrite Hmore;
      set_solver.
  - intros Hall Hsome.
    assert (isEmpty w f = true) as Hempty
      by (unfold isEmpty; rewrite Hstat, Hsz; reflexivity).
    assert (Forall (fun g => collects w (Exercise_Filepath w (exercise (sub s))) g = true)
              (pre ++ f :: post)) as Hall'.
    { apply Forall_app in Hall as [Hpre Hpost]. apply Forall_app. split; [exact Hpre|].
      constructor; [|exact Hpost].
      unfold collects, withinLimit. rewrite Hempty, Hstat, Hsz. reflexivity. }
    assert (List.filter (nonEmpty w) (pre ++ f :: post)
            = List.filter (nonEmpty w) (pre ++ post)) as Hfilter.
    { rewrite !List.filter_app. simpl. unfold nonEmpty at 2. rewrite Hempty. reflexivity. }
    destruct (collects_documents w s _ Hall') as (Hlim & docs & Hdocs).
    rewrite Hfilter in Hdocs.
    assert (docs <> []) as Hne.
    { intros ->. inversion Hdocs as [Hnil|]. apply Exists_exists in Hsome as (g & Hg & Hnon).
      assert (In g (List.filter (nonEmpty w) (pre ++ post))) as Hin
        by (apply filter_In; split; [apply list_elem_of_In|]; assumption).
      rewrite <- Hnil in Hin. exact Hin. }
    exists docs. rewrite (_documents_unfold w s st _ Hh).
    pose proof (_documents_range_run w s (pre ++ f :: post) docs [] [] st Hlim) as Hrun.
    rewrite Hfilter, app_nil_r in Hrun. rewrite (Hrun Hdocs). simpl.
    split; [destruct docs; [contradiction|reflexivity]|].
    split; [exact Hne|]. split; [exact Hdocs|].
    apply list_elem_of_fmap. exists f. split; [reflexivity|].
    apply list_elem_of_In, filter_In. split; [|exact Hempty].
    apply in_or_app. right. left. reflexivity.
  - intros docs st'. rewrite (_documents_unfold w s st _ Hh).
    destruct (_documents_range w s l [] st) as [[e|docs'] st1]; [discriminate|].
    destruct docs' as [|d docs']; simpl; [discriminate|].
    intros H. injection H as <- <-. discriminate.
  - intros st1 Hrun. rewrite (_documents_unfold w s st _ Hh), Hrun. reflexivity.
  - intros Hall. rewrite (_documents_unfold w s st _ Hh).
    assert (Forall (fun f => withinLimit w f = true) l) as Hlim.
    { eapply Forall_impl; [exact Hall|]. intros g Hg. unfold isEmpty, withinLimit in *.
      destruct (os_Stat w g) as [err|info]; [discriminate|].
      apply Z.eqb_eq in Hg. rewrite Hg. reflexivity. }
    assert (List.filter (nonEmpty w) l = []) as Hnone.
    { clear Hh Hlim. induction Hall as [|g l Hg _ IH]; [reflexivity|].
      simpl. unfold nonEmpty at 1. rewrite Hg. exact IH. }
    pose proof (_documents_range_run w s l [] [] [] st Hlim) as Hrun.
    rewrite Hnone, app_nil_r in Hrun. rewrite (Hrun ltac:(constructor)). simpl. eauto.
Qed.

Lemma C5_empty_files_are_skipped_witness :
  (fst (_documents Demo.world (Demo.inExercise "/ws/go/bob")
          (Demo.start ["/ws/go/bob/a.txt"; "/ws/go/bob/b.txt"; "/ws/go/bob/max.bin"]%string))
   = fst (_documents Demo.world (Demo.inExercise "/ws/go/bob")
            (set_heap
               (<[Demo.argv := ["/ws/go/bob/a.txt"%string] ++ ["/ws/go/bob/max.bin"%string]]>
                  (heap (Demo.start ["/ws/go/bob/a.txt"; "/ws/go/bob/b.txt";
                                     "/ws/go/bob/max.bin"]%string)))
               (Demo.start ["/ws/go/bob/a.txt"; "/ws/go/bob/b.txt";
                            "/ws/go/bob/max.bin"]%string))))
  /\ msgSkipping "/ws/go/bob/b.txt"
     ∈ Err (snd (_documents Demo.world (Demo.inExercise "/ws/go/bob")
                   (Demo.start ["/ws/go/bob/a.txt"; "/ws/go/bob/b.txt";
                                "/ws/go/bob/max.bin"]%string)))
  /\ exists docs,
       _documents Demo.world (Demo.inExercise "/ws/go/bob")
         (Demo.start ["/ws/go/bob/a.txt"; "/ws/go/bob/b.txt"; "/ws/go/bob/max.bin"]%string)
       = (inr docs,
          log_Err
            (map msgSkipping
               (List.filter (isEmpty Demo.world)
                  ["/ws/go/bob/a.txt"; "/ws/go/bob/b.txt"; "/ws/go/bob/max.bin"]%string))
            (Demo.start ["/ws/go/bob/a.txt"; "/ws/go/bob/b.txt"; "/ws/go/bob/max.bin"]%string))
       /\ docs <> []
       /\ Forall2 (fun g doc =>
                     NewDocument Demo.world
                       (Exercise_Filepath Demo.world
                          (exercise (sub (Demo.inExercise "/ws/go/bob")))) g = inr doc)
            (List.filter (nonEmpty Demo.world)
               (["/ws/go/bob/a.txt"%string] ++ ["/ws/go/bob/max.bin"%string])) docs
       /\ msgSkipping "/ws/go/bob/b.txt"
          ∈ map msgSkipping
              (List.filter (isEmpty Demo.world)
                 ["/ws/go/bob/a.txt"; "/ws/go/bob/b.txt"; "/ws/go/bob/max.bin"]%string).
Proof.
  destruct (C5_empty_files_are_skipped Demo.world (Demo.inExercise "/ws/go/bob")
              (Demo.start ["/ws/go/bob/a.txt"; "/ws/go/bob/b.txt"; "/ws/go/bob/max.bin"]%string)
              ["/ws/go/bob/a.txt"; "/ws/go/bob/b.txt"; "/ws/go/bob/max.bin"]%string)
    as [Hskip _].
  - vm_compute; reflexivity.
  - destruct (Hskip ["/ws/go/bob/a.txt"%string] "/ws/go/bob/b.txt"%string
                ["/ws/go/bob/max.bin"%string] (Demo.file 0))
      as (Hsame & Hwarn & Hgoes); [reflexivity ..|].
    split; [exact Hsame|]. split; [apply Hwarn; repeat constructor|].
    apply Hgoes; [repeat constructor|].
    apply Exists_cons_hd. reflexivity.
Defined.

(** The batch of the witness, written out: the empty [b.txt] between two
    files that qualify costs a warning and nothing else. *)
Example empty_file_between_two_others :
  _documents Demo.world (Demo.inExercise "/ws/go/bob")
    (Demo.start ["/ws/go/bob/a.txt"; "/ws/go/bob/b.txt"; "/ws/go/bob/max.bin"]%string)
  = (inr [ {| workspace.Document.Filepath := "/ws/go/bob/a.txt";
              workspace.Document.Path := "a.txt" |};
           {| workspace.Document.Filepath := "/ws/go/bob/max.bin";
              workspace.Document.Path := "max.bin" |} ],
     log_Err [msgSkipping "/ws/go/bob/b.txt"]
       (Demo.start ["/ws/go/bob/a.txt"; "/ws/go/bob/b.txt"; "/ws/go/bob/max.bin"]%string)).
Proof. vm_compute; reflexivity. Qed.

(** ** The pipeline as a whole *)

Section Pipeline.

Variable w : World.

Lemma submitDocuments_response_state resp st :
  snd (submitDocuments_response w resp st) = st.
Proof.
  unfold submitDocuments_response, bind, readAll.
  destruct (http.StatusCode resp =? http.StatusBadRequest).
  - destruct (json_Decode w (http.RespBody resp)); reflexivity.
  - destruct (io.broken (http.RespBody resp)); reflexivity.
Qed.

Lemma printResult_sent s st : sent (snd (printResult s st)) = sent st.
Proof.
  unfold printResult, bind, deref. destruct (metadata (sub s)); reflexivity.
Qed.

(** After [client.Do], nothing is sent any more. *)
Lemma upload_sent s st :
  sent (snd (bind (submitDocuments w s) (fun _ => printResult s) st))
  = sent (snd (submitDocuments_exchange w s st)).
Proof.
  unfold submitDocuments, bind.
  destruct (submitDocuments_exchange w s st) as [[e|resp] st1]; [reflexivity|].
  pose proof (submitDocuments_response_state resp st1) as Hst.
  destruct (submitDocuments_response w resp st1) as [[e|u] st2]; simpl in *; subst st2;
    [reflexivity|].
  apply printResult_sent.
Qed.

(** The parts that the loop of [submitDocuments] makes of documents whose
    files can be read. *)
Lemma submitDocuments_range_ok docs : forall contents parts st,
  Forall2 (fun doc bytes =>
             exists r, os_Open w (workspace.Document.Filepath doc) = inr r
                       /\ io.broken r = None /\ io.data r = bytes) docs contents ->
  submitDocuments_range w docs parts st
  = (inr (parts ++ zip_with (fun doc bytes =>
                               {| multipart.fieldname := "files[]";
                                  multipart.filename := workspace.Document.Path doc;
                                  multipart.content := bytes |}) docs contents), st).
Proof.
  induction docs as [|doc docs IH]; intros contents parts st HF.
  - inversion HF. simpl. now rewrite app_nil_r.
  - inversion HF as [|? bytes ? contents' (r & Hopen & Hbroken & Hdata) HF']; subst.
    simpl. unfold bind. rewrite Hopen. simpl. unfold readAll. rewrite Hbroken. simpl.
    rewrite (IH contents' _ st HF'), <- app_assoc. reflexivity.
Qed.

(** The first half of [submitDocuments] for a context in good order: the
    request is built and handed to the client, once. *)
Lemma submitDocuments_exchange_sends s st m contents client headers :
  metadata (sub s) = Some m ->
  workspace.ExerciseMetadata.ID m <> EmptyString ->
  documents (sub s) <> [] ->
  Forall2 (fun doc bytes =>
             exists r, os_Open w (workspace.Document.Filepath doc) = inr r
                       /\ io.broken r = None /\ io.data r = bytes)
    (documents (sub s)) contents ->
  api_NewClient w (usrCfg s "token") (usrCfg s "apibaseurl") = inr client ->
  NewRequest_headers w client "PATCH"
    (usrCfg s "apibaseurl" +:+ "/solutions/" +:+ workspace.ExerciseMetadata.ID m)
  = inr headers ->
  sent (snd (submitDocuments_exchange w s st))
  = sent st ++
    [ {| http.Method := "PATCH";
         http.URL := usrCfg s "apibaseurl" +:+ "/solutions/"
                     +:+ workspace.ExerciseMetadata.ID m;
         http.Headers := http.Header_Set "Content-Type" (FormDataContentType w) headers;
         http.Body := zip_with (fun doc bytes =>
                                  {| multipart.fieldname := "files[]";
                                     multipart.filename := workspace.Document.Path doc;
                                     multipart.content := bytes |})
                        (documents (sub s)) contents |} ].
Proof.
  intros Hm Hid Hdocs HF Hclient Hheaders.
  unfold submitDocuments_exchange, bind, deref. rewrite Hm. simpl.
  destruct (String.eqb_spec (workspace.ExerciseMetadata.ID m) "") as [?|_]; [contradiction|].
  destruct (Nat.eqb_spec (length (documents (sub s))) 0) as [Hlen|_];
    [apply nil_length_inv in Hlen; contradiction|].
  rewrite (submitDocuments_range_ok (documents (sub s)) contents [] st HF).
  rewrite Hclient. simpl. rewrite Hheaders. simpl.
  unfold client_Do. destruct (Do w _); reflexivity.
Qed.

(** The stages before the upload, when each of them goes through. *)
Lemma newSubmitContext_ok cfg fl a st raw files ws d status m docs :
  heap st !! a = Some raw ->
  Forall2 (fun arg f => resolve w arg = Some f) raw files ->
  workspace_New w (cfg "workspace") = inr ws ->
  Forall (fun f => ExerciseDir w ws f = inr d) files ->
  MigrateLegacyMetadataFile w (NewExerciseFromDir w d) = inr status ->
  NewExerciseMetadata w (Exercise_Filepath w (NewExerciseFromDir w d)) = inr m ->
  workspace.ExerciseMetadata.Exercise m = workspace.Exercise.Slug (NewExerciseFromDir w d) ->
  workspace.ExerciseMetadata.IsRequester m = true ->
  Forall (fun f => withinLimit w f = true) files ->
  Forall2 (fun f doc => NewDocument w (Exercise_Filepath w (NewExerciseFromDir w d)) f = inr doc)
    (List.filter (nonEmpty w) files) docs ->
  docs <> [] ->
  exists st',
    newSubmitContext w cfg fl a st
    = (inr (with_documents
              (with_metadata (with_exercise (freshContext cfg fl a) (NewExerciseFromDir w d)) m)
              docs), st')
    /\ sent st' = sent st
    /\ heap st' = <[a := files]> (heap st).
Proof.
  intros Hh Hres Hws Hdir Hmig Hload Hslug Hreq Hlim Hdocs Hne.
  unfold newSubmitContext.
  rewrite (bind_ok _ _ _ _ _
             (sanitizeArgs_ok w a (freshContext cfg fl a) st raw files eq_refl Hh Hres)).
  set (st1 := set_heap (<[a := files]> (heap st)) st).
  assert (heap st1 !! a = Some files) as Hh1 by apply lookup_insert_eq.
  assert (files <> []) as Hfiles by (intros ->; inversion Hdocs; congruence).
  assert (_exercise w (freshContext cfg fl a) st1 = (inr (NewExerciseFromDir w d), st1))
    as Hex.
  { unfold _exercise. simpl usrCfg.
    rewrite (bind_ok _ _ _ _ _ (try_ok _ _ st1 Hws)).
    rewrite (bind_ok _ _ _ _ _ (elements_ok _ _ _ Hh1)).
    rewrite (bind_ok _ _ _ _ _
               (_exercise_range_agree w ws d files "" st1 (or_introl eq_refl) Hdir)).
    destruct files; [contradiction|reflexivity]. }
  rewrite (bind_ok _ _ _ _ _ Hex). cbv zeta.
  set (ctx1 := with_exercise (freshContext cfg fl a) (NewExerciseFromDir w d)).
  assert (exists st2, migrateLegacyMetadata w ctx1 st1 = (inr tt, st2)
                      /\ sent st2 = sent st /\ heap st2 = <[a := files]> (heap st))
    as (st2 & Hmigrate & Hsent2 & Hheap2).
  { unfold migrateLegacyMetadata. simpl exercise.
    rewrite (bind_ok _ _ _ _ _ (try_ok _ _ st1 Hmig)).
    change (flags ctx1) with fl.
    destruct (fl "verbose"); eexists; (split; [reflexivity|split; reflexivity]). }
  rewrite (bind_ok _ _ _ _ _ Hmigrate).
  assert (_metadata w ctx1 st2 = (inr m, st2)) as Hmeta.
  { unfold _metadata. simpl exercise.
    rewrite (bind_ok _ _ _ _ _ (try_ok _ _ st2 Hload)).
    rewrite Hslug, String.eqb_refl, Hreq. reflexivity. }
  rewrite (bind_ok _ _ _ _ _ Hmeta). cbv zeta.
  set (ctx2 := with_metadata ctx1 m).
  assert (heap st2 !! args ctx2 = Some files) as Hh2
    by (simpl; rewrite Hheap2; apply lookup_insert_eq).
  pose proof (_documents_range_run w ctx2 files docs [] [] st2 Hlim Hdocs) as Hrun.
  rewrite app_nil_r in Hrun.
  assert (_documents w ctx2 st2
          = (inr docs, log_Err (map msgSkipping (List.filter (isEmpty w) files)) st2))
    as Hcollect.
  { rewrite (_documents_unfold w ctx2 st2 files Hh2), Hrun. simpl.
    destruct docs; [contradiction|reflexivity]. }
  rewrite (bind_ok _ _ _ _ _ Hcollect).
  eexists. split; [reflexivity|]. split; assumption.
Qed.

End Pipeline.

(** The scenario of the specification: [a.txt] of 12 bytes and the empty
    [b.txt] under one exercise, metadata with the ID [abc123] and no
    auto-approval.  One part is uploaded, [b.txt] is warned about, the status
    line says "View it at" and the URL of the metadata goes to [Out]. *)
Example end_to_end :
  runSubmit Demo.world Demo.cfg Demo.quiet Demo.argv (Demo.start ["a.txt"; "b.txt"]%string)
  = (inr tt,
     {| heap := {[ Demo.argv := ["/ws/go/bob/a.txt"; "/ws/go/bob/b.txt"]%string ]};
        Err := [ msgSkipping "/ws/go/bob/b.txt";
                 msgSubmitted "View it at:

    " ];
        Out := [ "    https://exercism.io/my/solutions/abc123

"%string ];
        sent := [ {| http.Method := "PATCH";
                     http.URL := "https://api.exercism.io/v1/solutions/abc123";
                     http.Headers :=
                       [ ("Content-Type", "multipart/form-data; boundary=5f3c1a9e0b7d4c2f8a6e");
                         ("User-Agent", "github.com/exercism/cli");
                         ("Authorization", "Bearer t0k3n") ]%string;
                     http.Body :=
                       [ {| multipart.fieldname := "files[]";
                            multipart.filename := "a.txt";
                            multipart.content := "package bob
" |} ] |} ] |}).
Proof. vm_compute; reflexivity. Qed.

(** C1, as stated, fails: the one argument resolves to a file under the
    exercise [/ws/go/bob] and is within the size limit, but it is empty; the
    pipeline stops in the document collection with [NoFilesToSubmitError]
    and no request is sent. *)
Lemma C1_counterexample :
  resolve Demo.world "b.txt" = Some "/ws/go/bob/b.txt"%string
  /\ ExerciseDir Demo.world {| workspace.Dir := "/ws" |} "/ws/go/bob/b.txt"
     = inr "/ws/go/bob"%string
  /\ withinLimit Demo.world "/ws/go/bob/b.txt" = true
  /\ fst (runSubmit Demo.world Demo.cfg Demo.quiet Demo.argv (Demo.start ["b.txt"%string]))
     = inl (NoFilesToSubmitError msgNoFiles)
  /\ sent (snd (runSubmit Demo.world Demo.cfg Demo.quiet Demo.argv
                  (Demo.start ["b.txt"%string]))) = [].
Proof. repeat split; vm_compute; reflexivity. Qed.

(** C1, amended.  For every input path list in which every path resolves to
    a file under one exercise directory and within the size limit, and at
    least one of the files is not empty, and for which the other steps before
    the request go through (the user configuration is valid, the legacy
    migration and the metadata load succeed, the metadata passes validation
    and has a solution ID, a document can be made of every non-empty file and
    its file read, the client and the request can be built), the pipeline
    issues exactly one HTTP request: a PATCH to
    [{apiBaseURL}/solutions/{metadata.ID}] whose multipart body has exactly
    one part per non-empty input file, each with the field name [files[]], the
    document's path relative to the exercise root as file name and the bytes
    of the file as content, in the order of the input arguments. *)
Theorem C1_one_request_one_part_per_nonempty_file :
  forall (w : World) (cfg : Viper) (flags : FlagSet) (a : loc) (st : state)
         (raw files : list string) (ws : workspace.Workspace) (d status : string)
         (m : workspace.ExerciseMetadata.t) (docs : list workspace.Document.t)
         (contents : list string) (client : api.Client) (headers : http.Header),
    heap st !! a = Some raw ->
    validateUserConfig w cfg = None ->
    Forall2 (fun arg f => resolve w arg = Some f) raw files ->
    workspace_New w (cfg "workspace") = inr ws ->
    Forall (fun f => ExerciseDir w ws f = inr d) files ->
    Forall (fun f => withinLimit w f = true) files ->
    Exists (fun f => nonEmpty w f = true) files ->
    MigrateLegacyMetadataFile w (NewExerciseFromDir w d) = inr status ->
    NewExerciseMetadata w (Exercise_Filepath w (NewExerciseFromDir w d)) = inr m ->
    workspace.ExerciseMetadata.Exercise m = workspace.Exercise.Slug (NewExerciseFromDir w d) ->
    workspace.ExerciseMetadata.IsRequester m = true ->
    workspace.ExerciseMetadata.ID m <> EmptyString ->
    Forall2 (fun f doc =>
               NewDocument w (Exercise_Filepath w (NewExerciseFromDir w d)) f = inr doc)
      (List.filter (nonEmpty w) files) docs ->
    Forall2 (fun doc bytes =>
               exists r, os_Open w (workspace.Document.Filepath doc) = inr r
                         /\ io.broken r = None /\ io.data r = bytes) docs contents ->
    api_NewClient w (cfg "token") (cfg "apibaseurl") = inr client ->
    NewRequest_headers w client "PATCH"
      (cfg "apibaseurl" +:+ "/solutions/" +:+ workspace.ExerciseMetadata.ID m) = inr headers ->
    exists req,
      sent (snd (runSubmit w cfg flags a st)) = sent st ++ [req]
      /\ http.Method req = "PATCH"%string
      /\ http.URL req
         = cfg "apibaseurl" +:+ "/solutions/" +:+ workspace.ExerciseMetadata.ID m
      /\ http.Body req
         = zip_with (fun doc bytes =>
                       {| multipart.fieldname := "files[]";
                          multipart.filename := workspace.Document.Path doc;
                          multipart.content := bytes |}) docs contents
      /\ length (http.Body req) = length (List.filter (nonEmpty w) files)
      /\ In ("Content-Type"%string, "multipart/form-data; boundary=" +:+ boundary w)
            (http.Headers req).
Proof.
  intros w cfg flags a st raw files ws d status m docs contents client headers
         Hh Hv Hres Hws Hdir Hlim Hsome Hmig Hload Hslug Hreq Hid Hdocs Hopen Hclient Hheaders.
  assert (docs <> []) as Hne.
  { intros ->. inversion Hdocs as [Hnil|]. apply Exists_exists in Hsome as (f & Hf & Hnon).
    assert (In f (List.filter (nonEmpty w) files)) as Hin
      by (apply filter_In; split; [apply list_elem_of_In|]; assumption).
    rewrite <- Hnil in Hin. exact Hin. }
  destruct (newSubmitContext_ok w cfg flags a st raw files ws d status m docs
              Hh Hres Hws Hdir Hmig Hload Hslug Hreq Hlim Hdocs Hne)
    as (st' & Hnew & Hsent & _).
  exists {| http.Method := "PATCH";
            http.URL := cfg "apibaseurl" +:+ "/solutions/"
                        +:+ workspace.ExerciseMetadata.ID m;
            http.Headers := http.Header_Set "Content-Type" (FormDataContentType w) headers;
            http.Body := zip_with (fun doc bytes =>
                                     {| multipart.fieldname := "files[]";
                                        multipart.filename := workspace.Document.Path doc;
                                        multipart.content := bytes |}) docs contents |}.
  split; [|split; [reflexivity|split; [reflexivity|split; [reflexivity|split]]]].
  - unfold runSubmit. rewrite Hv, (bind_ok _ _ _ _ _ Hnew), upload_sent.
    rewrite (submitDocuments_exchange_sends w _ st' m contents client headers);
      trivial.
    rewrite Hsent. reflexivity.
  - cbn [http.Body]. rewrite length_zip_with, <- (Forall2_length _ _ _ Hopen),
      (Forall2_length _ _ _ Hdocs). lia.
  - left. reflexivity.
Qed.

Lemma C1_one_request_one_part_per_nonempty_file_witness :
  exists req,
    sent (snd (runSubmit Demo.world Demo.cfg Demo.quiet Demo.argv
                 (Demo.start ["a.txt"; "b.txt"]%string)))
    = sent (Demo.start ["a.txt"; "b.txt"]%string) ++ [req]
    /\ http.Method req = "PATCH"%string
    /\ http.URL req
       = Demo.cfg "apibaseurl" +:+ "/solutions/"
         +:+ workspace.ExerciseMetadata.ID Demo.bob
    /\ http.Body req
       = zip_with (fun doc bytes =>
                     {| multipart.fieldname := "files[]";
                        multipart.filename := workspace.Document.Path doc;
                        multipart.content := bytes |})
           [ {| workspace.Document.Filepath := "/ws/go/bob/a.txt";
                workspace.Document.Path := "a.txt" |} ]
           [ io.data (Demo.contents "/ws/go/bob/a.txt") ]
    /\ length (http.Body req)
       = length (List.filter (nonEmpty Demo.world)
                   ["/ws/go/bob/a.txt"; "/ws/go/bob/b.txt"]%string)
    /\ In ("Content-Type"%string,
           "multipart/form-data; boundary=" +:+ boundary Demo.world)
          (http.Headers req).
Proof.
  apply (C1_one_request_one_part_per_nonempty_file
           Demo.world Demo.cfg Demo.quiet Demo.argv
           (Demo.start ["a.txt"; "b.txt"]%string)
           ["a.txt"; "b.txt"]%string
           ["/ws/go/bob/a.txt"; "/ws/go/bob/b.txt"]%string
           {| workspace.Dir := "/ws" |} "/ws/go/bob"%string EmptyString Demo.bob
           [ {| workspace.Document.Filepath := "/ws/go/bob/a.txt";
                workspace.Document.Path := "a.txt" |} ]
           [ io.data (Demo.contents "/ws/go/bob/a.txt") ]
           {| api.APIToken := "t0k3n"; api.APIBaseURL := "https://api.exercism.io/v1" |}
           (Demo.clientHeaders
              {| api.APIToken := "t0k3n"; api.APIBaseURL := "https://api.exercism.io/v1" |})).
  - vm_compute; reflexivity.
  - reflexivity.
  - repeat constructor.
  - reflexivity.
  - repeat constructor.
  - repeat constructor.
  - apply Exists_cons_hd. reflexivity.
  - reflexivity.
  - reflexivity.
  - reflexivity.
  - reflexivity.
  - discriminate.
  - repeat constructor.
  - repeat constructor. eexists. repeat split.
  - reflexivity.
  - reflexivity.
Defined.

(** * Further properties of [submit.go] *)

(** ** What the stages leave alone *)

Section Frames.

Variable w : World.
Context {X : Type}.
Variable f : state -> X.

Lemma frames_ok {A} (x : A) : frames f (ok x).
Proof. intros st. reflexivity. Qed.

Lemma frames_fail {A} (e : error) : frames f (@fail A e).
Proof. intros st. reflexivity. Qed.

Lemma frames_try {A} (r : fault + A) : frames f (try r).
Proof. intros st. destruct r; reflexivity. Qed.

Lemma frames_bind {A B} (m : M A) (k : A -> M B) :
  frames f m -> (forall x, frames f (k x)) -> frames f (bind m k).
Proof.
  intros Hm Hk st. unfold bind. specialize (Hm st).
  destruct (m st) as [[e|x] st1]; simpl in *; [exact Hm|].
  rewrite (Hk x st1). exact Hm.
Qed.

Lemma frames_elements a : frames f (elements a).
Proof. intros st. unfold elements. destruct (heap st !! a); reflexivity. Qed.

Lemma frames_len a : frames f (len a).
Proof. intros st. unfold len. destruct (heap st !! a); reflexivity. Qed.

Lemma frames_index a i : frames f (index a i).
Proof. intros st. unfold index. destruct (heap st !! a ≫= _); reflexivity. Qed.

Lemma frames_deref s : frames f (deref s).
Proof. intros st. unfold deref. destruct (metadata (sub s)); reflexivity. Qed.

Lemma frames_readAll r : frames f (readAll r).
Proof. intros st. unfold readAll. destruct (io.broken r); reflexivity. Qed.

Lemma frames__exercise_range ws l : forall d, frames f (_exercise_range w ws l d).
Proof.
  induction l as [|p l IH]; intros d st; simpl; [reflexivity|].
  destruct (ExerciseDir w ws p) as [err|dir].
  - destruct (workspace.IsMissingMetadata err); reflexivity.
  - destruct (negb (String.eqb d "") && negb (String.eqb dir d)); [reflexivity|apply IH].
Qed.

Lemma frames__exercise s : frames f (_exercise w s).
Proof.
  unfold _exercise.
  apply frames_bind; [apply frames_try|]. intros ws.
  apply frames_bind; [apply frames_elements|]. intros l.
  apply frames_bind; [apply frames__exercise_range|]. intros d.
  apply frames_ok.
Qed.

Lemma frames__metadata s : frames f (_metadata w s).
Proof.
  unfold _metadata.
  apply frames_bind; [apply frames_try|]. intros m.
  destruct (negb (String.eqb _ _)); [apply frames_fail|].
  destruct (negb _); [apply frames_fail|apply frames_ok].
Qed.

Lemma frames_submitDocuments_range l : forall parts,
  frames f (submitDocuments_range w l parts).
Proof.
  induction l as [|doc l IH]; intros parts; simpl; [apply frames_ok|].
  apply frames_bind; [apply frames_try|]. intros file.
  apply frames_bind; [apply frames_readAll|]. intros bytes. apply IH.
Qed.

Lemma frames_submitDocuments_response resp : frames f (submitDocuments_response w resp).
Proof.
  unfold submitDocuments_response.
  destruct (http.StatusCode resp =? http.StatusBadRequest).
  - destruct (json_Decode w (http.RespBody resp)); apply frames_fail.
  - apply frames_bind; [apply frames_readAll|]. intros _. apply frames_ok.
Qed.

(** The stages that only write to [Err]. *)
Section BlindToErr.

Hypothesis blind_Err : forall texts st, f (log_Err texts st) = f st.

Lemma frames_Fprintf_Err text : frames f (Fprintf_Err text).
Proof. intros st. apply blind_Err. Qed.

Lemma frames_migrateLegacyMetadata s : frames f (migrateLegacyMetadata w s).
Proof.
  unfold migrateLegacyMetadata.
  apply frames_bind; [apply frames_try|]. intros status.
  destruct (flags s "verbose"); [apply frames_Fprintf_Err|apply frames_ok].
Qed.

Lemma frames__documents_range s l : forall docs, frames f (_documents_range w s l docs).
Proof.
  induction l as [|file l IH]; intros docs; simpl; [apply frames_ok|].
  apply frames_bind; [apply frames_try|]. intros info.
  destruct (os.Size info >=? maxFileSize); [apply frames_fail|].
  destruct (os.Size info =? 0).
  - apply frames_bind; [apply frames_Fprintf_Err|]. intros _. apply IH.
  - apply frames_bind; [apply frames_try|]. intros doc. apply IH.
Qed.

Lemma frames__documents s : frames f (_documents w s).
Proof.
  unfold _documents.
  apply frames_bind; [apply frames_elements|]. intros l.
  apply frames_bind; [apply frames__documents_range|]. intros docs.
  destruct (Nat.eqb (length docs) 0); [apply frames_fail|apply frames_ok].
Qed.

(** ... and [sanitizeArgs], which only writes to the slice. *)
Hypothesis blind_heap : forall h st, f (set_heap h st) = f st.

Lemma frames_assign a i x : frames f (assign a i x).
Proof.
  intros st. unfold assign. destruct (heap st !! a) as [l|]; [|reflexivity].
  destruct (decide (i < length l)%nat); [apply blind_heap|reflexivity].
Qed.

Lemma frames_sanitizeArgs_range a n : forall i, frames f (sanitizeArgs_range w a i n).
Proof.
  induction n as [|n IH]; intros i; simpl; [apply frames_ok|].
  apply frames_bind; [apply frames_index|]. intros arg.
  apply frames_bind; [apply frames_try|]. intros abs.
  destruct (os_Lstat w abs) as [err|info].
  - destruct (os.IsNotExist err); apply frames_fail.
  - destruct (os.IsDir info); [apply frames_fail|].
    apply frames_bind; [apply frames_try|]. intros src.
    apply frames_bind; [apply frames_assign|]. intros _. apply IH.
Qed.

Lemma frames_sanitizeArgs s : frames f (sanitizeArgs w s).
Proof.
  unfold sanitizeArgs.
  apply frames_bind; [apply frames_len|]. intros n. apply frames_sanitizeArgs_range.
Qed.

Lemma frames_newSubmitContext cfg fl a : frames f (newSubmitContext w cfg fl a).
Proof.
  unfold newSubmitContext.
  apply frames_bind; [apply frames_sanitizeArgs|]. intros _.
  apply frames_bind; [apply frames__exercise|]. intros ex.
  apply frames_bind; [apply frames_migrateLegacyMetadata|]. intros _.
  apply frames_bind; [apply frames__metadata|]. intros m.
  apply frames_bind; [apply frames__documents|]. intros docs.
  apply frames_ok.
Qed.

End BlindToErr.

End Frames.

(** ** What the stages hand on *)

Section Inversions.

Variable w : World.

Lemma _metadata_inv s st m st' :
  _metadata w s st = (inr m, st') ->
  st' = st
  /\ NewExerciseMetadata w (Exercise_Filepath w (exercise (sub s))) = inr m
  /\ workspace.ExerciseMetadata.Exercise m = workspace.Exercise.Slug (exercise (sub s))
  /\ workspace.ExerciseMetadata.IsRequester m = true.
Proof.
  unfold _metadata, bind, try.
  destruct (NewExerciseMetadata w _) as [err|m'] eqn:Hload; [discriminate|]. simpl.
  destruct (String.eqb_spec (workspace.ExerciseMetadata.Exercise m')
                            (workspace.Exercise.Slug (exercise (sub s)))) as [Heq|_];
    [|discriminate].
  destruct (workspace.ExerciseMetadata.IsRequester m') eqn:Hreq; [|discriminate].
  simpl. intros H. injection H as <- <-. auto.
Qed.

(** The loop of [_documents], read backwards from its result. *)
Lemma _documents_range_inv s l : forall docs0 docs st st',
  _documents_range w s l docs0 st = (inr docs, st') ->
  exists new,
    docs = docs0 ++ new
    /\ Forall (fun f => withinLimit w f = true) l
    /\ Forall2 (fun f doc =>
                  NewDocument w (Exercise_Filepath w (exercise (sub s))) f = inr doc)
         (List.filter (nonEmpty w) l) new
    /\ st' = log_Err (map msgSkipping (List.filter (isEmpty w) l)) st.
Proof.
  induction l as [|f l IH]; intros docs0 docs st st' Hrun.
  - simpl in Hrun. injection Hrun as <- <-. exists [].
    rewrite app_nil_r, log_Err_nil. repeat split; constructor.
  - simpl in Hrun. unfold bind in Hrun at 1. unfold try in Hrun.
    destruct (os_Stat w f) as [err|info] eqn:Hstat; [discriminate|]. simpl in Hrun.
    destruct (Z.geb_spec (os.Size info) maxFileSize) as [_|Hlt]; [discriminate|].
    assert (withinLimit w f = true) as Hlim.
    { unfold withinLimit. rewrite Hstat. apply Z.ltb_lt. exact Hlt. }
    destruct (os.Size info =? 0) eqn:Hzero.
    + unfold bind in Hrun at 1. simpl in Hrun.
      destruct (IH _ _ _ _ Hrun) as (new & -> & Hall & Hnew & ->).
      exists new. simpl. unfold nonEmpty at 1. unfold isEmpty at 1 3.
      rewrite Hstat, Hzero. simpl. rewrite log_Err_twice.
      split; [reflexivity|]. split; [constructor; assumption|]. split; [exact Hnew|reflexivity].
    + unfold bind in Hrun at 1.
      destruct (NewDocument w (Exercise_Filepath w (exercise (sub s))) f) as [err|doc]
        eqn:Hdoc; [discriminate|]. simpl in Hrun.
      destruct (IH _ _ _ _ Hrun) as (new & -> & Hall & Hnew & ->).
      exists (doc :: new). simpl. unfold nonEmpty at 1. unfold isEmpty at 1 3.
      rewrite Hstat, Hzero. simpl. rewrite <- app_assoc.
      split; [reflexivity|]. split; [constructor; assumption|].
      split; [constructor; assumption|reflexivity].
Qed.

(** The parts that the loop of [submitDocuments] returns: the ones it was
    given, then one [files[]] part per document, named by the document's
    path. *)
Lemma submitDocuments_range_inv l : forall parts body st st',
  submitDocuments_range w l parts st = (inr body, st') ->
  st' = st
  /\ exists new,
       body = parts ++ new
       /\ map multipart.filename new = map workspace.Document.Path l
       /\ Forall (fun part => multipart.fieldname part = "files[]"%string) new
       /\ Forall (fun doc => unreadable w doc = false) l.
Proof.
  induction l as [|doc l IH]; intros parts body st st' Hrun.
  - simpl in Hrun. injection Hrun as <- <-. split; [reflexivity|].
    exists []. rewrite app_nil_r. repeat split; constructor.
  - simpl in Hrun. unfold bind in Hrun at 1. unfold try in Hrun.
    destruct (os_Open w (workspace.Document.Filepath doc)) as [err|file] eqn:Hopen;
      [discriminate|]. simpl in Hrun.
    unfold bind in Hrun at 1. unfold readAll in Hrun.
    destruct (io.broken file) eqn:Hbroken; [discriminate|]. simpl in Hrun.
    destruct (IH _ _ _ _ Hrun) as (-> & new & -> & Hnames & Hfields & Hread).
    split; [reflexivity|]. eexists (_ :: new). rewrite <- app_assoc. simpl.
    split; [reflexivity|]. split; [now rewrite Hnames|].
    split; [constructor; [reflexivity|assumption]|].
    constructor; [|assumption]. unfold unreadable. now rewrite Hopen, Hbroken.
Qed.

(** A document that cannot be read stops the loop, with the state as it
    was. *)
Lemma submitDocuments_range_unreadable l : forall parts st,
  Exists (fun doc => unreadable w doc = true) l ->
  exists err, submitDocuments_range w l parts st = (inl (Surfaced err), st).
Proof.
  induction l as [|doc l IH]; intros parts st Hex; [inversion Hex|].
  simpl. unfold bind at 1. unfold try.
  destruct (os_Open w (workspace.Document.Filepath doc)) as [err|file] eqn:Hopen;
    simpl; [eauto|].
  unfold bind at 1. unfold readAll.
  destruct (io.broken file) as [err|] eqn:Hbroken; simpl; [eauto|].
  apply IH. apply Exists_cons in Hex as [Hdoc|Hex]; [|exact Hex].
  unfold unreadable in Hdoc. rewrite Hopen, Hbroken in Hdoc. discriminate.
Qed.

Lemma Header_Set_only key value h :
  List.filter (fun kv => String.eqb (fst kv) key) (http.Header_Set key value h)
  = [(key, value)].
Proof.
  unfold http.Header_Set. simpl. rewrite String.eqb_refl. f_equal.
  induction h as [|[k v] h IH]; simpl; [reflexivity|].
  destruct (String.eqb k key) eqn:Hk; simpl; [exact IH|].
  rewrite Hk. exact IH.
Qed.

(** What the first half of [submitDocuments] does to the log of requests:
    nothing, or one request of the expected shape; and the latter whenever
    it comes back with a response. *)
Lemma submitDocuments_exchange_sent s st :
  (sent (snd (submitDocuments_exchange w s st)) = sent st
   /\ exists e, fst (submitDocuments_exchange w s st) = inl e)
  \/ (exists req,
        sent (snd (submitDocuments_exchange w s st)) = sent st ++ [req]
        /\ upload_request w s req
        /\ fst (submitDocuments_exchange w s st)
           = match Do w req with inl err => inl (Surfaced err) | inr resp => inr resp end).
Proof.
  unfold submitDocuments_exchange, bind, deref.
  destruct (metadata (sub s)) as [m|] eqn:Hm; simpl; [|left; eauto].
  destruct (String.eqb_spec (workspace.ExerciseMetadata.ID m) "") as [|Hid];
    [left; simpl; eauto|].
  destruct (Nat.eqb (length (documents (sub s))) 0); [left; simpl; eauto|].
  destruct (submitDocuments_range w (documents (sub s)) [] st) as [[e|body] st1] eqn:Hrange;
    [pose proof (frames_submitDocuments_range w sent (documents (sub s)) [] st) as Hf;
     rewrite Hrange in Hf; left; simpl; eauto|].
  apply submitDocuments_range_inv in Hrange as (-> & new & -> & Hnames & Hfields & _).
  unfold try.
  destruct (api_NewClient w (usrCfg s "token") (usrCfg s "apibaseurl")) as [err|client];
    [left; simpl; eauto|]. simpl.
  destruct (NewRequest_headers w client "PATCH" _) as [err|headers];
    [left; simpl; eauto|]. simpl.
  right. eexists. unfold client_Do.
  split; [destruct (Do w _); reflexivity|].
  split; [|destruct (Do w _); reflexivity].
  unfold upload_request. cbn [http.Method http.URL http.Headers http.Body app].
  split; [reflexivity|]. split; [eauto|].
  split; [apply Header_Set_only|]. split; assumption.
Qed.

Lemma _documents_nonempty s st docs st' :
  _documents w s st = (inr docs, st') -> docs <> [].
Proof.
  unfold _documents, bind. destruct (elements (args s) st) as [[e|l] st1]; [discriminate|].
  destruct (_documents_range w s l [] st1) as [[e|docs'] st2]; [discriminate|].
  destruct docs' as [|d docs']; simpl; [discriminate|].
  intros H. injection H as <- <-. discriminate.
Qed.

(** The context that [newSubmitContext] returns. *)
Lemma newSubmitContext_inv cfg fl a st ctx st' :
  newSubmitContext w cfg fl a st = (inr ctx, st') ->
  exists ex m docs,
    ctx = with_documents (with_metadata (with_exercise (freshContext cfg fl a) ex) m) docs
    /\ NewExerciseMetadata w (Exercise_Filepath w ex) = inr m
    /\ workspace.ExerciseMetadata.Exercise m = workspace.Exercise.Slug ex
    /\ workspace.ExerciseMetadata.IsRequester m = true
    /\ docs <> [].
Proof.
  unfold newSubmitContext. intros H.
  apply bind_inv_ok in H as (u & st1 & _ & H).
  apply bind_inv_ok in H as (ex & st2 & _ & H). cbv zeta in H.
  apply bind_inv_ok in H as (u' & st3 & _ & H).
  apply bind_inv_ok in H as (m & st4 & Hmeta & H). cbv zeta in H.
  apply bind_inv_ok in H as (docs & st5 & Hdocs & H).
  injection H as <- <-.
  apply _metadata_inv in Hmeta as (_ & Hload & Hslug & Hreq).
  apply _documents_nonempty in Hdocs.
  exists ex, m, docs. auto.
Qed.

End Inversions.

(** ** Which errors the stages make *)

Section Errors.

Variable w : World.

Lemma fails_only_ok {A} P (x : A) : fails_only P (ok x).
Proof. intros st e H. discriminate. Qed.

Lemma fails_only_fail {A} (P : error -> Prop) e : P e -> fails_only P (@fail A e).
Proof. intros HP st e' H. injection H as <-. exact HP. Qed.

Lemma fails_only_try {A} (P : error -> Prop) (r : fault + A) :
  (forall err, P (Surfaced err)) -> fails_only P (try r).
Proof. intros HP st e H. destruct r; [injection H as <-; apply HP|discriminate]. Qed.

Lemma fails_only_bind {A B} P (m : M A) (k : A -> M B) :
  fails_only P m -> (forall x, fails_only P (k x)) -> fails_only P (bind m k).
Proof.
  intros Hm Hk st e. unfold bind. specialize (Hm st).
  destruct (m st) as [[e'|x] st1]; simpl in *;
    [intros H; injection H as <-; apply Hm; reflexivity|].
  apply Hk.
Qed.

Lemma fails_only_sanitizeArgs_range a n : forall i,
  fails_only valid_state (sanitizeArgs_range w a i n).
Proof.
  induction n as [|n IH]; intros i; simpl; [apply fails_only_ok|].
  apply fails_only_bind.
  { intros st e. unfold index. destruct (heap st !! a ≫= _); [discriminate|].
    intros H. injection H as <-. exact I. }
  intros arg. apply fails_only_bind; [apply fails_only_try; intros; exact I|]. intros abs.
  destruct (os_Lstat w abs) as [err|info].
  - destruct (os.IsNotExist err); apply fails_only_fail; exact I.
  - destruct (os.IsDir info); [apply fails_only_fail; exact I|].
    apply fails_only_bind; [apply fails_only_try; intros; exact I|]. intros src.
    apply fails_only_bind; [|intros _; apply IH].
    intros st e. unfold assign. destruct (heap st !! a) as [l|].
    + destruct (decide (i < length l)%nat); [discriminate|].
      intros H. injection H as <-. exact I.
    + intros H. injection H as <-. exact I.
Qed.

Lemma fails_only__exercise_range ws l : forall d,
  fails_only valid_state (_exercise_range w ws l d).
Proof.
  induction l as [|p l IH]; intros d; simpl; [apply fails_only_ok|].
  destruct (ExerciseDir w ws p) as [err|dir].
  - destruct (workspace.IsMissingMetadata err); apply fails_only_fail; exact I.
  - destruct (negb (String.eqb d "") && negb (String.eqb dir d));
      [apply fails_only_fail; exact I|apply IH].
Qed.

Lemma fails_only__documents_range s l : forall docs,
  fails_only valid_state (_documents_range w s l docs).
Proof.
  induction l as [|file l IH]; intros docs; simpl; [apply fails_only_ok|].
  apply fails_only_bind; [apply fails_only_try; intros; exact I|]. intros info.
  destruct (os.Size info >=? maxFileSize); [apply fails_only_fail; exact I|].
  destruct (os.Size info =? 0).
  - apply fails_only_bind; [intros st e H; discriminate|]. intros _. apply IH.
  - apply fails_only_bind; [apply fails_only_try; intros; exact I|]. intros doc. apply IH.
Qed.

Lemma fails_only_submitDocuments_range l : forall parts,
  fails_only valid_state (submitDocuments_range w l parts).
Proof.
  induction l as [|doc l IH]; intros parts; simpl; [apply fails_only_ok|].
  apply fails_only_bind; [apply fails_only_try; intros; exact I|]. intros file.
  apply fails_only_bind; [|intros bytes; apply IH].
  intros st e. unfold readAll. destruct (io.broken file); [|discriminate].
  intros H. injection H as <-. exact I.
Qed.

(** No stage before the upload makes an [InvalidStateError]. *)
Lemma fails_only_newSubmitContext cfg fl a :
  fails_only valid_state (newSubmitContext w cfg fl a).
Proof.
  unfold newSubmitContext.
  apply fails_only_bind.
  { unfold sanitizeArgs. apply fails_only_bind; [intros st e; unfold len;
      destruct (heap st !! _); discriminate|].
    intros n. apply fails_only_sanitizeArgs_range. }
  intros _. apply fails_only_bind.
  { unfold _exercise. apply fails_only_bind; [apply fails_only_try; intros; exact I|].
    intros ws. apply fails_only_bind; [intros st e; unfold elements;
      destruct (heap st !! _); discriminate|].
    intros l. apply fails_only_bind; [apply fails_only__exercise_range|].
    intros d. apply fails_only_ok. }
  intros ex. apply fails_only_bind.
  { unfold migrateLegacyMetadata.
    apply fails_only_bind; [apply fails_only_try; intros; exact I|]. intros status.
    destruct (flags _ "verbose"); [intros st e H; discriminate|apply fails_only_ok]. }
  intros _. apply fails_only_bind.
  { unfold _metadata. apply fails_only_bind; [apply fails_only_try; intros; exact I|].
    intros m. destruct (negb (String.eqb _ _)); [apply fails_only_fail; exact I|].
    destruct (negb _); [apply fails_only_fail; exact I|apply fails_only_ok]. }
  intros m. apply fails_only_bind; [|intros docs; apply fails_only_ok].
  unfold _documents. apply fails_only_bind; [intros st e; unfold elements;
    destruct (heap st !! _); discriminate|].
  intros l. apply fails_only_bind; [apply fails_only__documents_range|]. intros docs.
  destruct (Nat.eqb (length docs) 0); [apply fails_only_fail; exact I|apply fails_only_ok].
Qed.

(** With documents to send, the only [InvalidStateError] of the upload is
    the one for the empty ID. *)
Lemma submitDocuments_invalid_state s st t :
  documents (sub s) <> [] ->
  fst (submitDocuments w s st) = inl (InvalidStateError t) ->
  t = "id is empty"%string.
Proof.
  intros Hdocs. unfold submitDocuments, submitDocuments_exchange, bind at 1 2, deref.
  destruct (metadata (sub s)) as [m|]; simpl; [|discriminate].
  destruct (String.eqb (workspace.ExerciseMetadata.ID m) "");
    [simpl; intros H; injection H as <-; reflexivity|].
  destruct (Nat.eqb_spec (length (documents (sub s))) 0) as [Hlen|_];
    [apply nil_length_inv in Hlen; contradiction|].
  unfold bind at 1.
  pose proof (fails_only_submitDocuments_range (documents (sub s)) [] st) as Hrange.
  destruct (submitDocuments_range w (documents (sub s)) [] st) as [[e|body] st1].
  { simpl. intros H. injection H as ->. destruct (Hrange _ eq_refl). }
  unfold bind at 1, try.
  destruct (api_NewClient w _ _) as [err|client]; simpl; [discriminate|].
  unfold bind at 1. destruct (NewRequest_headers w client _ _) as [err|headers]; simpl;
    [discriminate|].
  unfold client_Do. destruct (Do w _) as [err|resp]; simpl; [discriminate|].
  unfold submitDocuments_response, bind, readAll.
  destruct (http.StatusCode resp =? http.StatusBadRequest).
  - destruct (json_Decode w (http.RespBody resp)); discriminate.
  - destruct (io.broken (http.RespBody resp)); discriminate.
Qed.

End Errors.

(** ** The run as its caller sees it *)

Lemma upload_fst_fail w s st e :
  fst (submitDocuments_exchange w s st) = inl e ->
  fst (bind (submitDocuments w s) (fun _ => printResult s) st) = inl e.
Proof.
  unfold submitDocuments, bind.
  destruct (submitDocuments_exchange w s st) as [[e'|resp] st1]; simpl; [|discriminate].
  intros H. injection H as <-. reflexivity.
Qed.

Lemma frames_submitDocuments {X} (f : state -> X) w s :
  (forall st req,
      f {| heap := heap st; Err := Err st; Out := Out st; sent := sent st ++ [req] |}
      = f st) ->
  frames f (submitDocuments w s).
Proof.
  intros blind_sent. unfold submitDocuments, submitDocuments_exchange.
  apply frames_bind; [|intros resp; apply frames_submitDocuments_response].
  apply frames_bind; [apply frames_deref|]. intros m.
  destruct (String.eqb _ _); [apply frames_fail|].
  destruct (Nat.eqb _ _); [apply frames_fail|].
  apply frames_bind; [apply frames_submitDocuments_range|]. intros body.
  apply frames_bind; [apply frames_try|]. intros client.
  apply frames_bind; [apply frames_try|]. intros headers.
  intros st. unfold client_Do. destruct (Do w _); simpl; apply blind_sent.
Qed.

Lemma frames_Out_submitDocuments w s : frames Out (submitDocuments w s).
Proof. apply frames_submitDocuments. reflexivity. Qed.

Lemma frames_Err_submitDocuments w s : frames Err (submitDocuments w s).
Proof. apply frames_submitDocuments. reflexivity. Qed.

Lemma migrateLegacyMetadata_inv w s st st' :
  migrateLegacyMetadata w s st = (inr tt, st') ->
  exists status,
    MigrateLegacyMetadataFile w (exercise (sub s)) = inr status
    /\ st' = log_Err (if flags s "verbose" then [fmt.Sprintf0 status] else []) st.
Proof.
  unfold migrateLegacyMetadata, bind, try.
  destruct (MigrateLegacyMetadataFile w _) as [err|status]; [discriminate|]. simpl.
  intros H. exists status. split; [reflexivity|].
  destruct (flags s "verbose"); simpl in H; injection H as <-;
    [reflexivity|now rewrite log_Err_nil].
Qed.

Lemma frames_whole {A} (m : M A) st x st' :
  frames (fun st => st) m -> m st = (x, st') -> st' = st.
Proof. intros Hm H. specialize (Hm st). rewrite H in Hm. exact Hm. Qed.

(** The parts that the loop of [submitDocuments] returns, with their
    contents: the ones it was given, then one part of each document. *)
Lemma submitDocuments_range_parts w l : forall parts body st st',
  submitDocuments_range w l parts st = (inr body, st') ->
  exists new, body = parts ++ new /\ Forall2 (part_of w) l new.
Proof.
  induction l as [|doc l IH]; intros parts body st st' Hrun.
  - simpl in Hrun. injection Hrun as <- <-. exists []. rewrite app_nil_r.
    split; [reflexivity|constructor].
  - simpl in Hrun. unfold bind in Hrun at 1. unfold try in Hrun.
    destruct (os_Open w (workspace.Document.Filepath doc)) as [err|file] eqn:Hopen;
      [discriminate|]. simpl in Hrun.
    unfold bind in Hrun at 1. unfold readAll in Hrun.
    destruct (io.broken file) eqn:Hbroken; [discriminate|]. simpl in Hrun.
    destruct (IH _ _ _ _ Hrun) as (new & -> & Hparts).
    eexists (_ :: new). rewrite <- app_assoc. split; [reflexivity|].
    constructor; [|exact Hparts].
    split; [reflexivity|]. split; [reflexivity|]. exists file. auto.
Qed.

(** The first half of [submitDocuments], read backwards from the log of
    requests: nothing has been sent and the half has failed, or one request
    has been sent, made of the context's configuration, metadata and
    documents. *)
Lemma submitDocuments_exchange_request w s st :
  (sent (snd (submitDocuments_exchange w s st)) = sent st
   /\ exists e, fst (submitDocuments_exchange w s st) = inl e)
  \/ (exists m req,
        metadata (sub s) = Some m
        /\ workspace.ExerciseMetadata.ID m <> EmptyString
        /\ sent (snd (submitDocuments_exchange w s st)) = sent st ++ [req]
        /\ http.Method req = "PATCH"%string
        /\ http.URL req = usrCfg s "apibaseurl" +:+ "/solutions/"
                          +:+ workspace.ExerciseMetadata.ID m
        /\ List.filter (fun kv => String.eqb (fst kv) "Content-Type") (http.Headers req)
           = [("Content-Type"%string, FormDataContentType w)]
        /\ Forall2 (part_of w) (documents (sub s)) (http.Body req)).
Proof.
  unfold submitDocuments_exchange, bind, deref.
  destruct (metadata (sub s)) as [m|] eqn:Hm; simpl; [|left; eauto].
  destruct (String.eqb_spec (workspace.ExerciseMetadata.ID m) "") as [|Hid];
    [left; simpl; eauto|].
  destruct (Nat.eqb (length (documents (sub s))) 0); [left; simpl; eauto|].
  destruct (submitDocuments_range w (documents (sub s)) [] st) as [[e|body] st1] eqn:Hrange;
    [pose proof (frames_submitDocuments_range w sent (documents (sub s)) [] st) as Hf;
     rewrite Hrange in Hf; left; simpl; eauto|].
  pose proof (submitDocuments_range_inv w _ _ _ _ _ Hrange) as [-> _].
  apply submitDocuments_range_parts in Hrange as (new & -> & Hparts).
  unfold try.
  destruct (api_NewClient w (usrCfg s "token") (usrCfg s "apibaseurl")) as [err|client];
    [left; simpl; eauto|]. simpl.
  destruct (NewRequest_headers w client "PATCH" _) as [err|headers];
    [left; simpl; eauto|]. simpl.
  right. exists m. eexists. unfold client_Do.
  split; [reflexivity|]. split; [exact Hid|].
  split; [destruct (Do w _); reflexivity|].
  cbn [http.Method http.URL http.Headers http.Body app].
  split; [reflexivity|]. split; [reflexivity|].
  split; [apply Header_Set_only|exact Hparts].
Qed.

(** The stages before the upload, read backwards from the context that
    [newSubmitContext] returns. *)
Lemma newSubmitContext_trace w cfg fl a st l ctx st' :
  heap st !! a = Some l ->
  newSubmitContext w cfg fl a st = (inr ctx, st') ->
  exists srcs ex status m docs,
    Forall2 (fun arg src => resolve w arg = Some src) l srcs
    /\ _exercise w (freshContext cfg fl a) (set_heap (<[a := srcs]> (heap st)) st)
       = (inr ex, set_heap (<[a := srcs]> (heap st)) st)
    /\ MigrateLegacyMetadataFile w ex = inr status
    /\ NewExerciseMetadata w (Exercise_Filepath w ex) = inr m
    /\ workspace.ExerciseMetadata.Exercise m = workspace.Exercise.Slug ex
    /\ workspace.ExerciseMetadata.IsRequester m = true
    /\ Forall (fun f => withinLimit w f = true) srcs
    /\ Forall2 (fun f doc => NewDocument w (Exercise_Filepath w ex) f = inr doc)
         (List.filter (nonEmpty w) srcs) docs
    /\ docs <> []
    /\ ctx = with_documents (with_metadata (with_exercise (freshContext cfg fl a) ex) m) docs
    /\ sent st' = sent st.
Proof.
  intros Hh Hctx. unfold newSubmitContext in Hctx.
  apply bind_inv_ok in Hctx as ([] & s1 & Hsan & Hctx).
  apply bind_inv_ok in Hctx as (ex & s2 & Hex & Hctx). cbv zeta in Hctx.
  apply bind_inv_ok in Hctx as ([] & s3 & Hmig & Hctx).
  apply bind_inv_ok in Hctx as (m & s4 & Hmeta & Hctx). cbv zeta in Hctx.
  apply bind_inv_ok in Hctx as (docs & s5 & Hdocs & Hctx).
  injection Hctx as <- <-.
  unfold sanitizeArgs, bind, len in Hsan. simpl args in Hsan. rewrite Hh in Hsan.
  apply (sanitizeArgs_range_inv w a l [] st s1 Hh) in Hsan as (srcs & Hres & ->).
  simpl app in *.
  pose proof (frames_whole _ _ _ _ (frames__exercise w (fun st => st) _) Hex) as ->.
  apply migrateLegacyMetadata_inv in Hmig as (status & Hstatus & ->).
  apply _metadata_inv in Hmeta as (-> & Hload & Hslug & Hreq).
  pose proof (_documents_nonempty w _ _ _ _ Hdocs) as Hne.
  unfold _documents in Hdocs.
  rewrite (bind_ok _ _ _ _ _ (elements_ok _ _ srcs (lookup_insert_eq _ _ _))) in Hdocs.
  apply bind_inv_ok in Hdocs as (docs' & s4 & Hrange & Hend).
  apply _documents_range_inv in Hrange as (new & -> & Hlim & Hnew & ->).
  simpl in Hend. destruct (Nat.eqb (length new) 0); [discriminate|].
  injection Hend as <- <-.
  exists srcs, ex, status, m, new. simpl in *. auto 12.
Qed.

(** X1.  [runSubmit] hands at most one request to the client, whatever its
    inputs.  With the caller's slice holding [l], either the run has failed
    with nothing sent, or one request has been sent and it is the one of
    this run: the arguments all resolve, [_exercise] has returned an
    exercise for the resolved paths, the metadata is the one that the store
    has for that exercise and has passed validation, it has a solution ID,
    the documents are the ones of the non-empty resolved files in their
    order, and the request is a PATCH to [{apibaseurl}/solutions/{ID}] of
    the given configuration and that metadata, with the multipart content
    type as its only [Content-Type] and one part of each of these documents,
    in their order.  A run that returns without error is of the second
    kind. *)
Theorem runSubmit_sends_at_most_one_request :
  forall (w : World) (cfg : Viper) (fl : FlagSet) (a : loc) (st : state),
    (sent (snd (runSubmit w cfg fl a st)) = sent st
     \/ exists req, sent (snd (runSubmit w cfg fl a st)) = sent st ++ [req])
    /\ (forall l,
          heap st !! a = Some l ->
          (sent (snd (runSubmit w cfg fl a st)) = sent st
           /\ exists e, fst (runSubmit w cfg fl a st) = inl e)
          \/ (exists req srcs ex m docs,
                sent (snd (runSubmit w cfg fl a st)) = sent st ++ [req]
                /\ Forall2 (fun arg src => resolve w arg = Some src) l srcs
                /\ fst (_exercise w (freshContext cfg fl a)
                          (set_heap (<[a := srcs]> (heap st)) st)) = inr ex
                /\ NewExerciseMetadata w (Exercise_Filepath w ex) = inr m
                /\ workspace.ExerciseMetadata.Exercise m = workspace.Exercise.Slug ex
                /\ workspace.ExerciseMetadata.IsRequester m = true
                /\ workspace.ExerciseMetadata.ID m <> EmptyString
                /\ Forall2 (fun f doc => NewDocument w (Exercise_Filepath w ex) f = inr doc)
                     (List.filter (nonEmpty w) srcs) docs
                /\ docs <> []
                /\ http.Method req = "PATCH"%string
                /\ http.URL req = cfg "apibaseurl" +:+ "/solutions/"
                                  +:+ workspace.ExerciseMetadata.ID m
                /\ List.filter (fun kv => String.eqb (fst kv) "Content-Type")
                     (http.Headers req)
                   = [("Content-Type"%string, FormDataContentType w)]
                /\ Forall2 (part_of w) docs (http.Body req))).
Proof.
  intros w cfg fl a st. unfold runSubmit.
  destruct (validateUserConfig w cfg) as [err|];
    [split; [left; reflexivity|intros l _; left; simpl; eauto]|].
  pose proof (frames_newSubmitContext w sent (fun _ _ => eq_refl) (fun _ _ => eq_refl)
                cfg fl a st) as Hnew.
  destruct (newSubmitContext w cfg fl a st) as [[e|ctx] st1] eqn:Hctx; simpl in Hnew.
  { rewrite (bind_fail _ _ _ _ _ Hctx). simpl.
    split; [left; exact Hnew|intros l _; left; eauto]. }
  rewrite (bind_ok _ _ _ _ _ Hctx), upload_sent, <- Hnew.
  destruct (submitDocuments_exchange_request w ctx st1)
    as [[Hsame [e He]]|(m' & req & Hm' & Hid & Hone & Hmethod & Hurl & Htype & Hparts)].
  - split; [left; exact Hsame|]. intros l _. left. split; [exact Hsame|].
    exists e. exact (upload_fst_fail w ctx st1 e He).
  - split; [right; eauto|]. intros l Hh. right.
    apply (newSubmitContext_trace w cfg fl a st l) in Hctx
      as (srcs & ex & status & m & docs & Hres & Hex & _ & Hload & Hslug & Hreq & _ & Hdocs
          & Hne & -> & _); [|exact Hh].
    simpl in Hm', Hurl, Hparts. injection Hm' as <-.
    exists req, srcs, ex, m, docs. rewrite Hex. simpl. auto 15.
Qed.

Lemma runSubmit_sends_at_most_one_request_witness :
  exists req srcs ex m docs,
    sent (snd (runSubmit Demo.world Demo.cfg Demo.quiet Demo.argv
                 (Demo.start ["a.txt"; "b.txt"]%string)))
    = sent (Demo.start ["a.txt"; "b.txt"]%string) ++ [req]
    /\ Forall2 (fun arg src => resolve Demo.world arg = Some src)
         ["a.txt"; "b.txt"]%string srcs
    /\ fst (_exercise Demo.world (freshContext Demo.cfg Demo.quiet Demo.argv)
              (set_heap (<[Demo.argv := srcs]> (heap (Demo.start ["a.txt"; "b.txt"]%string)))
                 (Demo.start ["a.txt"; "b.txt"]%string))) = inr ex
    /\ NewExerciseMetadata Demo.world (Exercise_Filepath Demo.world ex) = inr m
    /\ workspace.ExerciseMetadata.Exercise m = workspace.Exercise.Slug ex
    /\ workspace.ExerciseMetadata.IsRequester m = true
    /\ workspace.ExerciseMetadata.ID m <> EmptyString
    /\ Forall2 (fun f doc =>
                  NewDocument Demo.world (Exercise_Filepath Demo.world ex) f = inr doc)
         (List.filter (nonEmpty Demo.world) srcs) docs
    /\ docs <> []
    /\ http.Method req = "PATCH"%string
    /\ http.URL req = Demo.cfg "apibaseurl" +:+ "/solutions/"
                      +:+ workspace.ExerciseMetadata.ID m
    /\ List.filter (fun kv => String.eqb (fst kv) "Content-Type") (http.Headers req)
       = [("Content-Type"%string, FormDataContentType Demo.world)]
    /\ Forall2 (part_of Demo.world) docs (http.Body req).
Proof.
  destruct (runSubmit_sends_at_most_one_request Demo.world Demo.cfg Demo.quiet Demo.argv
              (Demo.start ["a.txt"; "b.txt"]%string)) as [_ Hrun].
  destruct (Hrun ["a.txt"; "b.txt"]%string) as [[_ [e He]]|Hsent].
  - vm_compute; reflexivity.
  - vm_compute in He. discriminate He.
  - exact Hsent.
Defined.


(** X3.  Without arguments [runSubmit] fails, at the latest because there is no
    file to submit, and sends nothing. *)
Theorem runSubmit_without_arguments :
  forall (w : World) (cfg : Viper) (fl : FlagSet) (a : loc) (st : state),
    heap st !! a = Some [] ->
    exists e st',
      runSubmit w cfg fl a st = (inl e, st')
      /\ sent st' = sent st /\ Out st' = Out st /\ heap st' = heap st.
Proof.
  intros w cfg fl a st Hh. unfold runSubmit.
  destruct (validateUserConfig w cfg) as [err|]; [eexists _, _; repeat split|].
  destruct (newSubmitContext w cfg fl a st) as [[e|ctx] st1] eqn:Hctx.
  - rewrite (bind_fail _ _ _ _ _ Hctx). exists e, st1.
    split; [reflexivity|].
    pose proof (frames_newSubmitContext w sent (fun _ _ => eq_refl) (fun _ _ => eq_refl)
                  cfg fl a st) as Hsent.
    pose proof (frames_newSubmitContext w Out (fun _ _ => eq_refl) (fun _ _ => eq_refl)
                  cfg fl a st) as Hout.
    rewrite Hctx in Hsent, Hout. split; [exact Hsent|]. split; [exact Hout|].
    unfold newSubmitContext in Hctx.
    assert (sanitizeArgs w (freshContext cfg fl a) st = (inr tt, st)) as Hs
      by (unfold sanitizeArgs, bind, len; simpl args; rewrite Hh; reflexivity).
    rewrite (bind_ok _ _ _ _ _ Hs) in Hctx.
    match type of Hctx with
    | ?m st = _ => assert (keeps_heap m) as Hkeep
    end.
    { apply keeps_heap_bind; [apply keeps_heap__exercise|]. intros ex.
      apply keeps_heap_bind; [apply keeps_heap_migrateLegacyMetadata|]. intros _.
      apply keeps_heap_bind; [apply keeps_heap__metadata|]. intros m.
      apply keeps_heap_bind; [apply keeps_heap__documents|]. intros docs.
      apply keeps_heap_ok. }
    specialize (Hkeep st). rewrite Hctx in Hkeep. exact Hkeep.
  - exfalso. unfold newSubmitContext in Hctx.
    apply bind_inv_ok in Hctx as (u & s1 & Hs & H).
    assert (s1 = st) as ->.
    { unfold sanitizeArgs, bind, len in Hs. simpl args in Hs. rewrite Hh in Hs.
      simpl in Hs. now injection Hs. }
    apply bind_inv_ok in H as (ex & s2 & Hex & H). cbv zeta in H.
    apply bind_inv_ok in H as (u' & s3 & Hmig & H).
    apply bind_inv_ok in H as (m & s4 & Hmeta & H). cbv zeta in H.
    apply bind_inv_ok in H as (docs & s5 & Hdocs & _).
    pose proof (keeps_heap__exercise w (freshContext cfg fl a) st) as H2.
    rewrite Hex in H2. simpl in H2.
    pose proof (keeps_heap_migrateLegacyMetadata w
                  (with_exercise (freshContext cfg fl a) ex) s2) as H3.
    rewrite Hmig in H3. simpl in H3.
    apply _metadata_inv in Hmeta as (-> & _).
    rewrite (_documents_unfold w _ s3 []) in Hdocs; [discriminate|].
    simpl. rewrite H3, H2. exact Hh.
Qed.

Lemma runSubmit_without_arguments_witness :
  exists e st',
    runSubmit Demo.world Demo.cfg Demo.quiet Demo.argv (Demo.start []) = (inl e, st')
    /\ sent st' = sent (Demo.start []) /\ Out st' = Out (Demo.start [])
    /\ heap st' = heap (Demo.start []).
Proof.
  apply (runSubmit_without_arguments Demo.world Demo.cfg Demo.quiet Demo.argv (Demo.start [])).
  vm_compute; reflexivity.
Defined.

(** X4.  The only [InvalidStateError] that [runSubmit] can end with is the one
    for a solution without ID: the guard on the documents never fires, since
    [_documents] does not return an empty list, while nothing before the
    upload looks at the ID. *)
Theorem runSubmit_invalid_state_is_empty_id :
  forall (w : World) (cfg : Viper) (fl : FlagSet) (a : loc) (st : state),
    match fst (runSubmit w cfg fl a st) with
    | inl (InvalidStateError text) => text = "id is empty"%string
    | _ => True
    end.
Proof.
  intros w cfg fl a st. unfold runSubmit.
  destruct (validateUserConfig w cfg) as [err|]; [exact I|].
  unfold bind at 1.
  pose proof (fails_only_newSubmitContext w cfg fl a st) as Hnew.
  destruct (newSubmitContext w cfg fl a st) as [[e|ctx] st1] eqn:Hctx.
  { specialize (Hnew e eq_refl). destruct e; simpl in *; trivial; contradiction. }
  apply newSubmitContext_inv in Hctx as (ex & m & docs & -> & _ & _ & _ & Hdocs).
  pose proof (submitDocuments_invalid_state w
                (with_documents (with_metadata (with_exercise (freshContext cfg fl a) ex) m) docs)
                st1) as Hup.
  unfold bind.
  destruct (submitDocuments w _ st1) as [[e|u] st2]; simpl in *.
  - destruct e; trivial. apply Hup; [exact Hdocs|reflexivity].
  - exact I.
Qed.

(** The guard for the empty ID does fire: metadata without a solution ID
    passes validation, and the run stops at the upload with nothing sent. *)
Example empty_id_reaches_the_upload :
  fst (runSubmit NoID.world Demo.cfg Demo.quiet Demo.argv (Demo.start ["a.txt"%string]))
  = inl (InvalidStateError "id is empty")
  /\ sent (snd (runSubmit NoID.world Demo.cfg Demo.quiet Demo.argv
                 (Demo.start ["a.txt"%string]))) = [].
Proof. vm_compute. split; reflexivity. Qed.

(** ** The stages on their own *)

(** X5.  [sanitizeArgs] on a path that [os.Lstat] cannot find: the error is the
    [NotFoundError] naming the absolute path when the failure is of the
    not-exist kind and the failure of [os.Lstat] itself otherwise, and the
    slice is left half rewritten, the arguments before the failing one
    resolved, the failing one and the ones behind it as they were given. *)
Theorem sanitizeArgs_missing_file :
  forall (w : World) (s : submitContext) (st : state)
         (pre srcs : list string) (arg : string) (post : list string)
         (abs : string) (err : fault),
    heap st !! args s = Some (pre ++ arg :: post) ->
    Forall2 (fun arg src => resolve w arg = Some src) pre srcs ->
    filepath_Abs w arg = inr abs ->
    os_Lstat w abs = inl err ->
    sanitizeArgs w s st
    = (inl (if os.IsNotExist err then NotFoundError (msgNotFound abs) else Surfaced err),
       set_heap (<[args s := srcs ++ arg :: post]> (heap st)) st).
Proof.
  intros w s st pre srcs arg post abs err Hh Hpre Habs Hlstat.
  unfold sanitizeArgs, bind, len. rewrite Hh.
  rewrite length_app. simpl length.
  pose proof (sanitizeArgs_range_run w (args s) pre srcs Hpre [] (arg :: post)
                (S (length post)) st Hh) as Hrun.
  simpl in Hrun. rewrite Hrun.
  cbn [sanitizeArgs_range]. unfold bind, index, try. simpl heap.
  rewrite lookup_insert_eq. simpl.
  rewrite (list_lookup_middle srcs post arg (length pre))
    by (eapply Forall2_length; exact Hpre).
  rewrite Habs. simpl. rewrite Hlstat.
  destruct (os.IsNotExist err); reflexivity.
Qed.

Lemma sanitizeArgs_missing_file_witness :
  sanitizeArgs Demo.world (freshContext Demo.cfg Demo.quiet Demo.argv)
    (Demo.start ["link.txt"; "gone.txt"; "a.txt"]%string)
  = (inl (NotFoundError (msgNotFound "/ws/go/bob/gone.txt")),
     Demo.start ["/ws/go/bob/a.txt"; "gone.txt"; "a.txt"]%string).
Proof.
  apply (sanitizeArgs_missing_file Demo.world (freshContext Demo.cfg Demo.quiet Demo.argv)
           (Demo.start ["link.txt"; "gone.txt"; "a.txt"]%string)
           ["link.txt"%string] ["/ws/go/bob/a.txt"%string] "gone.txt"%string ["a.txt"%string]
           "/ws/go/bob/gone.txt"%string (Demo.ENOENT "/ws/go/bob/gone.txt")).
  - reflexivity.
  - repeat constructor.
  - reflexivity.
  - reflexivity.
Defined.

Lemma _exercise_range_unplaced w ws arg post err : forall pre d d0 st,
  d0 = EmptyString \/ d0 = d ->
  Forall (fun p => ExerciseDir w ws p = inr d) pre ->
  ExerciseDir w ws arg = inl err ->
  _exercise_range w ws (pre ++ arg :: post) d0 st
  = (inl (if workspace.IsMissingMetadata err
          then MissingMetadataError (msgMissingMetadata w) else Surfaced err), st).
Proof.
  induction pre as [|p pre IH]; intros d d0 st Hd0 Hall Harg; simpl.
  - rewrite Harg. destruct (workspace.IsMissingMetadata err); reflexivity.
  - apply Forall_cons_1 in Hall as [Hp Hall]. rewrite Hp.
    assert (negb (String.eqb d0 "") && negb (String.eqb d d0) = false) as ->.
    { destruct Hd0 as [->| ->]; [reflexivity|].
      rewrite String.eqb_refl. apply andb_false_r. }
    apply (IH d d st); auto.
Qed.

(** X6.  [_exercise] on a path that the workspace cannot place, after paths of
    one exercise: the error is the fixed text about missing metadata when
    the failure is of that kind, and the failure itself otherwise; the
    paths behind it are not looked at, and the state is untouched. *)
Theorem exercise_stops_at_unplaced_path :
  forall (w : World) (s : submitContext) (st : state) (ws : workspace.Workspace)
         (pre : list string) (arg : string) (post : list string)
         (d : string) (err : fault),
    workspace_New w (usrCfg s "workspace") = inr ws ->
    heap st !! args s = Some (pre ++ arg :: post) ->
    Forall (fun p => ExerciseDir w ws p = inr d) pre ->
    ExerciseDir w ws arg = inl err ->
    _exercise w s st
    = (inl (if workspace.IsMissingMetadata err
            then MissingMetadataError (msgMissingMetadata w) else Surfaced err), st).
Proof.
  intros w s st ws pre arg post d err Hws Hh Hpre Harg.
  unfold _exercise. rewrite Hws.
  rewrite (bind_ok _ _ st ws st) by reflexivity.
  rewrite (bind_ok _ _ _ _ _ (elements_ok _ _ _ Hh)).
  apply bind_fail.
  apply (_exercise_range_unplaced w ws arg post err pre d); auto.
Qed.

Lemma exercise_stops_at_unplaced_path_witness :
  _exercise Demo.world (freshContext Demo.cfg Demo.quiet Demo.argv)
    (Demo.start ["/ws/go/bob/a.txt"; "/tmp/notes.txt"; "/ws/go/alice/c.txt"]%string)
  = (inl (Surfaced (Fault "not in workspace" false false)),
     Demo.start ["/ws/go/bob/a.txt"; "/tmp/notes.txt"; "/ws/go/alice/c.txt"]%string).
Proof.
  apply (exercise_stops_at_unplaced_path Demo.world (freshContext Demo.cfg Demo.quiet Demo.argv)
           (Demo.start ["/ws/go/bob/a.txt"; "/tmp/notes.txt"; "/ws/go/alice/c.txt"]%string)
           {| workspace.Dir := "/ws" |}
           ["/ws/go/bob/a.txt"%string] "/tmp/notes.txt"%string ["/ws/go/alice/c.txt"%string]
           "/ws/go/bob"%string (Fault "not in workspace" false false)).
  - reflexivity.
  - reflexivity.
  - repeat constructor.
  - reflexivity.
Defined.

(** X7.  What a successful [_documents] returns: one document per non-empty
    file, in the order of the arguments, made relative to the exercise's
    directory; every file, empty or not, is below the size limit; and [Err]
    has received one warning per empty file, in their order, and nothing
    else. *)
Theorem documents_returns_nonempty_files :
  forall (w : World) (s : submitContext) (st st' : state)
         (l : list string) (docs : list workspace.Document.t),
    heap st !! args s = Some l ->
    _documents w s st = (inr docs, st') ->
    docs <> []
    /\ Forall (fun f => withinLimit w f = true) l
    /\ Forall2 (fun f doc =>
                  NewDocument w (Exercise_Filepath w (exercise (sub s))) f = inr doc)
         (List.filter (nonEmpty w) l) docs
    /\ st' = log_Err (map msgSkipping (List.filter (isEmpty w) l)) st.
Proof.
  intros w s st st' l docs Hh Hrun.
  split; [exact (_documents_nonempty w s st docs st' Hrun)|].
  unfold _documents in Hrun.
  rewrite (bind_ok _ _ _ _ _ (elements_ok _ _ _ Hh)) in Hrun.
  apply bind_inv_ok in Hrun as (docs' & st1 & Hrange & Hend).
  apply _documents_range_inv in Hrange as (new & -> & Hlim & Hnew & ->).
  simpl in Hend. destruct (Nat.eqb (length new) 0); [discriminate|].
  injection Hend as <- <-. auto.
Qed.

Lemma documents_returns_nonempty_files_witness :
  [ {| workspace.Document.Filepath := "/ws/go/bob/a.txt";
       workspace.Document.Path := "a.txt" |};
    {| workspace.Document.Filepath := "/ws/go/bob/max.bin";
       workspace.Document.Path := "max.bin" |} ] <> []
  /\ Forall (fun f => withinLimit Demo.world f = true)
       ["/ws/go/bob/b.txt"; "/ws/go/bob/a.txt"; "/ws/go/bob/max.bin"]%string
  /\ Forall2 (fun f doc =>
                NewDocument Demo.world
                  (Exercise_Filepath Demo.world
                     (exercise (sub (Demo.inExercise "/ws/go/bob")))) f = inr doc)
       (List.filter (nonEmpty Demo.world)
          ["/ws/go/bob/b.txt"; "/ws/go/bob/a.txt"; "/ws/go/bob/max.bin"]%string)
       [ {| workspace.Document.Filepath := "/ws/go/bob/a.txt";
            workspace.Document.Path := "a.txt" |};
         {| workspace.Document.Filepath := "/ws/go/bob/max.bin";
            workspace.Document.Path := "max.bin" |} ]
  /\ log_Err [msgSkipping "/ws/go/bob/b.txt"]
       (Demo.start ["/ws/go/bob/b.txt"; "/ws/go/bob/a.txt"; "/ws/go/bob/max.bin"]%string)
     = log_Err (map msgSkipping
                  (List.filter (isEmpty Demo.world)
                     ["/ws/go/bob/b.txt"; "/ws/go/bob/a.txt"; "/ws/go/bob/max.bin"]%string))
         (Demo.start ["/ws/go/bob/b.txt"; "/ws/go/bob/a.txt"; "/ws/go/bob/max.bin"]%string).
Proof.
  apply (documents_returns_nonempty_files Demo.world (Demo.inExercise "/ws/go/bob")
           (Demo.start ["/ws/go/bob/b.txt"; "/ws/go/bob/a.txt"; "/ws/go/bob/max.bin"]%string)).
  - reflexivity.
  - vm_compute; reflexivity.
Defined.

(** X8.  No partial upload: as soon as one of the documents cannot be opened or
    read to its end, [submitDocuments] fails before a client is made, and
    the state is as it was, so nothing has been sent. *)
Theorem submitDocuments_unreadable_document :
  forall (w : World) (s : submitContext) (st : state),
    Exists (fun doc => unreadable w doc = true) (documents (sub s)) ->
    exists e, submitDocuments w s st = (inl e, st).
Proof.
  intros w s st Hex. unfold submitDocuments, submitDocuments_exchange, bind, deref.
  destruct (metadata (sub s)) as [m|]; simpl; [|eauto].
  destruct (String.eqb _ _); simpl; [eauto|].
  destruct (Nat.eqb _ _); simpl; [eauto|].
  destruct (submitDocuments_range_unreadable w _ [] st Hex) as [err ->]. eauto.
Qed.

Lemma submitDocuments_unreadable_document_witness :
  exists e,
    submitDocuments Demo.world Offline.uploadWithDirectory (Demo.start []) = (inl e, Demo.start []).
Proof.
  apply (submitDocuments_unreadable_document Demo.world Offline.uploadWithDirectory
           (Demo.start [])).
  apply Exists_cons_tl, Exists_cons_hd. reflexivity.
Defined.

(** X9.  When the transport fails on the request that [submitDocuments] has
    sent, the error returned is the transport's: the response handling is
    not entered, and apart from the log of requests the state is as it
    was. *)
Theorem submitDocuments_transport_failure :
  forall (w : World) (s : submitContext) (st : state) (req : http.Request) (err : fault),
    sent (snd (submitDocuments w s st)) = sent st ++ [req] ->
    Do w req = inl err ->
    fst (submitDocuments w s st) = inl (Surfaced err)
    /\ upload_request w s req
    /\ Err (snd (submitDocuments w s st)) = Err st
    /\ Out (snd (submitDocuments w s st)) = Out st
    /\ heap (snd (submitDocuments w s st)) = heap st.
Proof.
  intros w s st req err Hsent HDo.
  assert (sent (snd (submitDocuments w s st)) = sent (snd (submitDocuments_exchange w s st)))
    as Hsame.
  { unfold submitDocuments, bind.
    destruct (submitDocuments_exchange w s st) as [[e|resp] st1]; [reflexivity|].
    now rewrite submitDocuments_response_state. }
  rewrite Hsame in Hsent.
  destruct (submitDocuments_exchange_sent w s st) as [[Hnone _]|(req' & Hone & Hreq & Hfst)].
  { rewrite Hnone in Hsent. apply (f_equal (@length _)) in Hsent.
    rewrite length_app in Hsent. simpl in Hsent. lia. }
  rewrite Hone in Hsent. apply app_inv_head in Hsent. injection Hsent as ->.
  rewrite HDo in Hfst.
  split.
  { unfold submitDocuments, bind.
    destruct (submitDocuments_exchange w s st) as [[e|resp] st1]; simpl in *;
      [congruence|discriminate]. }
  split; [exact Hreq|].
  split; [apply (frames_Err_submitDocuments w s st)|].
  split; [apply (frames_Out_submitDocuments w s st)|].
  apply (keeps_heap_submitDocuments w s st).
Qed.

Lemma submitDocuments_transport_failure_witness :
  exists req,
    sent (snd (submitDocuments Offline.world Offline.upload (Demo.start []))) = [req]
    /\ fst (submitDocuments Offline.world Offline.upload (Demo.start []))
       = inl (Surfaced Offline.noRoute)
    /\ upload_request Offline.world Offline.upload req
    /\ Err (snd (submitDocuments Offline.world Offline.upload (Demo.start []))) = []
    /\ Out (snd (submitDocuments Offline.world Offline.upload (Demo.start []))) = []
    /\ heap (snd (submitDocuments Offline.world Offline.upload (Demo.start [])))
       = heap (Demo.start []).
Proof.
  eexists. split; [reflexivity|].
  apply (submitDocuments_transport_failure Offline.world Offline.upload (Demo.start [])
           _ Offline.noRoute); reflexivity.
Defined.

(** ** What the run writes to [Err] *)



(** The run of the witness, written out: the status of the migration has
    gone through [fmt] as a format, so that its last two bytes are reported
    as a verb without operand; the warning for the empty [b.txt] and the
    confirmation follow. *)
Example verbose_run_with_migration :
  Err (snd (runSubmit Legacy.world Demo.cfg Legacy.verbose Demo.argv
              (Demo.start ["b.txt"; "link.txt"]%string)))
  = [ "Migrated legacy metadata: 100%!.(MISSING)"%string;
      msgSkipping "/ws/go/bob/b.txt";
      confirmation Demo.bob ]
  /\ fst (runSubmit Legacy.world Demo.cfg Legacy.verbose Demo.argv
            (Demo.start ["b.txt"; "link.txt"]%string)) = inr tt.
Proof. split; vm_compute; reflexivity. Qed.

(** * Properties of [debug.go] *)

(** ** Fields and headers *)

Lemma strings_Split_cons s sep : exists field fields, strings_Split s sep = field :: fields.
Proof.
  induction s as [|c r (field & fields & IH)]; simpl; [eauto|].
  destruct (Ascii.eqb c sep); [eauto|]. rewrite IH. eauto.
Qed.

(** A string without the separator is one field. *)
Lemma strings_Split_one s sep :
  ~ In sep (list_ascii_of_string s) -> strings_Split s sep = [s].
Proof.
  induction s as [|c r IH]; simpl; intros Hnot; [reflexivity|].
  destruct (Ascii.eqb_spec c sep) as [->|_]; [exfalso; apply Hnot; now left|].
  rewrite IH; [reflexivity|]. intros Hin. apply Hnot. now right.
Qed.

(** The fields joined by the separator are the string again. *)
Lemma strings_Split_join s sep :
  String.concat (String sep EmptyString) (strings_Split s sep) = s.
Proof.
  induction s as [|c r IH]; [reflexivity|]. simpl.
  destruct (strings_Split_cons r sep) as (field & fields & Hr).
  rewrite Hr in *. destruct (Ascii.eqb_spec c sep) as [->|_].
  - change (String.concat (String sep "") (EmptyString :: field :: fields))
      with (String sep (String.concat (String sep "") (field :: fields))).
    now rewrite IH.
  - destruct fields as [|f fields].
    + change (String c field = String c r). f_equal. exact IH.
    + change (String c (String.concat (String sep "") (field :: f :: fields)) = String c r).
      f_equal. exact IH.
Qed.

Lemma Header_Get_filter key k h :
  k <> key ->
  Header_Get k (List.filter (fun kv => negb (String.eqb (fst kv) key)) h) = Header_Get k h.
Proof.
  intros Hk. induction h as [|[k0 v0] h IH]; [reflexivity|]. simpl.
  destruct (String.eqb_spec k0 key) as [->|Hk0]; simpl.
  - destruct (String.eqb_spec key k) as [<-|_]; [contradiction|exact IH].
  - destruct (String.eqb k0 k); [reflexivity|exact IH].
Qed.

Lemma Header_Get_Set_same key v h : Header_Get key (http.Header_Set key v h) = v.
Proof. unfold http.Header_Set. simpl. now rewrite String.eqb_refl. Qed.

Lemma Header_Get_Set_other key k v h :
  k <> key -> Header_Get k (http.Header_Set key v h) = Header_Get k h.
Proof.
  intros Hk. unfold http.Header_Set. simpl.
  destruct (String.eqb_spec key k) as [<-|_]; [contradiction|].
  now apply Header_Get_filter.
Qed.

Lemma Header_Set_Set key v v' h :
  http.Header_Set key v (http.Header_Set key v' h) = http.Header_Set key v h.
Proof.
  unfold http.Header_Set. simpl. rewrite String.eqb_refl. simpl. f_equal.
  induction h as [|[k0 v0] h IH]; [reflexivity|]. simpl.
  destruct (String.eqb k0 key) eqn:Hk0; simpl; [exact IH|].
  rewrite Hk0. simpl. now rewrite IH.
Qed.

(** Setting a key to the value that [Get] found for it changes nothing that
    [Get] can see. *)
Lemma Header_Get_restore key h k :
  Header_Get k (http.Header_Set key (Header_Get key h) h) = Header_Get k h.
Proof.
  destruct (String.eqb_spec k key) as [->|Hk].
  - apply Header_Get_Set_same.
  - now apply Header_Get_Set_other.
Qed.

(** ** Readers and the store *)

Lemma append_empty (s : string) : s +:+ EmptyString = s.
Proof.
  induction s as [|c s IH]; [reflexivity|].
  change (String c (s +:+ EmptyString) = String c s). now rewrite IH.
Qed.

Lemma fresh_unused (rs : gmap loc debug.stream) : rs !! fresh (dom rs) = None.
Proof. apply not_elem_of_dom. apply is_fresh. Qed.

Lemma allocated_At rs l : debug.allocated rs (debug.At l) <-> is_Some (rs !! l).
Proof.
  unfold debug.allocated. simpl. rewrite Forall_cons. split; [tauto|].
  intros H. split; [exact H|constructor].
Qed.

Lemma allocated_TeeReader rs r w :
  debug.allocated rs (debug.TeeReader r w) <-> debug.allocated rs r /\ is_Some (rs !! w).
Proof.
  unfold debug.allocated. simpl. rewrite !Forall_app, Forall_cons. tauto.
Qed.

Lemma allocated_sources rs r l :
  debug.allocated rs r -> In l (debug.sources r) -> is_Some (rs !! l).
Proof.
  unfold debug.allocated. rewrite Forall_app. intros [Hs _] Hin.
  rewrite List.Forall_forall in Hs. apply Hs. exact Hin.
Qed.

Lemma separate_TeeReader r w :
  debug.separate (debug.TeeReader r w) <-> ~ In w (debug.sources r) /\ debug.separate r.
Proof. unfold debug.separate. simpl. rewrite Forall_cons. reflexivity. Qed.

Lemma Write_frame w p rs l x :
  l <> w ->
  debug.Write w p (<[l := x]> rs) = insert l x <$> debug.Write w p rs.
Proof.
  intros Hl. unfold debug.Write. rewrite lookup_insert_ne by exact Hl.
  destruct (rs !! w) as [b|]; simpl; [|reflexivity].
  f_equal. apply insert_insert_ne. congruence.
Qed.

(** Reading does not look at an object that the reader does not point to,
    and leaves it alone. *)
Lemma ReadFrom_frame r : forall rs l x,
  debug.allocated rs r ->
  rs !! l = None ->
  debug.ReadFrom r (<[l := x]> rs)
  = prod_map id (insert l x) <$> debug.ReadFrom r rs.
Proof.
  induction r as [|l0|r IH w|r IH]; intros rs l x Halloc Hl; simpl.
  - reflexivity.
  - apply allocated_At in Halloc.
    assert (l <> l0) as Hne by (intros ->; rewrite Hl in Halloc; destruct Halloc; discriminate).
    rewrite lookup_insert_ne by exact Hne.
    destruct (rs !! l0) as [s|]; simpl; [|reflexivity].
    unfold prod_map. simpl. do 2 f_equal. apply insert_insert_ne. congruence.
  - apply allocated_TeeReader in Halloc as [Halloc Hw].
    assert (l <> w) as Hne by (intros ->; rewrite Hl in Hw; destruct Hw; discriminate).
    rewrite (IH rs l x Halloc Hl).
    destruct (debug.ReadFrom r rs) as [[[p e] rs1]|]; simpl; [|reflexivity].
    rewrite (Write_frame w p rs1 l x Hne).
    destruct (debug.Write w p rs1); reflexivity.
  - apply IH; assumption.
Qed.

Lemma spent_insert r : forall rs w b,
  debug.spent rs r -> ~ In w (debug.sources r) -> debug.spent (<[w := b]> rs) r.
Proof.
  induction r as [|l0|r IH w0|r IH]; intros rs w b Hspent Hw; simpl in *.
  - exact Hspent.
  - rewrite lookup_insert_ne; [exact Hspent|]. intros ->. apply Hw. now left.
  - destruct Hspent as [Hspent Hsome]. split; [now apply IH|].
    destruct (decide (w = w0)) as [->|Hne].
    + rewrite lookup_insert_eq. eauto.
    + now rewrite lookup_insert_ne.
  - now apply IH.
Qed.

(** A spent reader gives nothing and changes nothing. *)
Lemma ReadFrom_spent r : forall rs,
  debug.spent rs r -> debug.ReadFrom r rs = Some ((EmptyString, None), rs).
Proof.
  induction r as [|l0|r IH w|r IH]; intros rs Hspent; simpl in *.
  - contradiction.
  - rewrite Hspent. simpl. now rewrite (insert_id _ _ _ Hspent).
  - destruct Hspent as [Hspent [b Hb]]. rewrite (IH rs Hspent).
    unfold debug.Write. rewrite Hb, append_empty.
    destruct b as [p e]. simpl. now rewrite (insert_id _ _ _ Hb).
  - now apply IH.
Qed.

(** A reader that has been read to its end without an error is spent,
    unless a tee inside it has written back to what it reads. *)
Lemma spent_after r : forall rs p rs',
  debug.ReadFrom r rs = Some ((p, None), rs') ->
  debug.separate r ->
  debug.spent rs' r.
Proof.
  induction r as [|l0|r IH w|r IH]; intros rs p rs' Hread Hsep; simpl in *.
  - discriminate.
  - destruct (rs !! l0) as [[p0 e0]|]; [|discriminate]. simpl in Hread.
    injection Hread as Hp He Hrs. subst. apply lookup_insert_eq.
  - apply separate_TeeReader in Hsep as [Hw Hsep].
    destruct (debug.ReadFrom r rs) as [[[p0 e0] rs1]|] eqn:Hr; [|discriminate].
    unfold debug.Write in Hread.
    destruct (rs1 !! w) as [b|] eqn:Hb; [|discriminate].
    injection Hread as Hp He Hrs. subst.
    split; [|rewrite lookup_insert_eq; eauto].
    apply spent_insert; [|exact Hw]. exact (IH rs _ rs1 Hr Hsep).
  - exact (IH rs p rs' Hread Hsep).
Qed.

Lemma readers_Println args st : debug.readers (debug.Println args st) = debug.readers st.
Proof. unfold debug.Println. destruct (debug.Verbose st); reflexivity. Qed.

Lemma Verbose_Println args st : debug.Verbose (debug.Println args st) = debug.Verbose st.
Proof. unfold debug.Println. destruct (debug.Verbose st) eqn:Hv; simpl; congruence. Qed.

Lemma UnmaskAPIKey_Println args st :
  debug.UnmaskAPIKey (debug.Println args st) = debug.UnmaskAPIKey st.
Proof. unfold debug.Println. destruct (debug.Verbose st); reflexivity. Qed.

(** Reading through the tee that the two dump functions make, over the
    store with the fresh [bodyCopy]: what the body gives, with a copy of it
    in [bodyCopy]. *)
Lemma ReadFrom_tee r (rs : gmap loc debug.stream) p e rs1 :
  debug.allocated rs r ->
  debug.ReadFrom r rs = Some ((p, e), rs1) ->
  debug.ReadFrom (debug.TeeReader r (fresh (dom rs))) (<[fresh (dom rs) := debug.Buffer]> rs)
  = Some ((p, e),
          <[fresh (dom rs) := {| debug.pending := p; debug.failure := None |}]> rs1).
Proof.
  intros Halloc Hread. simpl.
  rewrite (ReadFrom_frame r rs _ debug.Buffer Halloc (fresh_unused rs)), Hread. simpl.
  unfold debug.Write. rewrite lookup_insert_eq. simpl.
  now rewrite insert_insert_eq.
Qed.

Lemma ReadFrom_tee_nil r (rs : gmap loc debug.stream) :
  debug.allocated rs r ->
  debug.ReadFrom r rs = None ->
  debug.ReadFrom (debug.TeeReader r (fresh (dom rs))) (<[fresh (dom rs) := debug.Buffer]> rs)
  = None.
Proof.
  intros Halloc Hread. simpl.
  now rewrite (ReadFrom_frame r rs _ debug.Buffer Halloc (fresh_unused rs)), Hread.
Qed.

(** ** [DumpRequest] *)

(** X11.  When [DumpRequest] returns, the request has the header values it came
    with, for every key, whatever the dump showed in their place; method,
    URL and declared length are the same, and so are the two switches. *)
Theorem DumpRequest_restores_the_header :
  forall (env : debug.Env) (req req' : debug.Request.t) (st st' : debug.state),
    debug.DumpRequest env req st = Returned (req', st') ->
    (forall key, Header_Get key (debug.Request.Header req')
                 = Header_Get key (debug.Request.Header req))
    /\ debug.Request.Method req' = debug.Request.Method req
    /\ debug.Request.URL req' = debug.Request.URL req
    /\ debug.Request.ContentLength req' = debug.Request.ContentLength req
    /\ debug.Verbose st' = debug.Verbose st
    /\ debug.UnmaskAPIKey st' = debug.UnmaskAPIKey st.
Proof.
  intros env req req' st st'. unfold debug.DumpRequest.
  destruct (debug.Verbose st) eqn:Hv; cbn [negb].
  2:{ intros H. injection H as <- <-. auto 10. }
  unfold debug.masked, debug.with_readers, debug.Request.with_Header,
    debug.Request.with_Body.
  cbn [debug.UnmaskAPIKey debug.readers debug.Request.Header debug.Request.Method
       debug.Request.URL debug.Request.ContentLength debug.Request.Body].
  destruct (debug.UnmaskAPIKey st) eqn:Hu.
  - destruct (debug.httputil_DumpRequest _ _ _ _) as [[[err|dump] rs]|]; try discriminate.
    intros H. injection H as <- <-.
    rewrite !Verbose_Println, !UnmaskAPIKey_Println.
    cbn [debug.Verbose debug.UnmaskAPIKey debug.Request.Header debug.Request.Method
         debug.Request.URL debug.Request.ContentLength].
    split; [apply Header_Get_restore|auto 10].
  - destruct (strings_Split _ _ !! 1%nat) as [field|]; [|discriminate].
    destruct (debug.httputil_DumpRequest _ _ _ _) as [[[err|dump] rs]|]; try discriminate.
    intros H. injection H as <- <-.
    rewrite !Verbose_Println, !UnmaskAPIKey_Println.
    cbn [debug.Verbose debug.UnmaskAPIKey debug.Request.Header debug.Request.Method
         debug.Request.URL debug.Request.ContentLength].
    split; [|auto 10]. intros key. rewrite Header_Set_Set. apply Header_Get_restore.
Qed.

Lemma DumpRequest_restores_the_header_witness :
  exists req' st',
    debug.DumpRequest Trace.env (Trace.patch (Trace.authorized "t0k3n-secret") 11)
      (Trace.session (Trace.whole "package bob") false) = Returned (req', st')
    /\ (forall key, Header_Get key (debug.Request.Header req')
                    = Header_Get key (Trace.authorized "t0k3n-secret")).
Proof.
  assert (exists req' st',
             debug.DumpRequest Trace.env (Trace.patch (Trace.authorized "t0k3n-secret") 11)
               (Trace.session (Trace.whole "package bob") false) = Returned (req', st'))
    as (req' & st' & Hrun) by (vm_compute; eauto).
  exists req', st'. split; [exact Hrun|].
  apply (DumpRequest_restores_the_header Trace.env _ req' _ st' Hrun).
Defined.

(** The header is restored as [Get] sees it, not as it was: a request that
    came without [Authorization] leaves an unmasked dump with an empty
    one. *)
Example DumpRequest_adds_an_empty_authorization :
  exists req' st',
    debug.DumpRequest Trace.env (Trace.patch Trace.anonymous 11)
      (Trace.session (Trace.whole "package bob") true) = Returned (req', st')
    /\ debug.Request.Header req'
       = [("Authorization", ""); ("User-Agent", "github.com/exercism/cli")]%string.
Proof. eexists _, _. vm_compute. split; reflexivity. Qed.

(** X12.  A verbose, masked [DumpRequest] panics on a request whose
    [Authorization] value has no space in it, and so on every request
    without that header: the second field of the value is taken without a
    look at how many there are. *)
Theorem DumpRequest_panics_without_second_field :
  forall (env : debug.Env) (req : debug.Request.t) (st : debug.state),
    debug.Verbose st = true ->
    debug.UnmaskAPIKey st = false ->
    ~ In " "%char
        (list_ascii_of_string (Header_Get "Authorization" (debug.Request.Header req))) ->
    debug.DumpRequest env req st = Panicked "index out of range".
Proof.
  intros env req st Hv Hu Hspace. unfold debug.DumpRequest. rewrite Hv. cbn [negb].
  unfold debug.masked, debug.with_readers, debug.Request.with_Body.
  cbn [debug.UnmaskAPIKey debug.Request.Header]. rewrite Hu.
  now rewrite (strings_Split_one _ _ Hspace).
Qed.

Lemma DumpRequest_panics_without_second_field_witness :
  debug.DumpRequest Trace.env (Trace.patch Trace.anonymous 11)
    (Trace.session (Trace.whole "package bob") false)
  = Panicked "index out of range".
Proof.
  apply (DumpRequest_panics_without_second_field Trace.env (Trace.patch Trace.anonymous 11)
           (Trace.session (Trace.whole "package bob") false)).
  - reflexivity.
  - reflexivity.
  - simpl. tauto.
Defined.

(** X13.  In a masked dump the [Authorization] value shows through [Redact] of
    its second field only: two requests that differ in that value alone,
    with second fields that [Redact] maps to the same text, leave the same
    output. *)
Theorem DumpRequest_shows_only_the_redacted_field :
  forall (env : debug.Env) (req : debug.Request.t) (st : debug.state)
         (v1 v2 field1 field2 : string),
    debug.UnmaskAPIKey st = false ->
    strings_Split v1 " " !! 1%nat = Some field1 ->
    strings_Split v2 " " !! 1%nat = Some field2 ->
    debug.Redact env field1 = debug.Redact env field2 ->
    debug.written
      (debug.DumpRequest env
         (debug.Request.with_Header req
            (http.Header_Set "Authorization" v1 (debug.Request.Header req))) st)
    = debug.written
        (debug.DumpRequest env
           (debug.Request.with_Header req
              (http.Header_Set "Authorization" v2 (debug.Request.Header req))) st).
Proof.
  intros env req st v1 v2 field1 field2 Hu H1 H2 Hredact. unfold debug.DumpRequest.
  destruct (debug.Verbose st) eqn:Hv; cbn [negb]; [|reflexivity].
  unfold debug.masked, debug.with_readers, debug.Request.with_Header,
    debug.Request.with_Body.
  cbn [debug.UnmaskAPIKey debug.readers debug.Request.Header debug.Request.Method
       debug.Request.URL debug.Request.ContentLength debug.Request.Body].
  rewrite Hu, !Header_Get_Set_same, H1, H2, !Header_Set_Set, Hredact.
  unfold debug.httputil_DumpRequest.
  cbn [debug.Request.Header debug.Request.Method debug.Request.URL
       debug.Request.ContentLength debug.Request.Body].
  destruct (debug.Request.ContentLength req >? 0); cbn [negb].
  - destruct (debug.ReadFrom _ _) as [[[p [err|]] rs]|]; try reflexivity.
    destruct (debug.render_Request env _ _ _ _ _); reflexivity.
  - destruct (debug.render_Request env _ _ _ _ _); reflexivity.
Qed.

Lemma DumpRequest_shows_only_the_redacted_field_witness :
  debug.written
    (debug.DumpRequest Trace.env
       (debug.Request.with_Header (Trace.patch Trace.anonymous 11)
          (http.Header_Set "Authorization" "Bearer t0k3n-secret" Trace.anonymous))
       (Trace.session (Trace.whole "package bob") false))
  = debug.written
      (debug.DumpRequest Trace.env
         (debug.Request.with_Header (Trace.patch Trace.anonymous 11)
            (http.Header_Set "Authorization" "Basic t0k3-other and more" Trace.anonymous))
         (Trace.session (Trace.whole "package bob") false)).
Proof.
  apply (DumpRequest_shows_only_the_redacted_field Trace.env (Trace.patch Trace.anonymous 11)
           (Trace.session (Trace.whole "package bob") false)
           "Bearer t0k3n-secret" "Basic t0k3-other and more" "t0k3n-secret" "t0k3-other");
    reflexivity.
Defined.

(** ** The bodies *)

Lemma fresh_not_source (rs : gmap loc debug.stream) r :
  debug.allocated rs r -> ~ In (fresh (dom rs)) (debug.sources r).
Proof.
  intros Halloc Hin. apply (allocated_sources rs r _ Halloc) in Hin.
  rewrite fresh_unused in Hin. destruct Hin. discriminate.
Qed.

(** X14.  A verbose [DumpRequest] of a request with a declared length above zero
    that returns has read the body to its end, without error, and leaves
    the request with a body that gives the same bytes. *)
Theorem DumpRequest_keeps_the_body :
  forall (env : debug.Env) (req req' : debug.Request.t) (st st' : debug.state),
    debug.Verbose st = true ->
    debug.Request.ContentLength req > 0 ->
    debug.allocated (debug.readers st) (debug.Request.Body req) ->
    debug.DumpRequest env req st = Returned (req', st') ->
    exists p,
      fmap fst (debug.ReadFrom (debug.Request.Body req) (debug.readers st)) = Some (p, None)
      /\ debug.Request.Body req' = debug.NopCloser (debug.At (fresh (dom (debug.readers st))))
      /\ fmap fst (debug.ReadFrom (debug.Request.Body req') (debug.readers st'))
         = Some (p, None).
Proof.
  intros env req req' st st' Hv Hlen Halloc. unfold debug.DumpRequest.
  rewrite Hv. cbn [negb].
  destruct (debug.masked _ _ _ _) as [h|]; [|discriminate].
  unfold debug.httputil_DumpRequest, debug.with_readers, debug.Request.with_Header,
    debug.Request.with_Body.
  cbn [debug.readers debug.Request.Header debug.Request.Method debug.Request.URL
       debug.Request.ContentLength debug.Request.Body].
  assert ((debug.Request.ContentLength req >? 0) = true) as -> by (apply Z.gtb_lt; lia).
  cbn [negb].
  change (debug.ReadFrom (debug.NopCloser ?r) ?rs) with (debug.ReadFrom r rs).
  destruct (debug.ReadFrom (debug.Request.Body req) (debug.readers st))
    as [[[p e] rs1]|] eqn:Hread.
  2:{ rewrite (ReadFrom_tee_nil _ _ Halloc Hread). discriminate. }
  rewrite (ReadFrom_tee _ _ _ _ _ Halloc Hread).
  destruct e as [err|]; [discriminate|].
  destruct (debug.render_Request env _ _ _ _ _) as [err|dump]; [discriminate|].
  intros H. injection H as <- <-.
  exists p. split; [reflexivity|]. split; [reflexivity|].
  rewrite !readers_Println. simpl. now rewrite lookup_insert_eq.
Qed.

Lemma DumpRequest_keeps_the_body_witness :
  exists req' st',
    debug.DumpRequest Trace.env (Trace.patch (Trace.authorized "t0k3n-secret") 11)
      (Trace.session (Trace.whole "package bob") false) = Returned (req', st')
    /\ exists p,
         fmap fst (debug.ReadFrom (debug.At 0%nat) {[ 0%nat := Trace.whole "package bob" ]})
         = Some (p, None)
         /\ debug.Request.Body req' = debug.NopCloser (debug.At 1%nat)
         /\ fmap fst (debug.ReadFrom (debug.Request.Body req') (debug.readers st'))
            = Some (p, None).
Proof.
  assert (exists req' st',
             debug.DumpRequest Trace.env (Trace.patch (Trace.authorized "t0k3n-secret") 11)
               (Trace.session (Trace.whole "package bob") false) = Returned (req', st'))
    as (req' & st' & Hrun) by (vm_compute; eauto).
  exists req', st'. split; [exact Hrun|].
  apply (DumpRequest_keeps_the_body Trace.env
           (Trace.patch (Trace.authorized "t0k3n-secret") 11) req'
           (Trace.session (Trace.whole "package bob") false) st');
    [reflexivity|reflexivity| |exact Hrun].
  apply allocated_At. vm_compute. eauto.
Defined.

(** X15.  A verbose [DumpRequest] of a request whose declared length is not above
    zero, as it is for a body of unknown length, does not read the body,
    and when it returns the request has an empty buffer in its place: the
    bytes are where they were, and the request no longer leads to them. *)
Theorem DumpRequest_drops_the_undeclared_body :
  forall (env : debug.Env) (req req' : debug.Request.t) (st st' : debug.state),
    debug.Verbose st = true ->
    debug.Request.ContentLength req <= 0 ->
    debug.DumpRequest env req st = Returned (req', st') ->
    debug.readers st' = <[fresh (dom (debug.readers st)) := debug.Buffer]> (debug.readers st)
    /\ debug.Request.Body req' = debug.NopCloser (debug.At (fresh (dom (debug.readers st))))
    /\ debug.ReadFrom (debug.Request.Body req') (debug.readers st')
       = Some ((EmptyString, None), debug.readers st').
Proof.
  intros env req req' st st' Hv Hlen. unfold debug.DumpRequest.
  rewrite Hv. cbn [negb].
  destruct (debug.masked _ _ _ _) as [h|]; [|discriminate].
  unfold debug.httputil_DumpRequest, debug.with_readers, debug.Request.with_Header,
    debug.Request.with_Body.
  cbn [debug.readers debug.Request.Header debug.Request.Method debug.Request.URL
       debug.Request.ContentLength debug.Request.Body].
  assert ((debug.Request.ContentLength req >? 0) = false) as ->
    by (rewrite Z.gtb_ltb; apply Z.ltb_ge; lia).
  cbn [negb].
  destruct (debug.render_Request env _ _ _ _ _) as [err|dump]; [discriminate|].
  intros H. injection H as <- <-.
  rewrite !readers_Println. cbn [debug.readers debug.Request.Body].
  split; [reflexivity|]. split; [reflexivity|].
  apply ReadFrom_spent. simpl. apply lookup_insert_eq.
Qed.

Lemma DumpRequest_drops_the_undeclared_body_witness :
  exists req' st',
    debug.DumpRequest Trace.env (Trace.patch (Trace.authorized "t0k3n-secret") (-1))
      (Trace.session (Trace.whole "package bob") false) = Returned (req', st')
    /\ debug.readers st'
       = <[1%nat := debug.Buffer]> {[ 0%nat := Trace.whole "package bob" ]}
    /\ debug.Request.Body req' = debug.NopCloser (debug.At 1%nat)
    /\ debug.ReadFrom (debug.Request.Body req') (debug.readers st')
       = Some ((EmptyString, None), debug.readers st').
Proof.
  assert (exists req' st',
             debug.DumpRequest Trace.env (Trace.patch (Trace.authorized "t0k3n-secret") (-1))
               (Trace.session (Trace.whole "package bob") false) = Returned (req', st'))
    as (req' & st' & Hrun) by (vm_compute; eauto).
  exists req', st'. split; [exact Hrun|].
  apply (DumpRequest_drops_the_undeclared_body Trace.env
           (Trace.patch (Trace.authorized "t0k3n-secret") (-1)) req'
           (Trace.session (Trace.whole "package bob") false) st');
    [reflexivity| |exact Hrun].
  simpl. lia.
Defined.

(** X16.  A verbose [DumpResponse] of a response with a declared length above
    zero that returns has read the body to its end and leaves the response
    with that drained body under a tee: a read of it gives nothing.  The
    bytes are in [bodyCopy], which the response has only as the tee's
    sink. *)
Theorem DumpResponse_consumes_the_body :
  forall (env : debug.Env) (res res' : debug.Response.t) (st st' : debug.state),
    debug.Verbose st = true ->
    debug.Response.ContentLength res > 0 ->
    debug.allocated (debug.readers st) (debug.Response.Body res) ->
    debug.separate (debug.Response.Body res) ->
    debug.DumpResponse env res st = Returned (res', st') ->
    debug.ReadFrom (debug.Response.Body res') (debug.readers st')
    = Some ((EmptyString, None), debug.readers st')
    /\ exists p,
         fmap fst (debug.ReadFrom (debug.Response.Body res) (debug.readers st)) = Some (p, None)
         /\ debug.readers st' !! fresh (dom (debug.readers st))
            = Some {| debug.pending := p; debug.failure := None |}
         /\ debug.sources (debug.Response.Body res') = debug.sources (debug.Response.Body res).
Proof.
  intros env res res' st st' Hv Hlen Halloc Hsep. unfold debug.DumpResponse.
  rewrite Hv. cbn [negb].
  unfold debug.httputil_DumpResponse, debug.with_readers, debug.Response.with_Body.
  cbn [debug.readers debug.Response.Header debug.Response.Status
       debug.Response.ContentLength debug.Response.Body].
  assert ((debug.Response.ContentLength res >? 0) = true) as -> by (apply Z.gtb_lt; lia).
  cbn [negb].
  destruct (debug.ReadFrom (debug.NopCloser _) _) as [[[p e] rs2]|] eqn:Htee; [|discriminate].
  destruct e as [err|]; [discriminate|].
  destruct (debug.render_Response env _ _ _ _) as [err|dump]; [discriminate|].
  intros H. injection H as <- <-.
  rewrite !readers_Println. cbn [debug.readers debug.Response.Body].
  split.
  - apply ReadFrom_spent. apply (spent_after _ _ _ _ Htee).
    apply separate_TeeReader. split; [now apply fresh_not_source|exact Hsep].
  - change (debug.ReadFrom (debug.NopCloser ?r) ?rs) with (debug.ReadFrom r rs) in Htee.
    destruct (debug.ReadFrom (debug.Response.Body res) (debug.readers st))
      as [[[p0 e0] rs1]|] eqn:Hread.
    2:{ rewrite (ReadFrom_tee_nil _ _ Halloc Hread) in Htee. discriminate. }
    rewrite (ReadFrom_tee _ _ _ _ _ Halloc Hread) in Htee.
    injection Htee as -> -> <-.
    exists p. split; [reflexivity|]. split; [apply lookup_insert_eq|reflexivity].
Qed.

Lemma DumpResponse_consumes_the_body_witness :
  exists res' st',
    debug.DumpResponse Trace.env (Trace.answer 2)
      (Trace.session (Trace.whole "{}") false) = Returned (res', st')
    /\ debug.ReadFrom (debug.Response.Body res') (debug.readers st')
       = Some ((EmptyString, None), debug.readers st')
    /\ exists p,
         fmap fst (debug.ReadFrom (debug.At 0%nat) {[ 0%nat := Trace.whole "{}" ]})
         = Some (p, None)
         /\ debug.readers st' !! 1%nat = Some {| debug.pending := p; debug.failure := None |}
         /\ debug.sources (debug.Response.Body res') = [0%nat].
Proof.
  assert (exists res' st',
             debug.DumpResponse Trace.env (Trace.answer 2)
               (Trace.session (Trace.whole "{}") false) = Returned (res', st'))
    as (res' & st' & Hrun) by (vm_compute; eauto).
  exists res', st'. split; [exact Hrun|].
  apply (DumpResponse_consumes_the_body Trace.env (Trace.answer 2) res'
           (Trace.session (Trace.whole "{}") false) st');
    [reflexivity|reflexivity| | |exact Hrun].
  - apply allocated_At. vm_compute. eauto.
  - constructor.
Defined.

(** X17.  A verbose [DumpResponse] of a response whose declared length is not
    above zero reads nothing, and when it returns the response has its
    body under a tee: a read of it gives what a read of the body would have
    given. *)
Theorem DumpResponse_leaves_the_undeclared_body :
  forall (env : debug.Env) (res res' : debug.Response.t) (st st' : debug.state),
    debug.Verbose st = true ->
    debug.Response.ContentLength res <= 0 ->
    debug.allocated (debug.readers st) (debug.Response.Body res) ->
    debug.DumpResponse env res st = Returned (res', st') ->
    debug.readers st' = <[fresh (dom (debug.readers st)) := debug.Buffer]> (debug.readers st)
    /\ fmap fst (debug.ReadFrom (debug.Response.Body res') (debug.readers st'))
       = fmap fst (debug.ReadFrom (debug.Response.Body res) (debug.readers st)).
Proof.
  intros env res res' st st' Hv Hlen Halloc. unfold debug.DumpResponse.
  rewrite Hv. cbn [negb].
  unfold debug.httputil_DumpResponse, debug.with_readers, debug.Response.with_Body.
  cbn [debug.readers debug.Response.Header debug.Response.Status
       debug.Response.ContentLength debug.Response.Body].
  assert ((debug.Response.ContentLength res >? 0) = false) as ->
    by (rewrite Z.gtb_ltb; apply Z.ltb_ge; lia).
  cbn [negb].
  destruct (debug.render_Response env _ _ _ _) as [err|dump]; [discriminate|].
  intros H. injection H as <- <-.
  rewrite !readers_Println. cbn [debug.readers debug.Response.Body].
  split; [reflexivity|].
  change (debug.ReadFrom (debug.NopCloser ?r) ?rs) with (debug.ReadFrom r rs).
  destruct (debug.ReadFrom (debug.Response.Body res) (debug.readers st))
    as [[[p e] rs1]|] eqn:Hread.
  - now rewrite (ReadFrom_tee _ _ _ _ _ Halloc Hread).
  - now rewrite (ReadFrom_tee_nil _ _ Halloc Hread).
Qed.

Lemma DumpResponse_leaves_the_undeclared_body_witness :
  exists res' st',
    debug.DumpResponse Trace.env (Trace.answer (-1))
      (Trace.session (Trace.whole "{}") false) = Returned (res', st')
    /\ debug.readers st' = <[1%nat := debug.Buffer]> {[ 0%nat := Trace.whole "{}" ]}
    /\ fmap fst (debug.ReadFrom (debug.Response.Body res') (debug.readers st'))
       = fmap fst (debug.ReadFrom (debug.At 0%nat) {[ 0%nat := Trace.whole "{}" ]}).
Proof.
  assert (exists res' st',
             debug.DumpResponse Trace.env (Trace.answer (-1))
               (Trace.session (Trace.whole "{}") false) = Returned (res', st'))
    as (res' & st' & Hrun) by (vm_compute; eauto).
  exists res', st'. split; [exact Hrun|].
  apply (DumpResponse_leaves_the_undeclared_body Trace.env (Trace.answer (-1)) res'
           (Trace.session (Trace.whole "{}") false) st');
    [reflexivity| | |exact Hrun].
  - simpl. lia.
  - apply allocated_At. vm_compute. eauto.
Defined.

(** X18.  A body of declared length above zero that breaks off while it is read
    for the dump ends the program: [DumpResponse] does not return, and the
    error of [log.Fatal] is the read's. *)
Theorem DumpResponse_read_error_is_fatal :
  forall (env : debug.Env) (res : debug.Response.t) (st : debug.state)
         (p : string) (err : fault) (rs1 : gmap loc debug.stream),
    debug.Verbose st = true ->
    debug.Response.ContentLength res > 0 ->
    debug.allocated (debug.readers st) (debug.Response.Body res) ->
    debug.ReadFrom (debug.Response.Body res) (debug.readers st) = Some ((p, Some err), rs1) ->
    debug.DumpResponse env res st = Fatal err.
Proof.
  intros env res st p err rs1 Hv Hlen Halloc Hread. unfold debug.DumpResponse.
  rewrite Hv. cbn [negb].
  unfold debug.httputil_DumpResponse, debug.with_readers, debug.Response.with_Body.
  cbn [debug.readers debug.Response.Header debug.Response.Status
       debug.Response.ContentLength debug.Response.Body].
  assert ((debug.Response.ContentLength res >? 0) = true) as -> by (apply Z.gtb_lt; lia).
  cbn [negb].
  change (debug.ReadFrom (debug.NopCloser ?r) ?rs) with (debug.ReadFrom r rs).
  now rewrite (ReadFrom_tee _ _ _ _ _ Halloc Hread).
Qed.

Lemma DumpResponse_read_error_is_fatal_witness :
  debug.DumpResponse Trace.env (Trace.answer 30) (Trace.session (Trace.cut "{") false)
  = Fatal Demo.resetByPeer.
Proof.
  apply (DumpResponse_read_error_is_fatal Trace.env (Trace.answer 30)
           (Trace.session (Trace.cut "{") false) "{" Demo.resetByPeer
           (<[0%nat := Trace.cut ""]> {[ 0%nat := Trace.cut "{" ]})).
  - reflexivity.
  - reflexivity.
  - apply allocated_At. vm_compute. eauto.
  - reflexivity.
Defined.

(** X19.  The same for a request: when the body of declared length above zero
    breaks off, a verbose [DumpRequest] that gets past the masking ends the
    program with the error of the read, and nothing is written. *)
Theorem DumpRequest_read_error_is_fatal :
  forall (env : debug.Env) (req : debug.Request.t) (st : debug.state)
         (p : string) (err : fault) (rs1 : gmap loc debug.stream),
    debug.Verbose st = true ->
    debug.Request.ContentLength req > 0 ->
    debug.allocated (debug.readers st) (debug.Request.Body req) ->
    debug.ReadFrom (debug.Request.Body req) (debug.readers st) = Some ((p, Some err), rs1) ->
    debug.DumpRequest env req st
    = match debug.masked env (debug.UnmaskAPIKey st)
              (Header_Get "Authorization" (debug.Request.Header req))
              (debug.Request.Header req) with
      | Some _ => Fatal err
      | None => Panicked "index out of range"
      end.
Proof.
  intros env req st p err rs1 Hv Hlen Halloc Hread. unfold debug.DumpRequest.
  rewrite Hv. cbn [negb].
  unfold debug.with_readers, debug.Request.with_Body.
  cbn [debug.UnmaskAPIKey debug.readers debug.Request.Header].
  destruct (debug.masked _ _ _ _) as [h|]; [|reflexivity].
  unfold debug.httputil_DumpRequest, debug.Request.with_Header.
  cbn [debug.readers debug.Request.Header debug.Request.Method debug.Request.URL
       debug.Request.ContentLength debug.Request.Body].
  assert ((debug.Request.ContentLength req >? 0) = true) as -> by (apply Z.gtb_lt; lia).
  cbn [negb].
  change (debug.ReadFrom (debug.NopCloser ?r) ?rs) with (debug.ReadFrom r rs).
  now rewrite (ReadFrom_tee _ _ _ _ _ Halloc Hread).
Qed.

Lemma DumpRequest_read_error_is_fatal_witness :
  debug.DumpRequest Trace.env (Trace.patch (Trace.authorized "t0k3n-secret") 11)
    (Trace.session (Trace.cut "package") false)
  = Fatal Demo.resetByPeer.
Proof.
  apply (DumpRequest_read_error_is_fatal Trace.env
           (Trace.patch (Trace.authorized "t0k3n-secret") 11)
           (Trace.session (Trace.cut "package") false) "package" Demo.resetByPeer
           (<[0%nat := Trace.cut ""]> {[ 0%nat := Trace.cut "package" ]})).
  - reflexivity.
  - reflexivity.
  - apply allocated_At. vm_compute. eauto.
  - reflexivity.
Defined.
